(** * GraphGPT / SGFormer example scripts: conversation templates, graph-token
    expansion, label masking and dataset indexing.

    Shallow embedding of [examples/graphgpt/nc_ft.py] and
    [examples/sgformer/lp_ft.py].  Python [str] values are [string]s (one
    [ascii] per code point below 256), Python [int]s are [Z], exceptions are
    an explicit [outcome], and printing is an explicit log.  The attributes
    of the class object [conversation_lib], which several functions read,
    are an explicit dictionary passed to them. *)

From Stdlib Require Import ZArith Lia Bool Ascii String List.
From Stdlib Require Import DecimalString.
From stdpp Require Import base option gmap strings list.

Local Open Scope Z_scope.

(** ** Exceptions *)

Inductive exn :=
| AssertionError
| ValueError
| TypeError
| KeyError
| IndexError
| AttributeError.

Inductive outcome (A : Type) :=
| Ok (a : A)
| Raise (e : exn).
Arguments Ok {A} a.
Arguments Raise {A} e.

#[global] Instance outcome_ret : MRet outcome := fun _ a => Ok a.
#[global] Instance outcome_bind : MBind outcome := fun _ _ f m =>
  match m with
  | Ok a => f a
  | Raise e => Raise e
  end.

(** [assert cond] *)
Definition py_assert (cond : bool) : outcome unit :=
  if cond then Ok tt else Raise AssertionError.

(** A [for] loop whose body may raise: the first exception ends it. *)
Fixpoint for_each {A B : Type} (f : A -> outcome B) (l : list A) : outcome (list B) :=
  match l with
  | [] => Ok []
  | a :: l' =>
      match f a with
      | Ok b => match for_each f l' with
                | Ok bs => Ok (b :: bs)
                | Raise e => Raise e
                end
      | Raise e => Raise e
      end
  end.

(** ** Sequence indexing *)

(** A slice bound [i] on a sequence of length [n]: a negative bound counts
    from the end, and the result is clamped to the sequence. *)
Definition slice_bound (n i : Z) : nat :=
  Z.to_nat (if i <? 0 then Z.max 0 (n + i) else Z.min i n).

(** [l[i]] for an integer [i]. *)
Definition py_index {A : Type} (l : list A) (i : Z) : outcome A :=
  let n := Z.of_nat (length l) in
  let j := if i <? 0 then n + i else i in
  if (0 <=? j) && (j <? n)
  then match l !! Z.to_nat j with
       | Some a => Ok a
       | None => Raise IndexError
       end
  else Raise IndexError.

(** [l[start:stop]]; an omitted bound is [None]. *)
Definition py_slice {A : Type} (l : list A) (start stop : option Z) : list A :=
  let n := Z.of_nat (length l) in
  let lo := slice_bound n (default 0 start) in
  let hi := slice_bound n (default n stop) in
  take (hi - lo) (drop lo l).

(** [t[start:stop] = v] on a one-dimensional tensor. *)
Definition fill_slice (start stop : option Z) (v : Z) (t : list Z) : list Z :=
  let n := Z.of_nat (length t) in
  let lo := slice_bound n (default 0 start) in
  let hi := slice_bound n (default n stop) in
  if (lo <? hi)%nat then take lo t ++ replicate (hi - lo) v ++ drop hi t else t.

(** ** Python string primitives *)

Module PyStr.

(** [len(s)] *)
Definition len (s : string) : Z := Z.of_nat (String.length s).

Fixpoint take (n : nat) (s : string) : string :=
  match n, s with
  | S k, String c s' => String c (take k s')
  | _, _ => EmptyString
  end.

Fixpoint drop (n : nat) (s : string) : string :=
  match n, s with
  | S k, String _ s' => drop k s'
  | _, _ => s
  end.

(** [s[:i]] *)
Definition slice_to (s : string) (i : Z) : string := take (slice_bound (len s) i) s.

(** [s[i:]] *)
Definition slice_from (s : string) (i : Z) : string := drop (slice_bound (len s) i) s.

(** [s.startswith(p)] *)
Fixpoint startswith (p s : string) : bool :=
  match p, s with
  | EmptyString, _ => true
  | String a p', String b s' => Ascii.eqb a b && startswith p' s'
  | String _ _, EmptyString => false
  end.

Fixpoint find_nat (sub s : string) : option nat :=
  if startswith sub s then Some O
  else match s with
       | EmptyString => None
       | String _ s' => S <$> find_nat sub s'
       end.

(** [s.find(sub)]: the lowest index of [sub], or [-1]. *)
Definition find (s sub : string) : Z :=
  match find_nat sub s with
  | Some i => Z.of_nat i
  | None => -1
  end.

(** [sub in s] *)
Definition contains (sub s : string) : bool :=
  match find_nat sub s with
  | Some _ => true
  | None => false
  end.

(** [s * n] *)
Fixpoint repeat_nat (s : string) (n : nat) : string :=
  match n with
  | O => EmptyString
  | S k => s +:+ repeat_nat s k
  end.

Definition mul (s : string) (n : Z) : string := repeat_nat s (Z.to_nat n).

(** Left-to-right scan shared by [replace], [count] and [split]: after a
    match the scan resumes behind the matched text ([skip] counts the
    characters of the match still to pass over). *)
Fixpoint replace_from (old new : string) (skip : nat) (s : string) : string :=
  match s with
  | EmptyString => EmptyString
  | String c s' =>
      match skip with
      | S k => replace_from old new k s'
      | O => if startswith old s
             then new +:+ replace_from old new (String.length old - 1) s'
             else String c (replace_from old new 0 s')
      end
  end.

Fixpoint interleave (new s : string) : string :=
  match s with
  | EmptyString => EmptyString
  | String c s' => String c (new +:+ interleave new s')
  end.

(** [s.replace(old, new)] *)
Definition replace (s old new : string) : string :=
  match old with
  | EmptyString => new +:+ interleave new s
  | String _ _ => replace_from old new 0 s
  end.

Fixpoint count_from (sub : string) (skip : nat) (s : string) : nat :=
  match s with
  | EmptyString => O
  | String _ s' =>
      match skip with
      | S k => count_from sub k s'
      | O => if startswith sub s
             then S (count_from sub (String.length sub - 1) s')
             else count_from sub 0 s'
      end
  end.

(** [s.count(sub)]: the number of non-overlapping occurrences. *)
Definition count (s sub : string) : nat :=
  match sub with
  | EmptyString => S (String.length s)
  | String _ _ => count_from sub 0 s
  end.

Fixpoint split_from (sep : string) (skip : nat) (s : string) : list string :=
  match s with
  | EmptyString => [EmptyString]
  | String c s' =>
      match skip with
      | S k => split_from sep k s'
      | O => if startswith sep s
             then EmptyString :: split_from sep (String.length sep - 1) s'
             else match split_from sep 0 s' with
                  | h :: t => String c h :: t
                  | [] => [String c EmptyString]
                  end
      end
  end.

(** Code points below 256 for which [str.isspace] holds. *)
Definition isspace (c : ascii) : bool :=
  let n := nat_of_ascii c in
  ((9 <=? n) && (n <=? 13) || (28 <=? n) && (n <=? 32)
   || (n =? 133) || (n =? 160))%nat.

(** [s.split()]: the maximal runs of non-space characters. *)
Fixpoint split_ws (cur : option string) (s : string) : list string :=
  match s with
  | EmptyString => match cur with Some w => [w] | None => [] end
  | String c s' =>
      if isspace c
      then match cur with
           | Some w => w :: split_ws None s'
           | None => split_ws None s'
           end
      else split_ws (Some (default EmptyString cur +:+ String c EmptyString)) s'
  end.

(** [s.split(sep)]; [sep = None] splits on white space and an empty
    separator is refused. *)
Definition split (s : string) (sep : option string) : outcome (list string) :=
  match sep with
  | None => Ok (split_ws None s)
  | Some EmptyString => Raise ValueError
  | Some sp => Ok (split_from sp 0 s)
  end.

Fixpoint lstrip (s : string) : string :=
  match s with
  | EmptyString => EmptyString
  | String c s' => if isspace c then lstrip s' else s
  end.

Fixpoint rstrip (s : string) : string :=
  match s with
  | EmptyString => EmptyString
  | String c s' =>
      match rstrip s' with
      | EmptyString => if isspace c then EmptyString else String c EmptyString
      | r => String c r
      end
  end.

(** [s.strip()] *)
Definition strip (s : string) : string := rstrip (lstrip s).

(** Occurrence of a character in a string. *)
Fixpoint has_char (c : ascii) (s : string) : bool :=
  match s with
  | EmptyString => false
  | String a s' => Ascii.eqb c a || has_char c s'
  end.

End PyStr.

(** ** Constants of [nc_ft.py] *)

Definition IGNORE_INDEX : Z := -100.
Definition DEFAULT_GRAPH_TOKEN : string := "<graph>".
Definition DEFAULT_GRAPH_PATCH_TOKEN : string := "<g_patch>".
Definition DEFAULT_G_START_TOKEN : string := "<g_start>".
Definition DEFAULT_G_END_TOKEN : string := "<g_end>".

(** ** Conversation templates *)

Inductive SeparatorStyle :=
| SINGLE
| TWO
| MPT.

(** The [sep_style] attribute is not checked when a conversation is built, so
    [get_prompt] can meet a value that is no member of the enumeration. *)
Inductive style_value :=
| Member (s : SeparatorStyle)
| Foreign (repr : string).

Inductive image := Image (width height : nat).

(** The second component of a turn: [None], a text, or the triple
    [(text, image, image_process_mode)]. *)
Inductive message :=
| MsgNone
| MsgText (text : string)
| MsgTuple (text : string) (img : image) (mode : string).

(** [if message:] *)
Definition truthy (m : message) : bool :=
  match m with
  | MsgNone => false
  | MsgText t => negb (String.eqb t "")
  | MsgTuple _ _ _ => true
  end.

(** The text used once the triple is unpacked. *)
Definition message_text (m : message) : string :=
  match m with
  | MsgNone => ""
  | MsgText t => t
  | MsgTuple t _ _ => t
  end.

Definition turn : Type := string * message.

(** The dataclass; [M] is what the [messages] attribute holds: the list
    itself, or a reference to it when sharing matters. *)
Record conversation_lib (M : Type) := Conversation {
  system : string;
  roles : list string;
  messages : M;
  offset : Z;
  sep_style : style_value;
  sep : string;
  sep2 : option string;
  version : string;
  skip_next : bool;
}.
Arguments Conversation {M}.
Arguments system {M}.
Arguments roles {M}.
Arguments messages {M}.
Arguments offset {M}.
Arguments sep_style {M}.
Arguments sep {M}.
Arguments sep2 {M}.
Arguments version {M}.
Arguments skip_next {M}.

Definition conversation : Type := conversation_lib (list turn).

(** Loop body of the SINGLE branch. *)
Definition single_step (sp : string) (ret : string) (t : turn) : string :=
  let '(role, m) := t in
  if truthy m then ret +:+ (role +:+ ": " +:+ message_text m +:+ sp)
  else ret +:+ (role +:+ ":").

(** Loop of the TWO branch; [seps[i % 2]] is [sep2] at odd [i], and adding
    [None] to a string is a [TypeError]. *)
Fixpoint two_loop (sp : string) (sp2 : option string) (i : nat) (ret : string)
    (ms : list turn) : outcome string :=
  match ms with
  | [] => Ok ret
  | (role, m) :: ms' =>
      if truthy m then
        match (if Nat.even i then Some sp else sp2) with
        | Some s => two_loop sp sp2 (S i) (ret +:+ (role +:+ ": " +:+ message_text m +:+ s)) ms'
        | None => Raise TypeError
        end
      else two_loop sp sp2 (S i) (ret +:+ (role +:+ ":")) ms'
  end.

(** Loop body of the MPT branch. *)
Definition mpt_step (sp : string) (ret : string) (t : turn) : string :=
  let '(role, m) := t in
  if truthy m then ret +:+ (role +:+ message_text m +:+ sp)
  else ret +:+ role.

Definition get_prompt (c : conversation) : outcome string :=
  match sep_style c with
  | Member SINGLE => Ok (fold_left (single_step (sep c)) (messages c) (system c +:+ sep c))
  | Member TWO => two_loop (sep c) (sep2 c) 0 (system c +:+ sep c) (messages c)
  | Member MPT => Ok (fold_left (mpt_step (sep c)) (messages c) (system c +:+ sep c))
  | Foreign _ => Raise ValueError
  end.

(** What holds the turns of a conversation object.  The templates of the
    module are built with a tuple ([messages=()] and the like, lines 397 to
    573); [copy] (line 367) and the assignment [conv.messages = []] (lines
    872 and 943) give a list. *)
Inductive container :=
| PyList
| PyTuple.

(** [self.messages.append([role, message])], where [held] says what
    [self.messages] is: a tuple has no [append]. *)
Definition append_message (held : container) (c : conversation) (role : string)
    (m : message) : outcome conversation :=
  match held with
  | PyList =>
      Ok (Conversation (system c) (roles c) (messages c ++ [(role, m)]) (offset c)
            (sep_style c) (sep c) (sep2 c) (version c) (skip_next c))
  | PyTuple => Raise AttributeError
  end.

(** [conv.messages = ms] *)
Definition set_messages {M N : Type} (c : conversation_lib M) (ms : N) : conversation_lib N :=
  Conversation (system c) (roles c) ms (offset c)
    (sep_style c) (sep c) (sep2 c) (version c) (skip_next c).

(** *** Objects and sharing

    A conversation object refers to its message list through a location of
    the store, so that two objects may or may not share one list. *)

Abbreviation loc := positive.
Abbreviation store := (gmap positive (list turn)).
Definition conversation_ref : Type := conversation_lib loc.

(** [copy]: the list comprehension builds a new list with the same turns;
    [version] and [skip_next] are not passed on and take the dataclass
    defaults. *)
Definition copy (c : conversation_ref) (h : store) : option (conversation_ref * store) :=
  ms ← h !! messages c;
  let l := fresh (dom h) in
  Some (Conversation (system c) (roles c) l (offset c)
          (sep_style c) (sep c) (sep2 c) "Unknown" false,
        <[l := ms]> h).

(** [copy] on a conversation held by value. *)
Definition copy_value (c : conversation) : conversation :=
  Conversation (system c) (roles c) (messages c) (offset c)
    (sep_style c) (sep c) (sep2 c) "Unknown" false.

(** The object read back from the store. *)
Definition deref (c : conversation_ref) (h : store) : option conversation :=
  ms ← h !! messages c; Some (set_messages c ms).

(** [append_message] on an object: the list is updated in place. *)
Definition append_message_ref (c : conversation_ref) (role : string) (m : message)
    (h : store) : store :=
  alter (fun ms => ms ++ [(role, m)]) (messages c) h.

(** *** Templates *)

Definition conv_v1_2 : conversation :=
  Conversation
    "A chat between a curious human and an artificial intelligence assistant. The assistant gives helpful, detailed, and polite answers to the human's questions."
    ["Human"; "Assistant"]
    [("Human", MsgText "What are the key differences between renewable and non-renewable energy sources?");
     ("Assistant", MsgText "Renewable energy sources are those that can be replenished naturally in a relatively short amount of time, such as solar, wind, hydro, geothermal, and biomass. Non-renewable energy sources, on the other hand, are finite and will eventually be depleted, such as coal, oil, and natural gas. Here are some key differences between renewable and non-renewable energy sources:
1. Availability: Renewable energy sources are virtually inexhaustible, while non-renewable energy sources are finite and will eventually run out.
2. Environmental impact: Renewable energy sources have a much lower environmental impact than non-renewable sources, which can lead to air and water pollution, greenhouse gas emissions, and other negative effects.
3. Cost: Renewable energy sources can be more expensive to initially set up, but they typically have lower operational costs than non-renewable sources.
4. Reliability: Renewable energy sources are often more reliable and can be used in more remote locations than non-renewable sources.
5. Flexibility: Renewable energy sources are often more flexible and can be adapted to different situations and needs, while non-renewable sources are more rigid and inflexible.
6. Sustainability: Renewable energy sources are more sustainable over the long term, while non-renewable sources are not, and their depletion can lead to economic and social instability.
")]
    2 (Member SINGLE) "###" None "Unknown" false.

Definition conv_vicuna_v1_1 : conversation :=
  Conversation
    "A chat between a curious user and an artificial intelligence assistant. The assistant gives helpful, detailed, and polite answers to the user's questions."
    ["USER"; "ASSISTANT"] [] 0 (Member TWO) " " (Some "</s>") "v1" false.

Definition conv_bair_v1 : conversation :=
  Conversation "BEGINNING OF CONVERSATION:" ["USER"; "GPT"] [] 0
    (Member TWO) " " (Some "</s>") "Unknown" false.

Definition conv_mpt : conversation :=
  Conversation
    "<|im_start|>system
- You are a helpful language and vision assistant.
- You are able to understand the visual content that the user provides, and assist the user with a variety of tasks using natural language.
- You should follow the instructions carefully and explain your answers in detail."
    ["<|im_start|>user
"; "<|im_start|>assistant
"] [] 0 (Member MPT) "<|im_end|>" None "mpt" false.

(** *** The class object

    The name [conversation_lib] is bound to the dataclass itself (line 232),
    so an expression [conversation_lib.x] reads the attribute [x] of the
    class: a field that has a default, a method, or a name assigned to the
    class since.  [SeparatorStyle], [default_conversation] and
    [conv_templates] are names of the module (lines 224, 580 and 581); the
    class statement gives the class no attribute of these names. *)

(** What an attribute of the class holds: the default of a field
    ([VStyle], [VStr], [VNone], [VBool]), a method, or one of the objects of
    the module when it has been assigned to the class: the enumeration
    [SeparatorStyle] ([VEnum]), a conversation, or a dictionary of
    templates such as [conv_templates]. *)
Inductive class_value :=
| VStyle (s : style_value)
| VStr (s : string)
| VNone
| VBool (b : bool)
| VMethod (name : string)
| VEnum
| VConversation (c : conversation)
| VTemplates (d : list (string * conversation)).

Abbreviation class_dict := (gmap string class_value).

(** The attributes the class statement defines (lines 232 to 390), the
    special names aside. *)
Definition conversation_lib_class : class_dict :=
  list_to_map
    [("sep_style", VStyle (Member SINGLE)); ("sep", VStr "###"); ("sep2", VNone);
     ("version", VStr "Unknown"); ("skip_next", VBool false);
     ("get_prompt", VMethod "get_prompt"); ("append_message", VMethod "append_message");
     ("get_images", VMethod "get_images");
     ("to_gradio_chatbot", VMethod "to_gradio_chatbot");
     ("copy", VMethod "copy"); ("dict", VMethod "dict")].

(** [conversation_lib.name] *)
Definition class_getattr (cls : class_dict) (name : string) : outcome class_value :=
  match cls !! name with
  | Some v => Ok v
  | None => Raise AttributeError
  end.

(** [conversation_lib.name = v] *)
Definition class_setattr (cls : class_dict) (name : string) (v : class_value)
    : class_dict :=
  <[name := v]> cls.

(** [conversation_lib.default_conversation] where the code goes on to read
    [roles], [sep], [system] or [version] off the value, or calls [copy()]
    and reads [roles] off the result: of the values above only a
    conversation gets through, any other ends in [AttributeError] before
    anything else is done. *)
Definition class_default_conversation (cls : class_dict) : outcome conversation :=
  v ← class_getattr cls "default_conversation";
  match v with
  | VConversation c => Ok c
  | _ => Raise AttributeError
  end.

(** [conversation_lib.SeparatorStyle.TWO] and [.MPT]: only the enumeration
    has these members. *)
Definition class_separator_style (cls : class_dict) (m : SeparatorStyle)
    : outcome SeparatorStyle :=
  v ← class_getattr cls "SeparatorStyle";
  match v with
  | VEnum => Ok m
  | _ => Raise AttributeError
  end.

(** [s == m] for a member [m] of the enumeration: a member is equal to
    itself only. *)
Definition is_member (m : SeparatorStyle) (s : style_value) : bool :=
  match s, m with
  | Member SINGLE, SINGLE => true
  | Member TWO, TWO => true
  | Member MPT, MPT => true
  | _, _ => false
  end.

(** ** Graph-token expansion *)

(** One turn of a conversation record: [{"from": ..., "value": ...}]. *)
Record sentence := Sentence {
  from : string;
  value : string;
}.

(** The entries of [graph_cfg] read by the expansion. *)
Record graph_cfg := GraphCfg {
  is_graph : bool;
  sep_graph_conv_front : bool;
  use_graph_start_end : bool;
}.

(** The text substituted for a marker: [n] patch tokens, bracketed when
    [use_graph_start_end] is set. *)
Definition replace_token (cfg : graph_cfg) (n : Z) : string :=
  let r := PyStr.mul DEFAULT_GRAPH_PATCH_TOKEN n in
  if use_graph_start_end cfg
  then DEFAULT_G_START_TOKEN +:+ r +:+ DEFAULT_G_END_TOKEN
  else r.

(** The [sep_graph_conv_front] block: the markers of the first turn are
    dropped and a single marker is put in front of it, followed by [sep]
    and the first role name of [conversation_lib.default_conversation].
    [cls] holds the attributes of the class at the time of the call.  The
    result is the source behind the block; when the block raises, the
    caller's list is left with what the statements before have written. *)
Definition graph_conv_front (cls : class_dict) (source : list sentence)
    : outcome (list sentence) :=
  match source with
  | [] => Raise IndexError
  | s0 :: rest =>
      _ ← py_assert (PyStr.contains DEFAULT_GRAPH_TOKEN (value s0));
      let v := PyStr.strip (PyStr.replace (value s0) DEFAULT_GRAPH_TOKEN "") in
      dc ← class_default_conversation cls;
      r0 ← py_index (roles dc) 0;
      Ok (Sentence (from s0) (DEFAULT_GRAPH_TOKEN +:+ sep dc +:+ r0 +:+ ": " +:+ v) :: rest)
  end.

Definition expand_sentence (cfg : graph_cfg) (n : Z) (s : sentence) : sentence :=
  Sentence (from s) (PyStr.replace (value s) DEFAULT_GRAPH_TOKEN (replace_token cfg n)).

Definition preprocess_graph (cls : class_dict) (sources : list (list sentence))
    (cfg : graph_cfg) (cur_token_len : Z) : outcome (list (list sentence)) :=
  if negb (is_graph cfg) then Ok sources
  else
    for_each (fun source : list sentence =>
                source' ← (if sep_graph_conv_front cfg
                           then graph_conv_front cls source else Ok source);
                Ok (map (expand_sentence cfg cur_token_len) source'))
             sources.

(** [v[:i] + r + v[i + len(DEFAULT_GRAPH_TOKEN):]] *)
Definition splice (v : string) (i : Z) (r : string) : string :=
  PyStr.slice_to v i +:+ r +:+ PyStr.slice_from v (i + PyStr.len DEFAULT_GRAPH_TOKEN).

Definition expand_value_LP (cfg : graph_cfg) (n1 n2 : Z) (v : string) : string :=
  let replace_token_1 := replace_token cfg n1 in
  let replace_token_2 := replace_token cfg n2 in
  if PyStr.contains DEFAULT_GRAPH_TOKEN v then
    let first_index := PyStr.find v DEFAULT_GRAPH_TOKEN in
    let v := splice v first_index replace_token_1 in
    let second_index := PyStr.find v DEFAULT_GRAPH_TOKEN in
    splice v second_index replace_token_2
  else v.

Definition expand_sentence_LP (cfg : graph_cfg) (n1 n2 : Z) (s : sentence) : sentence :=
  Sentence (from s) (expand_value_LP cfg n1 n2 (value s)).

Definition preprocess_graph_LP (cls : class_dict) (sources : list (list sentence))
    (cfg : graph_cfg) (cur_token_len_1 cur_token_len_2 : Z)
    : outcome (list (list sentence)) :=
  if negb (is_graph cfg) then Ok sources
  else
    for_each (fun source : list sentence =>
                source' ← (if sep_graph_conv_front cfg
                           then graph_conv_front cls source else Ok source);
                Ok (map (expand_sentence_LP cfg cur_token_len_1 cur_token_len_2) source'))
             sources.

(** ** Label masking ([preprocess_v1]) *)

(** [str(n)] for an integer. *)
Definition str_of_int (n : Z) : string := NilEmpty.string_of_int (Z.to_int n).

Definition mismatch_warning (cur_len total_len : Z) : string :=
  "WARNING: tokenization mismatch: " +:+ str_of_int cur_len +:+ " vs. "
    +:+ str_of_int total_len +:+ ". (ignored)".

Section LabelMasking.

(** The tokenizer is the caller's: [tokenize text] stands for
    [tokenizer(text).input_ids]. *)
Variable tokenize : string -> list Z.
Variable pad_token_id : Z.
Variable model_max_length : Z.

(** The attributes of the class [conversation_lib] at the time of the
    call. *)
Variable cls : class_dict.

(** [len(tokenizer(text).input_ids)] *)
Definition token_len (text : string) : Z := Z.of_nat (length (tokenize text)).

(** The batch call with [padding="longest"], [truncation=True] and
    [max_length=model_max_length], for a right-padding tokenizer: every row
    is cut to [model_max_length] tokens and filled up with the padding id
    to the longest row. *)
Definition encode_batch (texts : list string) : list (list Z) :=
  let rows := map (fun t => take (Z.to_nat model_max_length) (tokenize t)) texts in
  let width := max_list (map length rows) in
  map (fun r => r ++ replicate (width - length r) pad_token_id) rows.

(** [int(target.ne(tokenizer.pad_token_id).sum())] *)
Definition total_len (target : list Z) : Z :=
  Z.of_nat (length (filter (fun t => t ≠ pad_token_id) target)).

(** The loop over the rounds; both [break]s leave it with the cursor and
    the target as they are. *)
Fixpoint mask_rounds (sp : string) (rounds : list string) (cur_len : Z)
    (target : list Z) : outcome (Z * list Z) :=
  match rounds with
  | [] => Ok (cur_len, target)
  | rou :: rest =>
      if String.eqb rou "" then Ok (cur_len, target)
      else
        match PyStr.split rou (Some sp) with
        | Raise e => Raise e
        | Ok parts =>
            if negb (length parts =? 2)%nat then Ok (cur_len, target)
            else
              let parts0 := nth 0 parts "" +:+ sp in
              let round_len := token_len rou in
              let instruction_len := token_len parts0 - 2 in
              mask_rounds sp rest (cur_len + round_len)
                (fill_slice (Some cur_len) (Some (cur_len + instruction_len))
                   IGNORE_INDEX target)
        end
  end.

(** Body of the masking loop for one [(conversation, target)] pair; the
    result is the target row and the lines printed. *)
Definition mask_example (sp : string) (sp2 : option string)
    (conversation : string) (target : list Z) : outcome (list Z * list string) :=
  let total := total_len target in
  match PyStr.split conversation sp2 with
  | Raise e => Raise e
  | Ok rounds =>
      let target := fill_slice None (Some 1) IGNORE_INDEX target in
      match mask_rounds sp rounds 1 target with
      | Raise e => Raise e
      | Ok (cur_len, target) =>
          let target := fill_slice (Some cur_len) None IGNORE_INDEX target in
          if (cur_len <? model_max_length) && negb (cur_len =? total)
          then Ok (fill_slice None None IGNORE_INDEX target,
                   [mismatch_warning cur_len total])
          else Ok (target, [])
      end
  end.

(** [roles = {"human": conv.roles[0], "gpt": conv.roles[1]}] and its lookup. *)
Definition lookup_role (r0 r1 : string) (key : string) : outcome string :=
  if String.eqb key "human" then Ok r0
  else if String.eqb key "gpt" then Ok r1
  else Raise KeyError.

(** The loop over the sentences of one source; [conv.messages] is the list
    assigned in front of the loop. *)
Fixpoint add_turns (r0 r1 : string) (conv : conversation) (j : nat)
    (source : list sentence) : outcome conversation :=
  match source with
  | [] => Ok conv
  | s :: rest =>
      match lookup_role r0 r1 (from s) with
      | Raise e => Raise e
      | Ok role =>
          if String.eqb role (if Nat.even j then r0 else r1)
          then
            match append_message PyList conv role (MsgText (value s)) with
            | Raise e => Raise e
            | Ok conv => add_turns r0 r1 conv (S j) rest
            end
          else Raise AssertionError
      end
  end.

(** The prompt of one source. *)
Definition render_source (r0 r1 : string) (conv : conversation)
    (source : list sentence) : outcome string :=
  s0 ← py_index source 0;
  role0 ← lookup_role r0 r1 (from s0);
  let source' := if negb (String.eqb role0 r0) then tail source else source in
  conv' ← add_turns r0 r1 (set_messages conv []) 0 source';
  get_prompt conv'.

(** The [roles] dictionary and the first loop of [preprocess_v1] (lines 863
    to 878), for the conversation [conv] of line 862: the prompts of all
    sources. *)
Definition apply_templates (conv : conversation) (sources : list (list sentence))
    : outcome (list string) :=
  r0 ← py_index (roles conv) 0;
  r1 ← py_index (roles conv) 1;
  for_each (render_source r0 r1 conv) sources.

(** [sep = conv.sep + conv.roles[1] + ": "] *)
Definition instruction_sep (conv : conversation) (r1 : string) : string :=
  sep conv +:+ r1 +:+ ": ".

(** The result is [input_ids], [labels] and the lines printed. *)
Definition preprocess_v1 (sources : list (list sentence))
    : outcome (list (list Z) * list (list Z) * list string) :=
  dc ← class_default_conversation cls;
  let conv := copy_value dc in
  conversations ← apply_templates conv sources;
  let input_ids := encode_batch conversations in
  two ← class_separator_style cls TWO;
  _ ← py_assert (is_member two (sep_style conv));
  r1 ← py_index (roles conv) 1;
  let sp := instruction_sep conv r1 in
  res ← for_each (fun ct : string * list Z => mask_example sp (sep2 conv) ct.1 ct.2)
        (zip conversations input_ids);
  Ok (input_ids, map fst res, concat (map snd res)).

End LabelMasking.

(** ** Datasets *)

(** A dataset subscript: an integer or a slice [start:stop]. *)
Inductive index :=
| IInt (i : Z)
| ISlice (start stop : option Z).

(** What a subscript selects: one element or a sub-sequence. *)
Inductive selection (A : Type) :=
| One (a : A)
| Many (l : list A).
Arguments One {A} a.
Arguments Many {A} l.

(** [l[i]] *)
Definition py_getitem {A : Type} (l : list A) (i : index) : outcome (selection A) :=
  match i with
  | IInt k => a ← py_index l k; Ok (One a)
  | ISlice start stop => Ok (Many (py_slice l start stop))
  end.

(** The eager dataset holds the preprocessed rows. *)
Record SupervisedDataset := {
  sd_input_ids : list (list Z);
  sd_labels : list (list Z);
}.

(** [SupervisedDataset.__getitem__]:
    [dict(input_ids=self.input_ids[i], labels=self.labels[i])]. *)
Definition SupervisedDataset_getitem (d : SupervisedDataset) (i : index)
    : outcome (selection (list Z) * selection (list Z)) :=
  x ← py_getitem (sd_input_ids d) i;
  y ← py_getitem (sd_labels d) i;
  Ok (x, y).

Section Lazy.

(** A record of the JSON file and the item built from it. *)
Variable data_record : Type.
Variable item : Type.

(** The statements of [LazySupervisedDataset.__getitem__] behind the
    assertion, for an integer subscript: graph lookup, token expansion,
    [preprocess] and the [graph_data] entry. *)
Variable build_item : data_record -> outcome item.

(** [len(sources)] once an integer subscript is wrapped into a list. *)
Definition sources_len (i : index) (sel : selection data_record) : nat :=
  match i, sel with
  | IInt _, _ => 1
  | ISlice _ _, Many l => length l
  | ISlice _ _, One _ => 1
  end.

(** [LazySupervisedDataset.__getitem__].  Behind the assertion the code
    reads [self.list_data_dict[i]['id']], which is a [TypeError] on the
    list a slice selects. *)
Definition LazySupervisedDataset_getitem (list_data_dict : list data_record)
    (i : index) : outcome item :=
  sources ← py_getitem list_data_dict i;
  _ ← py_assert (sources_len i sources =? 1)%nat;
  match sources with
  | One r => build_item r
  | Many _ => Raise TypeError
  end.

End Lazy.

(** [NCDataset] of [lp_ft.py]. *)
Record NCDataset (G L : Type) := {
  name : string;
  graph : G;
  label : L;
}.
Arguments name {G L}.
Arguments graph {G L}.
Arguments label {G L}.

(** [NCDataset.__getitem__]; the dataset is threaded through the call. *)
Definition NCDataset_getitem {G L : Type} (d : NCDataset G L) (idx : Z)
    : outcome (G * L) * NCDataset G L :=
  (if idx =? 0 then Ok (graph d, label d) else Raise AssertionError, d).

(** [NCDataset.__len__] *)
Definition NCDataset_len {G L : Type} (d : NCDataset G L) : Z * NCDataset G L := (1, d).

(** ** Auxiliary definitions for the statements *)

(** The class once a caller has made the two assignments
    [conversation_lib.default_conversation = c] and
    [conversation_lib.SeparatorStyle = SeparatorStyle], which the module
    itself does not make. *)
Definition class_with (c : conversation) : class_dict :=
  class_setattr
    (class_setattr conversation_lib_class "default_conversation" (VConversation c))
    "SeparatorStyle" VEnum.

(** A tokenizer for the examples: id 1 opens every sequence, ["</s>"] is
    the single id 2 and id 0 is left for padding.

    The word-level tokenizer makes a token of every stretch between single
    spaces, so that a text ending in a space ends in the token of the empty
    stretch, as with a sentence-piece vocabulary. *)
Fixpoint word_id (w : string) : Z :=
  match w with
  | EmptyString => 3
  | String c w' => Z.of_nat (nat_of_ascii c) + word_id w'
  end.

Definition word_tokens (text : string) : list Z :=
  if String.eqb text "" then [] else map word_id (PyStr.split_from " " 0 text).

Fixpoint join_tokens (parts : list (list Z)) : list Z :=
  match parts with
  | [] => []
  | [p] => p
  | p :: rest => p ++ 2 :: join_tokens rest
  end.

Definition word_tokenizer (text : string) : list Z :=
  1 :: join_tokens (map word_tokens (PyStr.split_from "</s>" 0 text)).

(** The label positions that are not ignored. *)
Definition kept (labels : list Z) : list Z :=
  List.filter (fun t => negb (t =? IGNORE_INDEX)) labels.

(** The conversation of the two-turn example. *)
Definition two_turn_example (sys r0 r1 : string) : conversation :=
  Conversation sys [r0; r1] [(r0, MsgText "hi"); (r1, MsgText "hello")] 0
    (Member TWO) " " (Some "</s>") "v1" false.

(** A TWO conversation built without [sep2]. *)
Definition two_without_sep2 : conversation :=
  Conversation "" ["A"; "B"] [("A", MsgText "x"); ("B", MsgText "y")] 0
    (Member TWO) "###" None "Unknown" false.

(** The vicuna template as an object whose (empty) message list is at
    location 1. *)
Definition vicuna_object : conversation_ref := set_messages conv_vicuna_v1_1 1%positive.

(** An eager dataset of two examples. *)
Definition two_rows : SupervisedDataset :=
  {| sd_input_ids := [[1; 5; 6]; [1; 7; 0]];
     sd_labels := [[-100; 5; 6]; [-100; 7; -100]] |}.

(** What one turn adds to the prompt. *)
Definition single_piece (sp : string) (t : turn) : string :=
  if truthy t.2 then t.1 +:+ ": " +:+ message_text t.2 +:+ sp
  else t.1 +:+ ":".

Fixpoint single_body (sp : string) (ms : list turn) : string :=
  match ms with
  | [] => ""
  | t :: ms' => single_piece sp t +:+ single_body sp ms'
  end.

(** The turns whose message is not empty. *)
Definition spoken (ms : list turn) : list turn :=
  List.filter (fun t : turn => truthy t.2) ms.

(** No role name and no message text holds the character [c]. *)
Definition turns_free_of (c : ascii) (ms : list turn) : Prop :=
  Forall (fun t : turn =>
            PyStr.has_char c t.1 = false
            /\ PyStr.has_char c (message_text t.2) = false) ms.

(** A SINGLE conversation whose separator straddles its texts: neither the
    system prompt nor the turn holds ["abab"]. *)
Definition straddling : conversation :=
  Conversation "ab" ["ab"; "cd"] [("ab", MsgText "x")] 0
    (Member SINGLE) "abab" None "Unknown" false.

(** A SINGLE conversation with a question and the dangling answer prompt. *)
Definition single_dialogue : conversation :=
  Conversation "A chat." ["Human"; "Assistant"]
    [("Human", MsgText "Hi!"); ("Assistant", MsgNone)] 0
    (Member SINGLE) "###" None "Unknown" false.

(** [t0 x t1 x ... x tk] *)
Fixpoint join (x t0 : string) (ts : list string) : string :=
  match ts with
  | [] => t0
  | t1 :: ts' => t0 +:+ x +:+ join x t1 ts'
  end.

(** The flags of the documented command line: [--use_graph_start_end True]. *)
Definition bracketing : graph_cfg :=
  {| is_graph := true; sep_graph_conv_front := false; use_graph_start_end := true |}.

(** Dialogues for the examples. *)
Definition hi_hello : list (list sentence) :=
  [[Sentence "human" "hi"; Sentence "gpt" "hello"]].

Definition hi_hello_prompt : string :=
  "BEGINNING OF CONVERSATION: USER: hi GPT: hello</s>".

(** The prompt of the dialogue "hi", "hello", "bye". *)
Definition hi_hello_bye_prompt : string :=
  "BEGINNING OF CONVERSATION: USER: hi GPT: hello</s>USER: bye ".

(** The prompt of the dialogue "hi", "hello there friend". *)
Definition long_answer_prompt : string :=
  "BEGINNING OF CONVERSATION: USER: hi GPT: hello there friend</s>".

Definition two_dialogues : list (list sentence) :=
  [[Sentence "human" "hi"; Sentence "gpt" "hello there";
    Sentence "human" "and you"; Sentence "gpt" "fine"];
   [Sentence "human" "hi"; Sentence "gpt" "hello"]].

Definition two_rounds_prompt : string :=
  "BEGINNING OF CONVERSATION: USER: hi GPT: hello there</s>USER: and you GPT: fine</s>".
(** ** The other preprocessing paths of [nc_ft.py] *)

(** [str.lower] on code points below 256. *)
Definition lower_char (c : ascii) : ascii :=
  let n := nat_of_ascii c in
  if ((65 <=? n) && (n <=? 90)
      || (192 <=? n) && (n <=? 222) && negb (n =? 215))%nat
  then ascii_of_nat (n + 32) else c.

Fixpoint lower (s : string) : string :=
  match s with
  | EmptyString => EmptyString
  | String c s' => String (lower_char c) (lower s')
  end.

(** [sp.join(l)] *)
Definition str_join (sp : string) (l : list string) : string :=
  match l with
  | [] => ""
  | t0 :: ts => join sp t0 ts
  end.

(** [range(start, stop, step)] for a positive [step]. *)
Definition py_range (start stop step : Z) : list Z :=
  map (fun k => start + step * Z.of_nat k)
      (seq 0 (Z.to_nat ((stop - start + step - 1) / step))).

Definition BEGIN_SIGNAL : string := "### ".
Definition END_SIGNAL : string := String (ascii_of_nat 10) "".

(** [_mask_targets]: the loop over [zip(tokenized_lens, speakers)]. *)
Fixpoint mask_turns (cur_idx : Z) (target : list Z) (turns : list (Z * string))
    : list Z :=
  match turns with
  | [] => target
  | (tokenized_len, speaker) :: rest =>
      let target :=
        if String.eqb speaker "human"
        then fill_slice (Some (cur_idx + 2)) (Some (cur_idx + tokenized_len))
               IGNORE_INDEX target
        else target in
      mask_turns (cur_idx + tokenized_len) target rest
  end.

(** [_mask_targets]; the result is the target after the call. *)
Definition _mask_targets (target : list Z) (tokenized_lens : list Z)
    (speakers : list string) : outcome (list Z) :=
  cur_idx ← py_index tokenized_lens 0;
  let tokenized_lens := py_slice tokenized_lens (Some 1) None in
  let target := fill_slice None (Some cur_idx) IGNORE_INDEX target in
  Ok (mask_turns cur_idx target (zip tokenized_lens speakers)).

Section Preprocess.

Variable tokenize : string -> list Z.
Variable pad_token_id : Z.
Variable model_max_length : Z.

(** The attributes of the class [conversation_lib] at the time of the
    call. *)
Variable cls : class_dict.

(** [_tokenize_fn]: every text is tokenized by itself, so that "longest"
    adds no padding; the result holds [input_ids] and [input_ids_lens]
    ([labels] and [labels_lens] are the same two objects). *)
Definition _tokenize_fn (strings : list string) : list (list Z) * list Z :=
  let input_ids :=
    map (fun text => take (Z.to_nat model_max_length) (tokenize text)) strings in
  (input_ids, map (total_len pad_token_id) input_ids).

(** The name put in front of a sentence by [_add_speaker_and_signal]; the
    two role names are read off [conversation_lib.default_conversation]. *)
Definition speaker_name (from_str : string) : outcome string :=
  if String.eqb (lower from_str) "human"
  then dc ← class_default_conversation cls; py_index (roles dc) 0
  else if String.eqb (lower from_str) "gpt"
  then dc ← class_default_conversation cls; py_index (roles dc) 1
  else Ok "unknown".

(** The loop of [_add_speaker_and_signal]: the conversation text so far and
    the sentences with their rewritten [value]. *)
Fixpoint add_signals (get_conversation : bool) (conversation : string)
    (source : list sentence) : outcome (string * list sentence) :=
  match source with
  | [] => Ok (conversation, [])
  | sentence :: rest =>
      match speaker_name (from sentence) with
      | Raise e => Raise e
      | Ok from_str =>
          let v := BEGIN_SIGNAL +:+ from_str +:+ ": " +:+ value sentence +:+ END_SIGNAL in
          let conversation := if get_conversation then conversation +:+ v
                              else conversation in
          match add_signals get_conversation conversation rest with
          | Raise e => Raise e
          | Ok (c, rest') => Ok (c, Sentence (from sentence) v :: rest')
          end
      end
  end.

(** [_add_speaker_and_signal]; the second component is the source after
    the call, whose sentences the loop has rewritten in place. *)
Definition _add_speaker_and_signal (header : string) (source : list sentence)
    (get_conversation : bool) : outcome (string * list sentence) :=
  match add_signals get_conversation header source with
  | Raise e => Raise e
  | Ok (conversation, source') => Ok (conversation +:+ BEGIN_SIGNAL, source')
  end.

(** [re_rounds] of [preprocess_mpt]: the first three pieces, then the
    pieces two by two. *)
Definition regroup (sp : string) (rounds : list string) : list string :=
  str_join sp (py_slice rounds None (Some 3))
  :: map (fun conv_idx =>
            str_join sp (py_slice rounds (Some conv_idx) (Some (conv_idx + 2))))
       (py_range 3 (Z.of_nat (length rounds)) 2).

(** The loop over [re_rounds] in [preprocess_mpt]. *)
Fixpoint mask_rounds_mpt (sp conv_sep : string) (re_rounds : list string)
    (cur_len : Z) (target : list Z) : outcome (Z * list Z) :=
  match re_rounds with
  | [] => Ok (cur_len, target)
  | rou :: rest =>
      if String.eqb rou "" then Ok (cur_len, target)
      else
        match PyStr.split rou (Some sp) with
        | Raise e => Raise e
        | Ok parts =>
            if negb (length parts =? 2)%nat then Ok (cur_len, target)
            else
              let parts0 := nth 0 parts "" +:+ sp in
              let round_len := token_len tokenize rou + token_len tokenize conv_sep in
              let instruction_len := token_len tokenize parts0 in
              mask_rounds_mpt sp conv_sep rest (cur_len + round_len)
                (fill_slice (Some cur_len) (Some (cur_len + instruction_len))
                   IGNORE_INDEX target)
        end
  end.

(** Body of the masking loop of [preprocess_mpt] for one example. *)
Definition mask_example_mpt (sp conv_sep : string) (conversation : string)
    (target : list Z) : outcome (list Z * list string) :=
  let total := total_len pad_token_id target in
  match PyStr.split conversation (Some conv_sep) with
  | Raise e => Raise e
  | Ok rounds =>
      let re_rounds := regroup conv_sep rounds in
      let cur_len := 0 in
      let target := fill_slice None (Some cur_len) IGNORE_INDEX target in
      match mask_rounds_mpt sp conv_sep re_rounds cur_len target with
      | Raise e => Raise e
      | Ok (cur_len, target) =>
          let target := fill_slice (Some cur_len) None IGNORE_INDEX target in
          if (cur_len <? model_max_length) && negb (cur_len =? total)
          then Ok (fill_slice None None IGNORE_INDEX target,
                   [mismatch_warning cur_len total])
          else Ok (target, [])
      end
  end.

Definition preprocess_mpt (sources : list (list sentence))
    : outcome (list (list Z) * list (list Z) * list string) :=
  dc ← class_default_conversation cls;
  let conv := copy_value dc in
  conversations ← apply_templates conv sources;
  let input_ids := encode_batch tokenize pad_token_id model_max_length conversations in
  mpt ← class_separator_style cls MPT;
  _ ← py_assert (is_member mpt (sep_style conv));
  r1 ← py_index (roles conv) 1;
  let sp := sep conv +:+ r1 in
  res ← for_each (fun ct : string * list Z => mask_example_mpt sp (sep conv) ct.1 ct.2)
        (zip conversations input_ids);
  Ok (input_ids, map fst res, concat (map snd res)).

(** The path of [preprocess] for the other versions (lines 1015 to 1032):
    the ["### "] format.  The first loop builds [header] anew for every
    source; the second loop reads the variable as the first loop left it. *)
Definition preprocess_plain (sources : list (list sentence))
    : outcome (list (list Z) * list (list Z) * list string) :=
  signed ← for_each (fun source : list sentence =>
                       dc ← class_default_conversation cls;
                       let header := system dc +:+ END_SIGNAL +:+ END_SIGNAL in
                       cs ← _add_speaker_and_signal header source true;
                       Ok (header, cs)) sources;
  let header := default "" (last (map fst signed)) in
  let conversations := map (fun hcs : string * (string * list sentence) => hcs.2.1)
                         signed in
  let sources := map (fun hcs : string * (string * list sentence) => hcs.2.2)
                   signed in
  let input_ids := (_tokenize_fn conversations).1 in
  targets ← for_each (fun ts : list Z * list sentence =>
                        let tokenized_lens :=
                          (_tokenize_fn (header :: map value ts.2)).2 in
                        let speakers := map from ts.2 in
                        _mask_targets ts.1 tokenized_lens speakers)
            (zip input_ids sources);
  Ok (input_ids, targets, []).

(** [preprocess]: the path is chosen by the version of
    [conversation_lib.default_conversation], read once per comparison. *)
Definition preprocess (sources : list (list sentence))
    : outcome (list (list Z) * list (list Z) * list string) :=
  dc ← class_default_conversation cls;
  if String.eqb (version dc) "v1"
  then preprocess_v1 tokenize pad_token_id model_max_length cls sources
  else
    dc ← class_default_conversation cls;
    if String.eqb (version dc) "mpt"
    then preprocess_mpt sources
    else preprocess_plain sources.

End Preprocess.

(** ** Further exceptions

    The functions below raise exceptions outside [exn]. *)

Inductive fault :=
| Builtin (e : exn)
| UnboundLocalError
| NotImplementedError
| FileNotFoundError
| IsADirectoryError
| UnsupportedOperation
| TorchError.

Inductive attempt (A : Type) :=
| Done (a : A)
| Fault (f : fault).
Arguments Done {A} a.
Arguments Fault {A} f.

#[global] Instance attempt_ret : MRet attempt := fun _ a => Done a.
#[global] Instance attempt_bind : MBind attempt := fun _ _ f m =>
  match m with
  | Done a => f a
  | Fault e => Fault e
  end.

(** An [outcome] read as an [attempt]. *)
Definition lift {A : Type} (m : outcome A) : attempt A :=
  match m with
  | Ok a => Done a
  | Raise e => Fault (Builtin e)
  end.

(** ** Dictionaries in insertion order *)

(** [d[k] = v]: an existing key keeps its place. *)
Fixpoint dict_set {V : Type} (k : string) (v : V) (d : list (string * V))
    : list (string * V) :=
  match d with
  | [] => [(k, v)]
  | (k', v') :: d' =>
      if String.eqb k k' then (k, v) :: d' else (k', v') :: dict_set k v d'
  end.

(** [{k: v for k, v in pairs}] *)
Definition dict_of {V : Type} (pairs : list (string * V)) : list (string * V) :=
  fold_left (fun d kv => dict_set kv.1 kv.2 d) pairs [].

(** [d.get(k)] *)
Fixpoint dict_get {V : Type} (k : string) (d : list (string * V)) : option V :=
  match d with
  | [] => None
  | (k', v) :: d' => if String.eqb k k' then Some v else dict_get k d'
  end.

(** ** The adapter state helpers of [nc_ft.py] *)

Section Peft.

(** Parameters (tensors), their [requires_grad] flag, and what
    [maybe_zero_3] makes of a parameter (a detached copy). *)
Variable T : Type.
Variable requires_grad : T -> bool.
Variable maybe_zero_3 : T -> T.

(** The first loop of the "lora_only" branch. *)
Fixpoint lora_only_scan (named_params : list (string * T))
    (to_return : list (string * (T + string)))
    (maybe_lora_bias : list (string * T))
    (lora_bias_names : list string) (bias_name : option string)
    : list (string * (T + string)) * list (string * T) * list string * option string :=
  match named_params with
  | [] => (to_return, maybe_lora_bias, lora_bias_names, bias_name)
  | (k, t) :: rest =>
      if PyStr.contains "lora_" k then
        let bias_name := nth 0 (PyStr.split_from "lora_" 0 k) "" +:+ "bias" in
        lora_only_scan rest (dict_set k (inl t) to_return) maybe_lora_bias
          (bias_name :: lora_bias_names) (Some bias_name)
      else if PyStr.contains "bias" k then
        lora_only_scan rest to_return (dict_set k t maybe_lora_bias)
          lora_bias_names bias_name
      else lora_only_scan rest to_return maybe_lora_bias lora_bias_names bias_name
  end.

(** The second loop, [for k, t in maybe_lora_bias]: iterating a dictionary
    yields its keys, and each key, a string, is unpacked into [k] and [t],
    which needs a string of exactly two characters. *)
Fixpoint lora_only_bias (keys : list string)
    (to_return : list (string * (T + string)))
    (lora_bias_names : list string) (bias_name : option string)
    : attempt (list (string * (T + string))) :=
  match keys with
  | [] => Done to_return
  | key :: rest =>
      match key with
      | String _ (String t EmptyString) =>
          match bias_name with
          | None => Fault UnboundLocalError
          | Some name =>
              let to_return :=
                if existsb (String.eqb name) lora_bias_names
                then dict_set name (inr (String t EmptyString)) to_return
                else to_return in
              lora_only_bias rest to_return lora_bias_names bias_name
          end
      | _ => Fault (Builtin ValueError)
      end
  end.

(** The closing comprehension: [maybe_zero_3] needs a tensor. *)
Fixpoint gather_all (d : list (string * (T + string))) : attempt (list (string * T)) :=
  match d with
  | [] => Done []
  | (k, inl t) :: d' =>
      match gather_all d' with
      | Done r => Done ((k, maybe_zero_3 t) :: r)
      | Fault f => Fault f
      end
  | (_, inr _) :: _ => Fault (Builtin AttributeError)
  end.

Definition get_peft_state_maybe_zero_3 (named_params : list (string * T))
    (bias : string) : attempt (list (string * T)) :=
  to_return ←
    (if String.eqb bias "none" then
       Done (dict_of (List.filter (fun kt : string * (T + string) =>
                                     PyStr.contains "lora_" kt.1)
                        (map (fun kt : string * T => (kt.1, inl kt.2)) named_params)))
     else if String.eqb bias "all" then
       Done (dict_of (List.filter (fun kt : string * (T + string) =>
                                     PyStr.contains "lora_" kt.1
                                     || PyStr.contains "bias" kt.1)
                        (map (fun kt : string * T => (kt.1, inl kt.2)) named_params)))
     else if String.eqb bias "lora_only" then
       let '(to_return, maybe_lora_bias, lora_bias_names, bias_name) :=
         lora_only_scan named_params [] [] [] None in
       lora_only_bias (map fst maybe_lora_bias) to_return lora_bias_names bias_name
     else Fault NotImplementedError);
  gather_all to_return.

Definition get_peft_state_non_lora_maybe_zero_3 (named_params : list (string * T))
    (require_grad_only : bool) : list (string * T) :=
  let to_return :=
    dict_of (List.filter (fun kt : string * T => negb (PyStr.contains "lora_" kt.1))
               named_params) in
  let to_return :=
    if require_grad_only
    then List.filter (fun kt : string * T => requires_grad kt.2) to_return
    else to_return in
  map (fun kt : string * T => (kt.1, maybe_zero_3 kt.2)) to_return.

End Peft.

Section LinearNames.

(** Modules, and whether one is a [torch.nn.Linear]. *)
Variable M : Type.
Variable is_linear : M -> bool.

Fixpoint linear_names (named_modules : list (string * M)) (acc : gset string)
    : outcome (gset string) :=
  match named_modules with
  | [] => Ok acc
  | (name, module) :: rest =>
      if is_linear module then
        let names := PyStr.split_from "." 0 name in
        match (if (length names =? 1)%nat then py_index names 0
               else py_index names (-1)) with
        | Ok x => linear_names rest ({[x]} ∪ acc)
        | Raise e => Raise e
        end
      else linear_names rest acc
  end.

(** The result is a list made from a set: its order is not fixed, so the
    set is returned. *)
Definition find_all_linear_names (named_modules : list (string * M))
    : outcome (gset string) :=
  lora_module_names ← linear_names named_modules ∅;
  Ok (if decide ("lm_head" ∈ lora_module_names)
      then lora_module_names ∖ {["lm_head"]}
      else lora_module_names).

End LinearNames.

(** ** The collator *)

(** An item of a dataset: [input_ids], [labels], and [graph_data] when the
    key is there. *)
Record instance (G : Type) := Instance {
  inst_input_ids : list Z;
  inst_labels : list Z;
  inst_graph_data : option G;
}.
Arguments Instance {G}.
Arguments inst_input_ids {G}.
Arguments inst_labels {G}.
Arguments inst_graph_data {G}.

Record batch (G : Type) := Batch {
  batch_input_ids : list (list Z);
  batch_labels : list (list Z);
  batch_attention_mask : list (list bool);
  batch_graph_data : list G;
}.
Arguments Batch {G}.
Arguments batch_input_ids {G}.
Arguments batch_labels {G}.
Arguments batch_attention_mask {G}.
Arguments batch_graph_data {G}.

(** [torch.nn.utils.rnn.pad_sequence(sequences, batch_first=True,
    padding_value=v)]: every row is filled up on the right to the longest;
    an empty list is refused. *)
Definition pad_sequence (sequences : list (list Z)) (padding_value : Z)
    : attempt (list (list Z)) :=
  match sequences with
  | [] => Fault TorchError
  | _ =>
      let width := max_list (map length sequences) in
      Done (map (fun r => r ++ replicate (width - length r) padding_value) sequences)
  end.

(** [[instance['graph_data'] for instance in instances]] *)
Fixpoint graph_data_of {G : Type} (instances : list (instance G)) : attempt (list G) :=
  match instances with
  | [] => Done []
  | i :: rest =>
      match inst_graph_data i with
      | None => Fault (Builtin KeyError)
      | Some g =>
          match graph_data_of rest with
          | Done gs => Done (g :: gs)
          | Fault f => Fault f
          end
      end
  end.

(** [DataCollatorForSupervisedDataset.__call__]; [graph_data_batch] is
    assigned only under the [if] and read behind it. *)
Definition DataCollatorForSupervisedDataset_call {G : Type} (pad_token_id : Z)
    (instances : list (instance G)) : attempt (batch G) :=
  input_ids ← pad_sequence (map inst_input_ids instances) pad_token_id;
  labels ← pad_sequence (map inst_labels instances) IGNORE_INDEX;
  let attention_mask := map (map (fun t => negb (t =? pad_token_id))) input_ids in
  first ← lift (py_index instances 0);
  graph_data_batch ←
    match inst_graph_data first with
    | Some _ => gs ← graph_data_of instances; Done (Some gs)
    | None => Done None
    end;
  match graph_data_batch with
  | Some gs => Done (Batch input_ids labels attention_mask gs)
  | None => Fault UnboundLocalError
  end.

(** ** [lp_ft.py]: the logger, the random split, the data file *)

(** [Logger.__init__]: [self.results = [[] for _ in range(runs)]] *)
Definition Logger_init {A : Type} (runs : Z) : list (list (list A)) :=
  replicate (Z.to_nat runs) [].

(** [Logger.add_result]; the result is [self.results] after the call. *)
Definition add_result {A : Type} (results : list (list (list A))) (run : Z)
    (result : list A) : outcome (list (list (list A))) :=
  _ ← py_assert (length result =? 4)%nat;
  _ ← py_assert ((0 <=? run) && (run <? Z.of_nat (length results)));
  Ok (alter (fun r => r ++ [result]) (Z.to_nat run) results).

(** A label tensor with one or with two dimensions. *)
Inductive label_tensor :=
| Label1 (l : list Z)
| Label2 (rows : list (list Z)).

(** [label.shape[0]] *)
Definition shape0 (label : label_tensor) : Z :=
  match label with
  | Label1 l => Z.of_nat (length l)
  | Label2 rows => Z.of_nat (length rows)
  end.

(** [torch.where(label != -1)[0]]: the first coordinate of every entry
    other than [-1], row by row. *)
Definition where_labeled (label : label_tensor) : list Z :=
  match label with
  | Label1 l =>
      concat (imap (fun i x => if x =? -1 then [] else [Z.of_nat i]) l)
  | Label2 rows =>
      concat (imap (fun i row =>
                      map (fun _ => Z.of_nat i)
                          (List.filter (fun x => negb (x =? -1)) row))
                   rows)
  end.

(** [t[idx]] for a tensor of indices. *)
Definition index_select (t : list Z) (idx : list Z) : outcome (list Z) :=
  for_each (py_index t) idx.

Section RandomSplit.

(** The proportions are floating-point numbers: [scale n p] stands for
    [int(n * p)], and [permutation n] for [np.random.permutation(n)]. *)
Variable proportion : Type.
Variable scale : Z -> proportion -> Z.
Variable permutation : Z -> list Z.

Definition rand_train_test_idx (label : label_tensor)
    (train_prop valid_prop : proportion) (ignore_negative : bool)
    : outcome (list Z * list Z * list Z) :=
  let n := if ignore_negative then Z.of_nat (length (where_labeled label))
           else shape0 label in
  let train_num := scale n train_prop in
  let valid_num := scale n valid_prop in
  let perm := permutation n in
  let train_indices := py_slice perm None (Some train_num) in
  let val_indices := py_slice perm (Some train_num) (Some (train_num + valid_num)) in
  let test_indices := py_slice perm (Some (train_num + valid_num)) None in
  if negb ignore_negative then Ok (train_indices, val_indices, test_indices)
  else
    let labeled_nodes := where_labeled label in
    train_idx ← index_select labeled_nodes train_indices;
    valid_idx ← index_select labeled_nodes val_indices;
    test_idx ← index_select labeled_nodes test_indices;
    Ok (train_idx, valid_idx, test_idx).

End RandomSplit.

(** The file system, as far as [OAG_cs_dataset] meets it. *)
Inductive node :=
| File (content : list Z)
| Dir.

Abbreviation files := (gmap string node).

Inductive mode := RB | WB.

(** [os.path.join(a, b)] for a relative [b]. *)
Definition path_join (a b : string) : string :=
  if PyStr.startswith "/" b then b
  else if String.eqb a "" || String.eqb (PyStr.slice_from a (-1)) "/" then a +:+ b
  else a +:+ "/" +:+ b.

(** [open(path, mode)]: opening for writing empties the file or creates
    it. *)
Definition open_file (fs : files) (path : string) (m : mode)
    : attempt (string * mode) * files :=
  match fs !! path, m with
  | Some Dir, _ => (Fault IsADirectoryError, fs)
  | Some (File _), RB => (Done (path, RB), fs)
  | None, RB => (Fault FileNotFoundError, fs)
  | _, WB => (Done (path, WB), <[path := File []]> fs)
  end.

Section DataFile.

(** The stored object, and [pickle.loads] on the bytes of a file. *)
Variable D : Type.
Variable unpickle : list Z -> attempt D.

(** [pickle.load(f)]: reading needs a file opened for reading. *)
Definition pickle_load (fs : files) (f : string * mode) : attempt D :=
  match f.2 with
  | WB => Fault UnsupportedOperation
  | RB => match fs !! f.1 with
          | Some (File content) => unpickle content
          | _ => Fault FileNotFoundError
          end
  end.

(** [OAG_cs_dataset]: [None] is returned when the file is not there. *)
Definition OAG_cs_dataset (fs : files) (data_dir : string)
    : attempt (option D) * files :=
  let data_path := path_join (path_join data_dir "OAG_CS") "homograph.pkl" in
  if bool_decide (is_Some (fs !! data_path)) then
    match open_file fs data_path WB with
    | (Fault e, fs) => (Fault e, fs)
    | (Done f, fs) =>
        match pickle_load fs f with
        | Fault e => (Fault e, fs)
        | Done res => (Done (Some res), fs)
        end
    end
  else (Done None, fs).

(** The first statements of [train] in [lp_ft.py]: the dataset is loaded
    and its [label] attribute is read; [rest] stands for the statements
    that follow. *)
Definition train_start {R : Type} (rest : D -> files -> attempt R * files)
    (fs : files) (data_dir : string) : attempt R * files :=
  match OAG_cs_dataset fs data_dir with
  | (Fault e, fs) => (Fault e, fs)
  | (Done None, fs) => (Fault (Builtin AttributeError), fs)
  | (Done (Some dataset), fs) => rest dataset fs
  end.

End DataFile.

(** ** The items of [LazySupervisedDataset] *)

(** The ['graph'] entry of a record: a dictionary whose keys are read one
    by one. *)
Record graph_entry := GraphEntry {
  g_edge_index : option (list (list Z));
  g_node_list : option (list Z);
  g_node_idx : option Z;
  g_edge_index_1 : option (list (list Z));
  g_node_list_1 : option (list Z);
  g_node_idx_1 : option Z;
  g_edge_index_2 : option (list (list Z));
  g_node_list_2 : option (list Z);
  g_node_idx_2 : option Z;
}.

(** A record of the JSON file. *)
Record json_record := JsonRecord {
  rec_id : string;
  rec_graph : option graph_entry;
  rec_conversations : list sentence;
}.

(** [Data(graph_node=..., edge_index=..., target_node=...)] over feature
    rows of type [F]. *)
Record Data (F : Type) := MkData {
  data_graph_node : list F;
  data_edge_index : list (list Z);
  data_target_node : list Z;
}.
Arguments MkData {F}.
Arguments data_graph_node {F}.
Arguments data_edge_index {F}.
Arguments data_target_node {F}.

(** The ['graph_data'] entry of an item: one graph, the two graphs of a
    link-prediction record, or the all-zero stand-in with [node_feas]
    columns. *)
Inductive graph_data (F : Type) :=
| OneGraph (d : Data F)
| TwoGraphs (graph_1 graph_2 : Data F)
| ZeroGraph (node_feas : Z).
Arguments OneGraph {F} d.
Arguments TwoGraphs {F} graph_1 graph_2.
Arguments ZeroGraph {F} node_feas.

(** [d[key]] for a key that may be missing. *)
Definition key {A : Type} (entry : option A) : outcome A :=
  match entry with
  | Some a => Ok a
  | None => Raise KeyError
  end.

Section LazyItem.

Variable tokenize : string -> list Z.
Variable pad_token_id : Z.
Variable model_max_length : Z.

(** The attributes of the class [conversation_lib] at the time of the
    call. *)
Variable cls : class_dict.

(** Feature rows; [self.graph_data_all], from graph type to the rows of
    [x]; [as_long v] stands for the entry [v] of [torch.Tensor(...).long()];
    [self.graph_cfg], and [node_feas] of its ['graph_processor'] entry when
    the dictionary has one. *)
Variable F : Type.
Variable graph_data_all : gmap string (list F).
Variable as_long : Z -> Z.
Variable cfg : graph_cfg.
Variable node_feas : option Z.

(** The [graph_data] entry of a record without a graph: the stand-in when
    [is_graph] is set, no entry otherwise. *)
Definition stand_in : outcome (option (graph_data F)) :=
  if is_graph cfg then n ← key node_feas; Ok (Some (ZeroGraph n))
  else Ok None.

(** [self.graph_data_all[graph_type].x[node_list]] *)
Definition node_rows (graph_type : string) (node_list : list Z) : outcome (list F) :=
  x ← key (graph_data_all !! graph_type);
  for_each (py_index x) node_list.

(** The statements of [__getitem__] behind the assertion, for an integer
    subscript: the item and the lines printed.  The [graph_data] entry is
    made last, behind [preprocess]; the second component of [prepared] is
    that last step. *)
Definition lazy_item (r : json_record)
    : outcome (instance (graph_data F) * list string) :=
  task_type ← py_index (PyStr.split_from "_" 0 (rec_id r)) (-1);
  prepared ←
    (if negb (String.eqb task_type "LP") then
       match rec_graph r with
       | Some graph_dict =>
           edge_index ← key (g_edge_index graph_dict);
           let graph_edge_index := map (map as_long) edge_index in
           graph_node_list ← key (g_node_list graph_dict);
           target_node ← key (g_node_idx graph_dict);
           graph_type ← py_index (PyStr.split_from "_" 0 (rec_id r)) 0;
           graph_node_rep ← node_rows graph_type graph_node_list;
           let cur_token_len := Z.of_nat (length graph_node_rep) in
           sources ← preprocess_graph cls [rec_conversations r] cfg cur_token_len;
           Ok (sources,
               Ok (Some (OneGraph
                           (MkData graph_node_rep graph_edge_index [target_node]))))
       | None => Ok ([rec_conversations r], stand_in)
       end
     else
       match rec_graph r with
       | Some graph_dict =>
           edge_index_1 ← key (g_edge_index_1 graph_dict);
           let graph_edge_index_1 := map (map as_long) edge_index_1 in
           graph_node_list_1 ← key (g_node_list_1 graph_dict);
           target_node_1 ← key (g_node_idx_1 graph_dict);
           graph_type ← py_index (PyStr.split_from "_" 0 (rec_id r)) 0;
           graph_node_rep_1 ← node_rows graph_type graph_node_list_1;
           let cur_token_len_1 := Z.of_nat (length graph_node_rep_1) in
           edge_index_2 ← key (g_edge_index_2 graph_dict);
           let graph_edge_index_2 := map (map as_long) edge_index_2 in
           graph_node_list_2 ← key (g_node_list_2 graph_dict);
           target_node_2 ← key (g_node_idx_2 graph_dict);
           graph_node_rep_2 ← node_rows graph_type graph_node_list_2;
           let cur_token_len_2 := Z.of_nat (length graph_node_rep_2) in
           sources ← preprocess_graph_LP cls [rec_conversations r]
                       cfg cur_token_len_1 cur_token_len_2;
           Ok (sources,
               Ok (Some (TwoGraphs
                           (MkData graph_node_rep_1 graph_edge_index_1 [target_node_1])
                           (MkData graph_node_rep_2 graph_edge_index_2
                              [target_node_2]))))
       | None => Ok ([rec_conversations r], stand_in)
       end);
  data_dict ← preprocess tokenize pad_token_id model_max_length cls prepared.1;
  input_ids ← py_index data_dict.1.1 0;
  labels ← py_index data_dict.1.2 0;
  graph_data ← prepared.2;
  Ok (Instance input_ids labels graph_data, data_dict.2).

End LazyItem.

(** [d["vicuna_v1_1"]] on the value of [conversation_lib.conv_templates]:
    a dictionary is looked up, the enumeration has no member of this name,
    and the other values cannot be subscripted. *)
Definition subscript_vicuna (v : class_value) : outcome conversation :=
  match v with
  | VTemplates d => key (dict_get "vicuna_v1_1" d)
  | VEnum => Raise KeyError
  | _ => Raise TypeError
  end.

(** The template selection of [train] (lines 1312 to 1316): for the version
    "v1" the class is given the attribute [default_conversation], any other
    version is refused.  The result is the attributes of the class behind
    the statement; the assignment to [tokenizer.pad_token] in front of it is
    left out. *)
Definition train_conversation (cls : class_dict) (version : string)
    : outcome class_dict :=
  if String.eqb version "v1" then
    templates ← class_getattr cls "conv_templates";
    c ← subscript_vicuna templates;
    Ok (class_setattr cls "default_conversation" (VConversation c))
  else Raise ValueError.

(** [gradient_accumulation_steps] of [train]:
    [max(1, batch_size // (per_device_train_batch_size * num_devices))];
    [None] stands for the [ZeroDivisionError]. *)
Definition gradient_accumulation_steps (batch_size per_device_train_batch_size : Z)
    (devices : list Z) : option Z :=
  let num_devices := Z.of_nat (length devices) in
  if per_device_train_batch_size * num_devices =? 0 then None
  else Some (Z.max 1 (batch_size / (per_device_train_batch_size * num_devices))).

(** [SupervisedDataset.__init__]: all records are preprocessed at once;
    the result is the dataset and the lines printed. *)
Definition SupervisedDataset_init (tokenize : string -> list Z)
    (pad_token_id model_max_length : Z) (cls : class_dict)
    (list_data_dict : list json_record) : outcome (SupervisedDataset * list string) :=
  let sources := map rec_conversations list_data_dict in
  data_dict ← preprocess tokenize pad_token_id model_max_length cls sources;
  Ok ({| sd_input_ids := data_dict.1.1; sd_labels := data_dict.1.2 |}, data_dict.2).

(** [SupervisedDataset.__len__] *)
Definition SupervisedDataset_len (d : SupervisedDataset) : Z :=
  Z.of_nat (length (sd_input_ids d)).

(** The adjacency dictionary built at the end of [to_planetoid]: a
    [defaultdict(list)] in which every node of [range(n)] is given itself
    and every edge adds its end to the list of its start. *)
Definition graph_append (k v : Z) (g : gmap Z (list Z)) : gmap Z (list Z) :=
  <[k := default [] (g !! k) ++ [v]]> g.

Definition planetoid_graph (n : Z) (edge_index : list (Z * Z)) : gmap Z (list Z) :=
  let graph := fold_left (fun g i => graph_append i i g) (py_range 0 n 1) ∅ in
  fold_left (fun g e => graph_append e.1 e.2 g) edge_index graph.

(** ** Auxiliary definitions for the further properties *)

(** The speaker a record must name at position [j] of its source. *)
Definition expected_speaker (j : nat) : string :=
  if Nat.even j then "human" else "gpt".

(** The speakers of a source alternate, from position [j] on. *)
Fixpoint alternating (j : nat) (source : list sentence) : Prop :=
  match source with
  | [] => True
  | s :: rest => from s = expected_speaker j /\ alternating (S j) rest
  end.

(** The turns of a source whose first sentence stands at position [j]. *)
Fixpoint turns_of (r0 r1 : string) (j : nat) (source : list sentence) : list turn :=
  match source with
  | [] => []
  | s :: rest =>
      ((if Nat.even j then r0 else r1), MsgText (value s)) :: turns_of r0 r1 (S j) rest
  end.

(** A row of labels over a row of token ids: as long as the row, and at
    every position the token id or [-100]. *)
Definition labels_of (row lab : list Z) : Prop :=
  length lab = length row
  /\ forall j y, lab !! j = Some y -> y = IGNORE_INDEX \/ row !! j = Some y.

(** The labels [_mask_targets] leaves on the tokens of one turn: of a
    "human" turn the first two tokens only. *)
Definition masked_turn (seg : list Z) (speaker : string) : list Z :=
  if String.eqb speaker "human"
  then take 2 seg ++ replicate (length seg - 2) IGNORE_INDEX
  else seg.

(** The name [_add_speaker_and_signal] writes for a speaker, and the
    sentences it leaves behind, for the role names [r0] and [r1]. *)
Definition written_name (r0 r1 from_str : string) : string :=
  if String.eqb (lower from_str) "human" then r0
  else if String.eqb (lower from_str) "gpt" then r1
  else "unknown".

(** A speaker whose name [_add_speaker_and_signal] reads off the class:
    "human" or "gpt" up to letter case. *)
Definition named_speaker (s : sentence) : bool :=
  String.eqb (lower (from s)) "human" || String.eqb (lower (from s)) "gpt".

Definition signed (r0 r1 : string) (source : list sentence) : list sentence :=
  map (fun s => Sentence (from s)
                  (BEGIN_SIGNAL +:+ written_name r0 r1 (from s) +:+ ": "
                   +:+ value s +:+ END_SIGNAL))
      source.

(** The texts of a list of sentences, one after the other. *)
Fixpoint values_text (source : list sentence) : string :=
  match source with
  | [] => ""
  | s :: rest => value s +:+ values_text rest
  end.

(** The conversation text of the plain path: the header (the system
    prompt and two line feeds), the rewritten sentences, the final signal. *)
Definition plain_text (dc : conversation) (r0 r1 : string) (source : list sentence)
    : string :=
  (system dc +:+ END_SIGNAL +:+ END_SIGNAL)
  +:+ values_text (signed r0 r1 source) +:+ BEGIN_SIGNAL.

(** A record of a node-classification file with its two-node graph, a
    record without a graph, and the table of node features. *)
Definition cora_record : json_record :=
  JsonRecord "cora_7_NC"
    (Some (GraphEntry (Some [[0; 1]; [1; 0]]) (Some [2; 0]) (Some 0)
             None None None None None None))
    [Sentence "human" "Given <graph>, classify."; Sentence "gpt" "A"].

Definition plain_record : json_record :=
  JsonRecord "chat_3" None [Sentence "human" "hi"; Sentence "gpt" "hello"].

Definition pair_record : json_record :=
  JsonRecord "cora_9_LP"
    (Some (GraphEntry None None None (Some [[0]; [1]]) (Some [0; 1]) (Some 0)
             (Some [[1]; [0]]) (Some [2]) (Some 2)))
    [Sentence "human" "Is <graph> linked to <graph>?"; Sentence "gpt" "yes"].

Definition cora_table : gmap string (list string) :=
  {["cora" := ["n0"; "n1"; "n2"]]}.

Definition graphless : graph_cfg :=
  {| is_graph := false; sep_graph_conv_front := false; use_graph_start_end := false |}.

(** A dialogue of questions and answers, as turns of the two roles; the
    text of one round; and the text of all rounds, each closed by [sp2]. *)
Definition dialogue_turns (r0 r1 : string) (pairs : list (string * string))
    : list turn :=
  concat (map (fun p : string * string => [(r0, MsgText p.1); (r1, MsgText p.2)]) pairs).

Definition round_text (sp r0 r1 : string) (p : string * string) : string :=
  r0 +:+ ": " +:+ p.1 +:+ sp +:+ r1 +:+ ": " +:+ p.2.

Fixpoint rounds_text (sp sp2 r0 r1 : string) (pairs : list (string * string))
    : string :=
  match pairs with
  | [] => ""
  | p :: ps => round_text sp r0 r1 p +:+ sp2 +:+ rounds_text sp sp2 r0 r1 ps
  end.

(** * Properties *)

(** ** Strings *)

#[local] Arguments String.append !_ _ / : simpl nomatch.

Lemma append_nil_r (s : string) : s +:+ "" = s.
Proof. induction s as [|c s IH]; simpl; congruence. Qed.

Lemma append_assoc (a b c : string) : (a +:+ b) +:+ c = a +:+ (b +:+ c).
Proof. induction a as [|x a IH]; simpl; congruence. Qed.

Lemma length_append (a b : string) :
  String.length (a +:+ b) = (String.length a + String.length b)%nat.
Proof. induction a as [|x a IH]; simpl; congruence. Qed.

Lemma take_append (a b : string) : PyStr.take (String.length a) (a +:+ b) = a.
Proof. induction a as [|x a IH]; simpl; [by destruct b | congruence]. Qed.

Lemma drop_append (a b : string) : PyStr.drop (String.length a) (a +:+ b) = b.
Proof. induction a as [|x a IH]; simpl; [by destruct b | congruence]. Qed.

Lemma startswith_append (p r : string) : PyStr.startswith p (p +:+ r) = true.
Proof.
  induction p as [|x p IH]; simpl; [done|].
  by rewrite Ascii.eqb_refl, IH.
Qed.

Example split_rounds :
  PyStr.split "a b</s>c d</s>" (Some "</s>") = Ok ["a b"; "c d"; ""].
Proof. reflexivity. Qed.

Example split_white : PyStr.split " a  b c " None = Ok ["a"; "b"; "c"].
Proof. reflexivity. Qed.

Example replace_single_pass :
  PyStr.replace "<gr<graph>aph> x <graph>" "<graph>" "" = "<graph> x ".
Proof. reflexivity. Qed.

Example count_non_overlapping : PyStr.count "#######" "###" = 2%nat.
Proof. reflexivity. Qed.

Example strip_both_ends : PyStr.strip "  a b  " = "a b".
Proof. reflexivity. Qed.

Example find_absent : PyStr.find "abc" "<graph>" = -1.
Proof. reflexivity. Qed.

Example slice_negative_stop : PyStr.slice_to "abcdef" (-1) = "abcde".
Proof. reflexivity. Qed.

(** ** Conversation templates *)

Example vicuna_prompt :
  (c ← append_message PyList (copy_value conv_vicuna_v1_1) "USER" (MsgText "hi");
   c ← append_message PyList c "ASSISTANT" MsgNone;
   get_prompt c)
  = Ok "A chat between a curious user and an artificial intelligence assistant. The assistant gives helpful, detailed, and polite answers to the user's questions. USER: hi ASSISTANT:".
Proof. reflexivity. Qed.

(** C4, as stated, fails: with [sep=" "] and [sep2="</s>"] the first turn is
    closed by [sep] alone, so the rendered prompt is not the literal with
    ["</s>"] behind the first turn. *)
Lemma C4_counterexample :
  get_prompt (two_turn_example "<system>" "human" "gpt")
  <> Ok "<system> human: hi </s>gpt: hello</s>".
Proof. vm_compute. discriminate. Qed.

(** C4, amended: the two-turn conversation under the TWO style with
    [sep=" "] and [sep2="</s>"] renders as the system prompt, [sep], the first
    turn closed by [sep] and the second turn closed by [sep2], whatever the
    role names: ["<system> human: hi gpt: hello</s>"]. *)
Theorem C4_two_turn_prompt (sys r0 r1 : string) :
  get_prompt (two_turn_example sys r0 r1)
  = Ok (sys +:+ " " +:+ r0 +:+ ": hi " +:+ r1 +:+ ": hello</s>")
  /\ get_prompt (two_turn_example "<system>" "human" "gpt")
     = Ok "<system> human: hi gpt: hello</s>".
Proof.
  split; [|reflexivity].
  unfold get_prompt, two_turn_example; simpl.
  f_equal. by rewrite !append_assoc.
Qed.

(** The TWO loop only ever fails with a [TypeError]. *)
Lemma two_loop_no_value_error sp sp2 i ret ms :
  two_loop sp sp2 i ret ms <> Raise ValueError.
Proof.
  revert i ret. induction ms as [|[role m] ms IH]; intros i ret; simpl; [done|].
  destruct (truthy m); [|apply IH].
  destruct (if Nat.even i then Some sp else sp2); [apply IH | done].
Qed.

Lemma two_loop_returns sp s2 i ret ms :
  exists p, two_loop sp (Some s2) i ret ms = Ok p.
Proof.
  revert i ret. induction ms as [|[role m] ms IH]; intros i ret; simpl; [by eexists|].
  destruct (truthy m); [|apply IH].
  destruct (Nat.even i); apply IH.
Qed.

(** C7, as stated, fails: [sep2] defaults to [None], and a TWO conversation
    with an answer turn then stops with a [TypeError] although its style is
    one of the three members. *)
Lemma C7_counterexample :
  sep_style two_without_sep2 = Member TWO
  /\ get_prompt two_without_sep2 = Raise TypeError.
Proof. split; reflexivity. Qed.

(** C7, amended: for a member style [get_prompt] never raises [ValueError],
    and it returns a prompt for SINGLE and MPT and, when [sep2] is set, for
    TWO; for every style value outside the enumeration it raises
    [ValueError]. *)
Theorem C7_get_prompt_styles (c : conversation) :
  (forall s, sep_style c = Member s ->
     get_prompt c <> Raise ValueError
     /\ (s <> TWO \/ is_Some (sep2 c) -> exists p, get_prompt c = Ok p))
  /\ (forall r, sep_style c = Foreign r -> get_prompt c = Raise ValueError).
Proof.
  split.
  - intros s Hs. unfold get_prompt. rewrite Hs. split.
    + destruct s; try done. apply two_loop_no_value_error.
    + intros H. destruct s; try by eexists.
      destruct H as [H|[s2 H]]; [done|]. rewrite H. apply two_loop_returns.
  - intros r Hr. unfold get_prompt. by rewrite Hr.
Qed.

Lemma C7_get_prompt_styles_witness :
  (exists p, get_prompt conv_vicuna_v1_1 = Ok p)
  /\ get_prompt (set_messages conv_vicuna_v1_1 []) <> Raise ValueError
  /\ get_prompt
       (Conversation "" ["A"; "B"] [] 0 (Foreign "plain") "###" None "Unknown" false)
     = Raise ValueError.
Proof.
  split; [|split].
  - apply (proj1 (C7_get_prompt_styles conv_vicuna_v1_1) TWO eq_refl).
    right. by eexists.
  - apply (proj1 (C7_get_prompt_styles (set_messages conv_vicuna_v1_1 [])) TWO eq_refl).
  - apply (proj2 (C7_get_prompt_styles _) "plain"). reflexivity.
Defined.


(** C9: [copy] keeps [system], [roles], [offset], [sep_style], [sep] and
    [sep2], gives the copy a new message list with the same turns (the
    original list is neither shared nor changed, also when the copy is
    appended to), and resets [version] to ["Unknown"] and [skip_next] to
    [False]; so [copy] does not preserve a version other than ["Unknown"]. *)
Theorem C9_copy_fields (c : conversation_ref) (h : store) (ms : list turn) :
  h !! messages c = Some ms ->
  exists c' h',
    copy c h = Some (c', h')
    /\ system c' = system c /\ roles c' = roles c /\ offset c' = offset c
    /\ sep_style c' = sep_style c /\ sep c' = sep c /\ sep2 c' = sep2 c
    /\ h' !! messages c' = Some ms
    /\ messages c' <> messages c /\ h !! messages c' = None
    /\ h' !! messages c = Some ms
    /\ (forall role m, append_message_ref c' role m h' !! messages c = Some ms)
    /\ version c' = "Unknown" /\ skip_next c' = false
    /\ (version c <> "Unknown" -> version c' <> version c).
Proof.
  intros Hms. unfold copy. rewrite Hms. simpl.
  set (l := fresh (dom h)).
  assert (Hfresh : h !! l = None).
  { apply not_elem_of_dom. apply is_fresh. }
  assert (Hne : l <> messages c) by congruence.
  eexists _, _. split; [reflexivity|]. simpl.
  assert (Hold : <[l:=ms]> h !! messages c = Some ms)
    by (by rewrite lookup_insert_ne).
  repeat split; try done.
  - apply lookup_insert_eq.
  - intros role m. unfold append_message_ref. simpl.
    by rewrite lookup_alter_ne.
Qed.

Lemma C9_copy_fields_witness :
  exists c' h',
    copy vicuna_object {[1%positive := []]} = Some (c', h')
    /\ system c' = system vicuna_object /\ roles c' = roles vicuna_object
    /\ offset c' = offset vicuna_object
    /\ sep_style c' = sep_style vicuna_object /\ sep c' = sep vicuna_object
    /\ sep2 c' = sep2 vicuna_object
    /\ h' !! messages c' = Some []
    /\ messages c' <> messages vicuna_object
    /\ ({[1%positive := []]} : store) !! messages c' = None
    /\ h' !! messages vicuna_object = Some []
    /\ (forall role m,
          append_message_ref c' role m h' !! messages vicuna_object = Some [])
    /\ version c' = "Unknown" /\ skip_next c' = false
    /\ (version vicuna_object <> "Unknown" -> version c' <> version vicuna_object).
Proof.
  apply (C9_copy_fields vicuna_object {[1%positive := []]} []).
  reflexivity.
Defined.

(** ** Datasets *)

(** C10: [NCDataset] holds one graph: [__len__] is 1, [__getitem__(0)]
    returns the pair [(graph, label)], every other index fails the
    assertion, and none of the calls changes the dataset. *)
Theorem C10_single_graph {G L : Type} (d : NCDataset G L) (idx : Z) :
  NCDataset_len d = (1, d)
  /\ NCDataset_getitem d 0 = (Ok (graph d, label d), d)
  /\ (idx <> 0 -> NCDataset_getitem d idx = (Raise AssertionError, d)).
Proof.
  repeat split. intros Hidx. unfold NCDataset_getitem.
  destruct (Z.eqb_spec idx 0); [done|reflexivity].
Qed.

Lemma C10_single_graph_witness :
  let d := {| name := "cora"; graph := [1; 2]; label := Some 7 |} in
  NCDataset_len d = (1, d)
  /\ NCDataset_getitem d 0 = (Ok (graph d, label d), d)
  /\ NCDataset_getitem d 3 = (Raise AssertionError, d).
Proof.
  intros d.
  destruct (C10_single_graph d 3) as (Hlen & Hzero & Hother).
  split; [exact Hlen | split; [exact Hzero | apply Hother; lia]].
Defined.

(** C8, as stated, fails: the eager dataset has no assertion, and a subscript
    that selects two records returns both. *)
Lemma C8_counterexample :
  SupervisedDataset_getitem two_rows (ISlice (Some 0) (Some 2))
  = Ok (Many [[1; 5; 6]; [1; 7; 0]], Many [[-100; 5; 6]; [-100; 7; -100]]).
Proof. reflexivity. Qed.

(** C8, amended: [LazySupervisedDataset.__getitem__] fails its assertion for
    a slice that selects a number of records other than one, and passes it
    for every integer index in range, which is wrapped into a one-element
    list and handed on to the rest of the method; the eager
    [SupervisedDataset.__getitem__] has no such check and returns whatever
    rows a slice selects, and the one row of an integer index in range. *)
Theorem C8_one_record_per_index (data_record item : Type)
    (build_item : data_record -> outcome item)
    (list_data_dict : list data_record) (d : SupervisedDataset) :
  (forall start stop,
     length (py_slice list_data_dict start stop) <> 1%nat ->
     LazySupervisedDataset_getitem data_record item build_item list_data_dict
       (ISlice start stop) = Raise AssertionError)
  /\ (forall k r,
        py_index list_data_dict k = Ok r ->
        LazySupervisedDataset_getitem data_record item build_item list_data_dict
          (IInt k) = build_item r)
  /\ (forall start stop,
        SupervisedDataset_getitem d (ISlice start stop)
        = Ok (Many (py_slice (sd_input_ids d) start stop),
              Many (py_slice (sd_labels d) start stop)))
  /\ (forall k x y,
        py_index (sd_input_ids d) k = Ok x -> py_index (sd_labels d) k = Ok y ->
        SupervisedDataset_getitem d (IInt k) = Ok (One x, One y)).
Proof.
  repeat split.
  - intros start stop Hlen. unfold LazySupervisedDataset_getitem. simpl.
    destruct (Nat.eqb_spec (length (py_slice list_data_dict start stop)) 1); done.
  - intros k r Hr. unfold LazySupervisedDataset_getitem. simpl.
    by rewrite Hr.
  - intros k x y Hx Hy. unfold SupervisedDataset_getitem. simpl.
    by rewrite Hx, Hy.
Qed.

Lemma C8_one_record_per_index_witness :
  LazySupervisedDataset_getitem string nat (fun r => Ok (String.length r))
    ["a"; "bc"; "def"] (ISlice (Some 0) (Some 2)) = Raise AssertionError
  /\ LazySupervisedDataset_getitem string nat (fun r => Ok (String.length r))
       ["a"; "bc"; "def"] (IInt (-1)) = Ok 3%nat.
Proof.
  pose proof (C8_one_record_per_index string nat (fun r => Ok (String.length r))
                ["a"; "bc"; "def"] two_rows) as (Hslice & Hint & _ & _).
  split.
  - apply Hslice. vm_compute. lia.
  - apply (Hint (-1) "def"). reflexivity.
Defined.

(** ** Scanning a string

    [count], [replace] and [find] pass over text that does not hold the
    first character of what they look for. *)

Lemma has_char_append c (a b : string) :
  PyStr.has_char c (a +:+ b) = PyStr.has_char c a || PyStr.has_char c b.
Proof.
  induction a as [|x a IH]; simpl; [done|].
  by rewrite IH, orb_assoc.
Qed.

Lemma startswith_length (p s : string) :
  PyStr.startswith p s = true -> (String.length p <= String.length s)%nat.
Proof.
  revert s. induction p as [|x p IH]; intros [|y s]; simpl; try lia; try done.
  intros [_ H]%andb_prop. apply IH in H. lia.
Qed.

Lemma count_from_skip sub (u r : string) :
  PyStr.count_from sub (String.length u) (u +:+ r) = PyStr.count_from sub 0 r.
Proof. induction u as [|x u IH]; simpl; [by destruct r | done]. Qed.

Lemma count_from_clean c sub (t r : string) :
  PyStr.has_char c t = false ->
  PyStr.count_from (String c sub) 0 (t +:+ r) = PyStr.count_from (String c sub) 0 r.
Proof.
  induction t as [|x t IH]; simpl; [done|].
  intros [Hx Ht]%orb_false_elim. rewrite Hx. simpl. auto.
Qed.

Lemma count_from_sep c sub (r : string) :
  PyStr.count_from (String c sub) 0 (String c sub +:+ r)
  = S (PyStr.count_from (String c sub) 0 r).
Proof.
  simpl. rewrite Ascii.eqb_refl, startswith_append. simpl.
  by rewrite Nat.sub_0_r, count_from_skip.
Qed.

(** ** The SINGLE style *)

Lemma fold_single sp (ms : list turn) (acc : string) :
  fold_left (single_step sp) ms acc = acc +:+ single_body sp ms.
Proof.
  revert acc. induction ms as [|[role m] ms IH]; intros acc; simpl.
  - by rewrite append_nil_r.
  - rewrite IH. unfold single_step, single_piece. simpl.
    destruct (truthy m); by rewrite !append_assoc.
Qed.

Lemma count_single_body c sub (ms : list turn) :
  c <> ":"%char -> c <> " "%char ->
  turns_free_of c ms ->
  PyStr.count_from (String c sub) 0 (single_body (String c sub) ms)
  = length (spoken ms).
Proof.
  intros Hcolon Hspace Hfree.
  assert (Hc1 : PyStr.has_char c ": " = false).
  { simpl. apply Ascii.eqb_neq in Hcolon, Hspace. by rewrite Hcolon, Hspace. }
  assert (Hc2 : PyStr.has_char c ":" = false).
  { simpl. apply Ascii.eqb_neq in Hcolon. by rewrite Hcolon. }
  induction Hfree as [|[role m] ms [Hrole Htext] _ IH]; [done|].
  unfold spoken in *. cbn [single_body List.filter].
  unfold single_piece. cbn [fst snd].
  destruct (truthy m); cbn [length].
  - rewrite !append_assoc.
    rewrite (count_from_clean _ _ role) by done.
    rewrite (count_from_clean _ _ ": ") by done.
    rewrite (count_from_clean _ _ (message_text m)) by done.
    by rewrite count_from_sep, IH.
  - rewrite !append_assoc.
    rewrite (count_from_clean _ _ role) by done.
    by rewrite (count_from_clean _ _ ":").
Qed.

(** C5, as stated, fails: one turn, and neither the system prompt nor the
    role name nor the message holds the separator, yet the prompt
    ["abababab: xabab"] holds it three times and not twice. *)
Lemma C5_counterexample :
  PyStr.contains (sep straddling) (system straddling) = false
  /\ Forall (fun t : turn =>
               PyStr.contains (sep straddling) t.1 = false
               /\ PyStr.contains (sep straddling) (message_text t.2) = false)
            (messages straddling)
  /\ length (messages straddling) = 1%nat
  /\ get_prompt straddling = Ok "abababab: xabab"
  /\ PyStr.count "abababab: xabab" (sep straddling) = 3%nat.
Proof.
  repeat split; try reflexivity.
  repeat constructor.
Qed.

(** C5, amended: for a SINGLE conversation whose separator starts with a
    character that occurs in none of the system prompt, the role names and
    the message texts and is neither [':'] nor a space, the prompt holds the
    separator exactly once more than there are turns with a non-empty
    message (a turn with an empty message adds the dangling ["role:"] and no
    separator); with N turns that all have a message that is N+1. *)
Theorem C5_single_separator_count (c : conversation) (c0 : ascii) (sub : string) :
  sep_style c = Member SINGLE ->
  sep c = String c0 sub ->
  c0 <> ":"%char -> c0 <> " "%char ->
  PyStr.has_char c0 (system c) = false ->
  turns_free_of c0 (messages c) ->
  exists p,
    get_prompt c = Ok p
    /\ PyStr.count p (sep c) = S (length (spoken (messages c)))
    /\ (Forall (fun t : turn => truthy t.2 = true) (messages c) ->
        PyStr.count p (sep c) = S (length (messages c))).
Proof.
  intros Hstyle Hsep Hcolon Hspace Hsys Hfree.
  unfold get_prompt. rewrite Hstyle, Hsep. eexists. split; [reflexivity|].
  assert (Hcount : PyStr.count
            (fold_left (single_step (String c0 sub)) (messages c)
               (system c +:+ String c0 sub)) (String c0 sub)
          = S (length (spoken (messages c)))).
  { unfold PyStr.count. rewrite fold_single, append_assoc.
    rewrite count_from_clean by done.
    by rewrite count_from_sep, count_single_body. }
  split; [exact Hcount|].
  intros Hall. rewrite Hcount. f_equal. f_equal.
  unfold spoken. clear -Hall.
  induction Hall as [|t ms Ht _ IH]; simpl; [done|].
  by rewrite Ht, IH.
Qed.

Lemma C5_single_separator_count_witness :
  exists p,
    get_prompt single_dialogue = Ok p
    /\ PyStr.count p (sep single_dialogue) = 2%nat
    /\ (Forall (fun t : turn => truthy t.2 = true) (messages single_dialogue) ->
        PyStr.count p (sep single_dialogue) = 3%nat).
Proof.
  apply (C5_single_separator_count single_dialogue "#"%char "##").
  - reflexivity.
  - reflexivity.
  - discriminate.
  - discriminate.
  - reflexivity.
  - repeat constructor.
Defined.


(** ** Graph-token expansion *)

Lemma for_each_ok {A B : Type} (f : A -> outcome B) (g : A -> B) (l : list A) :
  (forall a, f a = Ok (g a)) -> for_each f l = Ok (map g l).
Proof.
  intros Hf. induction l as [|a l IH]; simpl; [done|].
  by rewrite Hf, IH.
Qed.

Lemma replace_from_skip old new (u r : string) :
  PyStr.replace_from old new (String.length u) (u +:+ r)
  = PyStr.replace_from old new 0 r.
Proof. induction u as [|x u IH]; simpl; [by destruct r | done]. Qed.

Lemma replace_from_clean c old new (t r : string) :
  PyStr.has_char c t = false ->
  PyStr.replace_from (String c old) new 0 (t +:+ r)
  = t +:+ PyStr.replace_from (String c old) new 0 r.
Proof.
  induction t as [|x t IH]; simpl; [done|].
  intros [Hx Ht]%orb_false_elim. rewrite Hx. simpl. by rewrite IH.
Qed.

Lemma replace_from_hit c old new (r : string) :
  PyStr.replace_from (String c old) new 0 (String c old +:+ r)
  = new +:+ PyStr.replace_from (String c old) new 0 r.
Proof.
  simpl. rewrite Ascii.eqb_refl, startswith_append. simpl.
  by rewrite Nat.sub_0_r, replace_from_skip.
Qed.

(** The scan keeps the books: every match trades [old] for [new]. *)
Lemma replace_from_length o old new (k : nat) (s : string) :
  (String.length (PyStr.replace_from (String o old) new k s)
   + String.length (String o old) * PyStr.count_from (String o old) k s
   + Nat.min k (String.length s)
   = String.length s + String.length new * PyStr.count_from (String o old) k s)%nat.
Proof.
  revert k. induction s as [|x s IH]; intros k.
  - simpl. lia.
  - destruct k as [|k].
    + cbn [PyStr.replace_from PyStr.count_from].
      destruct (PyStr.startswith (String o old) (String x s)) eqn:Hstart.
      * apply startswith_length in Hstart.
        specialize (IH (String.length (String o old) - 1)%nat).
        rewrite length_append. cbn [String.length] in *.
        rewrite Nat.sub_succ, Nat.sub_0_r in *. nia.
      * specialize (IH 0%nat). cbn [String.length] in *. lia.
    + specialize (IH k). cbn [PyStr.replace_from PyStr.count_from String.length] in *.
      lia.
Qed.

Lemma replace_from_join c old new (t0 : string) (ts : list string) :
  PyStr.has_char c t0 = false ->
  Forall (fun t => PyStr.has_char c t = false) ts ->
  PyStr.replace_from (String c old) new 0 (join (String c old) t0 ts)
  = join new t0 ts.
Proof.
  intros H0 Hts. revert t0 H0.
  induction Hts as [|t1 ts H1 _ IH]; intros t0 H0; simpl.
  - rewrite <- (append_nil_r t0) at 1. rewrite replace_from_clean by done.
    simpl. apply append_nil_r.
  - rewrite replace_from_clean by done.
    change (String c (old +:+ join (String c old) t1 ts))
      with (String c old +:+ join (String c old) t1 ts).
    by rewrite replace_from_hit, IH.
Qed.

Lemma has_char_join_empty c (t0 : string) (ts : list string) :
  PyStr.has_char c t0 = false ->
  Forall (fun t => PyStr.has_char c t = false) ts ->
  PyStr.has_char c (join "" t0 ts) = false.
Proof.
  intros H0 Hts. revert t0 H0.
  induction Hts as [|t1 ts H1 _ IH]; intros t0 H0; simpl; [done|].
  rewrite has_char_append, H0. simpl. by apply IH.
Qed.

Lemma find_nat_clean c sub (s : string) :
  PyStr.has_char c s = false -> PyStr.find_nat (String c sub) s = None.
Proof.
  induction s as [|x s IH]; simpl; [done|].
  intros [Hx Hs]%orb_false_elim. rewrite Hx. simpl. by rewrite IH.
Qed.

Lemma contains_clean c sub (s : string) :
  PyStr.has_char c s = false -> PyStr.contains (String c sub) s = false.
Proof. intros H. unfold PyStr.contains. by rewrite find_nat_clean. Qed.

Lemma preprocess_graph_plain cls sources cfg n :
  is_graph cfg = true -> sep_graph_conv_front cfg = false ->
  preprocess_graph cls sources cfg n
  = Ok (map (map (expand_sentence cfg n)) sources).
Proof.
  intros Hg Hf. unfold preprocess_graph. rewrite Hg, Hf. simpl.
  by apply for_each_ok.
Qed.

(** C6, as stated, fails: with [use_graph_start_end] set and a count of 0 the
    marker is replaced by the two bracket tokens, so the turn is not the
    input with the marker removed; and without [is_graph] the marker
    stays. *)
Lemma C6_counterexample :
  preprocess_graph conversation_lib_class
    [[Sentence "human" "Given <graph>, classify."]] bracketing 0
  = Ok [[Sentence "human" "Given <g_start><g_end>, classify."]]
  /\ "Given <g_start><g_end>, classify." <> "Given , classify."
  /\ PyStr.contains DEFAULT_G_START_TOKEN "Given <g_start><g_end>, classify." = true
  /\ preprocess_graph conversation_lib_class
       [[Sentence "human" "Given <graph>, classify."]]
       {| is_graph := false; sep_graph_conv_front := false; use_graph_start_end := false |} 0
     = Ok [[Sentence "human" "Given <graph>, classify."]].
Proof. repeat split; try reflexivity. discriminate. Qed.

(** C6, amended: with [is_graph] set and [sep_graph_conv_front] unset,
    [preprocess_graph] with a count of 0 replaces each marker of every turn,
    found left to right, by the empty text (by ["<g_start><g_end>"] when
    [use_graph_start_end] is set) and inserts no patch token: without
    [use_graph_start_end] the turn gets shorter by the markers' length, and
    a turn [t0 <graph> t1 ... <graph> tk] whose [ti] hold no ['<'] becomes
    [t0 t1 ... tk], which holds no marker, patch or bracket token. *)
Theorem C6_zero_tokens (cls : class_dict) (sources : list (list sentence))
    (cfg : graph_cfg) :
  is_graph cfg = true -> sep_graph_conv_front cfg = false ->
  preprocess_graph cls sources cfg 0
  = Ok (map (map (expand_sentence cfg 0)) sources)
  /\ (forall s,
        from (expand_sentence cfg 0 s) = from s
        /\ value (expand_sentence cfg 0 s)
           = PyStr.replace (value s) DEFAULT_GRAPH_TOKEN
               (if use_graph_start_end cfg then "<g_start><g_end>" else ""))
  /\ (use_graph_start_end cfg = false ->
      forall s,
        PyStr.len (value (expand_sentence cfg 0 s))
        = PyStr.len (value s)
          - PyStr.len DEFAULT_GRAPH_TOKEN
            * Z.of_nat (PyStr.count (value s) DEFAULT_GRAPH_TOKEN))
  /\ (use_graph_start_end cfg = false ->
      forall s t0 ts,
        value s = join DEFAULT_GRAPH_TOKEN t0 ts ->
        PyStr.has_char "<" t0 = false ->
        Forall (fun t => PyStr.has_char "<" t = false) ts ->
        let v := value (expand_sentence cfg 0 s) in
        v = join "" t0 ts
        /\ PyStr.contains DEFAULT_GRAPH_TOKEN v = false
        /\ PyStr.contains DEFAULT_GRAPH_PATCH_TOKEN v = false
        /\ PyStr.contains DEFAULT_G_START_TOKEN v = false
        /\ PyStr.contains DEFAULT_G_END_TOKEN v = false).
Proof.
  intros Hg Hf. split; [by apply preprocess_graph_plain|].
  assert (Hplain : use_graph_start_end cfg = false -> forall s,
            value (expand_sentence cfg 0 s)
            = PyStr.replace_from DEFAULT_GRAPH_TOKEN "" 0 (value s)).
  { intros Hb s. unfold expand_sentence, replace_token. by rewrite Hb. }
  split; [|split].
  - intros s. split; [done|].
    unfold expand_sentence, replace_token. simpl.
    by destruct (use_graph_start_end cfg).
  - intros Hb s. rewrite (Hplain Hb). unfold PyStr.len, PyStr.count.
    pose proof (replace_from_length "<" "graph>" "" 0 (value s)) as Hlen.
    unfold DEFAULT_GRAPH_TOKEN. simpl String.length in *. lia.
  - intros Hb s t0 ts Hv H0 Hts v. subst v. rewrite (Hplain Hb), Hv.
    unfold DEFAULT_GRAPH_TOKEN. rewrite replace_from_join by done.
    pose proof (has_char_join_empty _ _ _ H0 Hts) as Hfree.
    split; [done|].
    repeat split; by apply contains_clean.
Qed.

Lemma C6_zero_tokens_witness :
  let cfg := {| is_graph := true; sep_graph_conv_front := false;
                use_graph_start_end := false |} in
  let s := Sentence "human" "Given <graph>, classify <graph>." in
  preprocess_graph conversation_lib_class [[s]] cfg 0 = Ok [[expand_sentence cfg 0 s]]
  /\ value (expand_sentence cfg 0 s) = "Given , classify ."
  /\ PyStr.len (value (expand_sentence cfg 0 s)) = 32 - 7 * 2
  /\ PyStr.contains DEFAULT_GRAPH_TOKEN (value (expand_sentence cfg 0 s)) = false
  /\ PyStr.contains DEFAULT_GRAPH_PATCH_TOKEN (value (expand_sentence cfg 0 s)) = false.
Proof.
  intros cfg s.
  destruct (C6_zero_tokens conversation_lib_class [[s]] cfg eq_refl eq_refl)
    as (Hrun & _ & Hlen & Hjoin).
  destruct (Hjoin eq_refl s "Given " [", classify "; "."] eq_refl eq_refl)
    as (Hv & Hm & Hp & _).
  { repeat constructor. }
  split; [exact Hrun|]. split; [exact Hv|]. split; [exact (Hlen eq_refl s)|].
  split; [exact Hm | exact Hp].
Defined.


(** *** The link-prediction variant *)

(** Behind at least one character, whether the marker starts here does not
    depend on a following text that opens with ['<']: the marker holds
    ['<'] only in front. *)
Lemma startswith_marker_before_lt (u r : string) :
  u <> "" ->
  PyStr.startswith DEFAULT_GRAPH_TOKEN (u +:+ String "<" r)
  = PyStr.startswith DEFAULT_GRAPH_TOKEN u.
Proof.
  unfold DEFAULT_GRAPH_TOKEN.
  destruct u as [|c1 u]; [done|]. intros _.
  do 6 (destruct u as [|? u]; [simpl; by rewrite ?andb_false_r|]).
  simpl. reflexivity.
Qed.

Lemma find_nat_cons sub x (s : string) :
  PyStr.find_nat sub (String x s)
  = if PyStr.startswith sub (String x s) then Some 0%nat
    else S <$> PyStr.find_nat sub s.
Proof. reflexivity. Qed.

Lemma find_nat_before_lt (a r r' : string) :
  PyStr.find_nat DEFAULT_GRAPH_TOKEN (a +:+ String "<" r) = Some (String.length a) ->
  PyStr.find_nat DEFAULT_GRAPH_TOKEN (a +:+ String "<" r')
  = (fun i => String.length a + i)%nat <$> PyStr.find_nat DEFAULT_GRAPH_TOKEN (String "<" r').
Proof.
  set (q := PyStr.find_nat DEFAULT_GRAPH_TOKEN (String "<" r')).
  induction a as [|x a IH]; intros Hfind.
  - simpl (_ +:+ _). fold q. by destruct q.
  - change (String x a +:+ String "<" r') with (String x (a +:+ String "<" r')).
    change (String x a +:+ String "<" r) with (String x (a +:+ String "<" r)) in Hfind.
    rewrite find_nat_cons in Hfind |- *.
    change (String x (a +:+ String "<" r)) with (String x a +:+ String "<" r) in Hfind.
    change (String x (a +:+ String "<" r')) with (String x a +:+ String "<" r').
    rewrite startswith_marker_before_lt in Hfind |- * by done.
    destruct (PyStr.startswith DEFAULT_GRAPH_TOKEN (String x a)); [done|].
    destruct (PyStr.find_nat DEFAULT_GRAPH_TOKEN (a +:+ String "<" r)) as [i|] eqn:Hi;
      [|done].
    simpl in Hfind. assert (i = String.length a) as -> by congruence.
    rewrite IH by done.
    by destruct q.
Qed.

(** One step of the search over a character at which the text sought does
    not start. *)
Lemma find_nat_miss sub x (s : string) :
  PyStr.startswith sub (String x s) = false ->
  PyStr.find_nat sub (String x s) = S <$> PyStr.find_nat sub s.
Proof. intros H. by rewrite find_nat_cons, H. Qed.

(** No marker starts inside a patch token or inside a bracket. *)
Lemma find_nat_patch (y : string) :
  PyStr.find_nat DEFAULT_GRAPH_TOKEN (DEFAULT_GRAPH_PATCH_TOKEN +:+ y)
  = (fun i => 9 + i)%nat <$> PyStr.find_nat DEFAULT_GRAPH_TOKEN y.
Proof.
  unfold DEFAULT_GRAPH_PATCH_TOKEN, DEFAULT_GRAPH_TOKEN. cbv [String.append].
  do 9 (rewrite find_nat_miss by reflexivity).
  by destruct (PyStr.find_nat "<graph>" y).
Qed.

Lemma find_nat_g_start (y : string) :
  PyStr.find_nat DEFAULT_GRAPH_TOKEN (DEFAULT_G_START_TOKEN +:+ y)
  = (fun i => 9 + i)%nat <$> PyStr.find_nat DEFAULT_GRAPH_TOKEN y.
Proof.
  unfold DEFAULT_G_START_TOKEN, DEFAULT_GRAPH_TOKEN. cbv [String.append].
  do 9 (rewrite find_nat_miss by reflexivity).
  by destruct (PyStr.find_nat "<graph>" y).
Qed.

Lemma find_nat_g_end (y : string) :
  PyStr.find_nat DEFAULT_GRAPH_TOKEN (DEFAULT_G_END_TOKEN +:+ y)
  = (fun i => 7 + i)%nat <$> PyStr.find_nat DEFAULT_GRAPH_TOKEN y.
Proof.
  unfold DEFAULT_G_END_TOKEN, DEFAULT_GRAPH_TOKEN. cbv [String.append].
  do 7 (rewrite find_nat_miss by reflexivity).
  by destruct (PyStr.find_nat "<graph>" y).
Qed.

Lemma length_patches (n : nat) :
  String.length (PyStr.repeat_nat DEFAULT_GRAPH_PATCH_TOKEN n) = (9 * n)%nat.
Proof.
  induction n as [|n IH]; [done|].
  cbn [PyStr.repeat_nat]. rewrite length_append, IH.
  unfold DEFAULT_GRAPH_PATCH_TOKEN. cbn [String.length]. lia.
Qed.

Lemma find_nat_patches (n : nat) (y : string) :
  PyStr.find_nat DEFAULT_GRAPH_TOKEN (PyStr.repeat_nat DEFAULT_GRAPH_PATCH_TOKEN n +:+ y)
  = (fun i => 9 * n + i)%nat <$> PyStr.find_nat DEFAULT_GRAPH_TOKEN y.
Proof.
  induction n as [|n IH].
  - cbn [PyStr.repeat_nat]. change ("" +:+ y) with y.
    by destruct (PyStr.find_nat DEFAULT_GRAPH_TOKEN y).
  - cbn [PyStr.repeat_nat]. rewrite append_assoc, find_nat_patch, IH.
    destruct (PyStr.find_nat DEFAULT_GRAPH_TOKEN y); [|done].
    cbn [fmap option_fmap option_map]. f_equal. lia.
Qed.

Lemma length_replace_token cfg (n : Z) :
  String.length (replace_token cfg n)
  = ((if use_graph_start_end cfg then 16 else 0) + 9 * Z.to_nat n)%nat.
Proof.
  unfold replace_token, PyStr.mul. destruct (use_graph_start_end cfg).
  - rewrite !length_append, length_patches.
    unfold DEFAULT_G_START_TOKEN, DEFAULT_G_END_TOKEN. cbn [String.length]. lia.
  - apply length_patches.
Qed.

Lemma find_nat_replace_token cfg (n : Z) (y : string) :
  PyStr.find_nat DEFAULT_GRAPH_TOKEN (replace_token cfg n +:+ y)
  = (fun i => String.length (replace_token cfg n) + i)%nat
      <$> PyStr.find_nat DEFAULT_GRAPH_TOKEN y.
Proof.
  rewrite length_replace_token.
  unfold replace_token, PyStr.mul.
  destruct (use_graph_start_end cfg); [|apply find_nat_patches].
  rewrite !append_assoc, find_nat_g_start, find_nat_patches, find_nat_g_end.
  destruct (PyStr.find_nat DEFAULT_GRAPH_TOKEN y); [|done].
  cbn [fmap option_fmap option_map]. f_equal. lia.
Qed.

Lemma replace_token_opens cfg (n : Z) :
  0 < n \/ use_graph_start_end cfg = true ->
  exists r, replace_token cfg n = String "<" r.
Proof.
  intros H. unfold replace_token, PyStr.mul.
  destruct (use_graph_start_end cfg).
  - by eexists.
  - destruct H as [H|H]; [|done].
    destruct (Z.to_nat n) as [|k] eqn:Hk; [lia|]. by eexists.
Qed.

Lemma slice_to_append (a r : string) : PyStr.slice_to (a +:+ r) (PyStr.len a) = a.
Proof.
  unfold PyStr.slice_to, slice_bound, PyStr.len. rewrite length_append.
  destruct (Z.ltb_spec (Z.of_nat (String.length a)) 0); [lia|].
  rewrite Z.min_l by lia. rewrite Nat2Z.id. apply take_append.
Qed.

Lemma slice_from_append (a r : string) : PyStr.slice_from (a +:+ r) (PyStr.len a) = r.
Proof.
  unfold PyStr.slice_from, slice_bound, PyStr.len. rewrite length_append.
  destruct (Z.ltb_spec (Z.of_nat (String.length a)) 0); [lia|].
  rewrite Z.min_l by lia. rewrite Nat2Z.id. apply drop_append.
Qed.

Lemma splice_marker (a r new : string) :
  splice (a +:+ DEFAULT_GRAPH_TOKEN +:+ r) (PyStr.len a) new = a +:+ new +:+ r.
Proof.
  unfold splice. rewrite slice_to_append. do 2 f_equal.
  rewrite <- append_assoc.
  replace (PyStr.len a + PyStr.len DEFAULT_GRAPH_TOKEN)
    with (PyStr.len (a +:+ DEFAULT_GRAPH_TOKEN)).
  - apply slice_from_append.
  - unfold PyStr.len. rewrite length_append. lia.
Qed.

Lemma find_nat_of_find (s : string) (n : nat) :
  PyStr.find s DEFAULT_GRAPH_TOKEN = Z.of_nat n ->
  PyStr.find_nat DEFAULT_GRAPH_TOKEN s = Some n.
Proof.
  unfold PyStr.find. destruct (PyStr.find_nat DEFAULT_GRAPH_TOKEN s); intros H.
  - f_equal. lia.
  - lia.
Qed.

(** The value of a turn [a <graph> b <graph> c] after both replacements. *)
Lemma expand_value_LP_two cfg (n1 n2 : Z) (a b c : string) :
  PyStr.find (a +:+ DEFAULT_GRAPH_TOKEN +:+ b +:+ DEFAULT_GRAPH_TOKEN +:+ c)
    DEFAULT_GRAPH_TOKEN = PyStr.len a ->
  PyStr.find (b +:+ DEFAULT_GRAPH_TOKEN +:+ c) DEFAULT_GRAPH_TOKEN = PyStr.len b ->
  0 < n1 \/ use_graph_start_end cfg = true ->
  expand_value_LP cfg n1 n2
    (a +:+ DEFAULT_GRAPH_TOKEN +:+ b +:+ DEFAULT_GRAPH_TOKEN +:+ c)
  = a +:+ replace_token cfg n1 +:+ b +:+ replace_token cfg n2 +:+ c.
Proof.
  intros Ha Hb Hopen.
  pose proof (find_nat_of_find _ _ Ha) as Ha'.
  pose proof (find_nat_of_find _ _ Hb) as Hb'.
  unfold expand_value_LP, PyStr.contains. rewrite Ha'. rewrite Ha.
  rewrite splice_marker.
  destruct (replace_token_opens cfg n1 Hopen) as [r1 Hr1].
  assert (Hsecond :
    PyStr.find_nat DEFAULT_GRAPH_TOKEN
      (a +:+ replace_token cfg n1 +:+ b +:+ DEFAULT_GRAPH_TOKEN +:+ c)
    = Some (String.length (a +:+ replace_token cfg n1 +:+ b))).
  { pose proof (find_nat_replace_token cfg n1 (b +:+ DEFAULT_GRAPH_TOKEN +:+ c)) as Hin.
    rewrite Hb' in Hin. cbn [fmap option_fmap option_map] in Hin.
    pose proof (find_nat_before_lt a
                  ("graph>" +:+ b +:+ DEFAULT_GRAPH_TOKEN +:+ c)
                  (r1 +:+ b +:+ DEFAULT_GRAPH_TOKEN +:+ c) Ha') as Hpass.
    change (String "<" (r1 +:+ b +:+ DEFAULT_GRAPH_TOKEN +:+ c))
      with (String "<" r1 +:+ b +:+ DEFAULT_GRAPH_TOKEN +:+ c) in Hpass.
    rewrite <- Hr1, Hin in Hpass. cbn [fmap option_fmap option_map] in Hpass.
    rewrite Hpass. f_equal. rewrite !length_append. lia. }
  unfold PyStr.find. rewrite Hsecond.
  fold (PyStr.len (a +:+ replace_token cfg n1 +:+ b)).
  replace (a +:+ replace_token cfg n1 +:+ b +:+ DEFAULT_GRAPH_TOKEN +:+ c)
    with ((a +:+ replace_token cfg n1 +:+ b) +:+ DEFAULT_GRAPH_TOKEN +:+ c)
    by (by rewrite !append_assoc).
  rewrite splice_marker. by rewrite !append_assoc.
Qed.

Lemma preprocess_graph_LP_plain cls sources cfg n1 n2 :
  is_graph cfg = true -> sep_graph_conv_front cfg = false ->
  preprocess_graph_LP cls sources cfg n1 n2
  = Ok (map (map (expand_sentence_LP cfg n1 n2)) sources).
Proof.
  intros Hg Hf. unfold preprocess_graph_LP. rewrite Hg, Hf. simpl.
  by apply for_each_ok.
Qed.

(** C3, as stated, fails: without [is_graph] nothing is replaced; and with an
    empty first expansion the text around the first marker can close up to a
    new marker, which the second search then finds in place of the second
    marker of the input. *)
Lemma C3_counterexample :
  preprocess_graph_LP conversation_lib_class
    [[Sentence "human" "Is <graph> linked to <graph>?"]]
    {| is_graph := false; sep_graph_conv_front := false; use_graph_start_end := true |}
    3 5
  = Ok [[Sentence "human" "Is <graph> linked to <graph>?"]]
  /\ PyStr.count "<gra<graph>ph><graph>" DEFAULT_GRAPH_TOKEN = 2%nat
  /\ preprocess_graph_LP conversation_lib_class
       [[Sentence "human" "<gra<graph>ph><graph>"]]
       {| is_graph := true; sep_graph_conv_front := false; use_graph_start_end := false |}
       0 2
     = Ok [[Sentence "human" "<g_patch><g_patch><graph>"]].
Proof. repeat split. Qed.

(** C3, amended: with [is_graph] set and [sep_graph_conv_front] unset, every
    turn [a <graph> b <graph> c] in which the first marker is the first
    occurrence in the text and the second marker the first occurrence in
    [b <graph> c] becomes [a R1 b R2 c], provided the first expansion is not
    empty ([n1 > 0] or [use_graph_start_end]); [R1] and [R2] are [n1] and
    [n2] patch tokens, each bracketed by the start and end tokens when
    [use_graph_start_end] is set, and [a], [b] and [c] are kept as they
    are. *)
Theorem C3_two_markers (cls : class_dict) (sources : list (list sentence))
    (cfg : graph_cfg) (n1 n2 : Z) :
  is_graph cfg = true -> sep_graph_conv_front cfg = false ->
  preprocess_graph_LP cls sources cfg n1 n2
  = Ok (map (map (expand_sentence_LP cfg n1 n2)) sources)
  /\ (forall s a b c,
        value s = a +:+ DEFAULT_GRAPH_TOKEN +:+ b +:+ DEFAULT_GRAPH_TOKEN +:+ c ->
        PyStr.find (value s) DEFAULT_GRAPH_TOKEN = PyStr.len a ->
        PyStr.find (b +:+ DEFAULT_GRAPH_TOKEN +:+ c) DEFAULT_GRAPH_TOKEN = PyStr.len b ->
        0 < n1 \/ use_graph_start_end cfg = true ->
        from (expand_sentence_LP cfg n1 n2 s) = from s
        /\ value (expand_sentence_LP cfg n1 n2 s)
           = a +:+ replace_token cfg n1 +:+ b +:+ replace_token cfg n2 +:+ c)
  /\ (forall n,
        replace_token cfg n
        = if use_graph_start_end cfg
          then "<g_start>" +:+ PyStr.mul "<g_patch>" n +:+ "<g_end>"
          else PyStr.mul "<g_patch>" n).
Proof.
  intros Hg Hf. split; [by apply preprocess_graph_LP_plain|]. split; [|done].
  intros s a b c Hv Ha Hb Hopen. split; [done|].
  unfold expand_sentence_LP. cbn [value]. rewrite Hv in Ha |- *.
  by apply expand_value_LP_two.
Qed.

Lemma C3_two_markers_witness :
  let s := Sentence "human" "Is <graph> linked to <graph>?" in
  preprocess_graph_LP conversation_lib_class [[s]] bracketing 3 5
  = Ok [[expand_sentence_LP bracketing 3 5 s]]
  /\ value (expand_sentence_LP bracketing 3 5 s)
     = "Is <g_start><g_patch><g_patch><g_patch><g_end> linked to <g_start><g_patch><g_patch><g_patch><g_patch><g_patch><g_end>?".
Proof.
  intros s.
  destruct (C3_two_markers conversation_lib_class [[s]] bracketing 3 5 eq_refl eq_refl)
    as (Hrun & Htwo & _).
  split; [exact Hrun|].
  apply (Htwo s "Is " " linked to " "?").
  - reflexivity.
  - reflexivity.
  - reflexivity.
  - right. reflexivity.
Defined.


(** ** Label masking *)

Lemma for_each_lookup {A B : Type} (f : A -> outcome B) (l : list A) (bs : list B) :
  for_each f l = Ok bs ->
  length bs = length l
  /\ forall i a, l !! i = Some a -> exists b, bs !! i = Some b /\ f a = Ok b.
Proof.
  revert bs. induction l as [|a l IH]; intros bs; simpl.
  - intros [= <-]. split; [done|]. intros i a Hi. by rewrite lookup_nil in Hi.
  - destruct (f a) as [b|e] eqn:Hfa; [|done].
    destruct (for_each f l) as [bs'|e]; [|done].
    intros [= <-]. destruct (IH bs' eq_refl) as [Hlen Hall].
    split; [simpl; congruence|].
    intros [|i] a' Hi; simpl in *.
    + injection Hi as <-. by exists b.
    + by apply Hall.
Qed.

Lemma for_each_total {A B : Type} (f : A -> outcome B) (l : list A) :
  (forall a, In a l -> exists b, f a = Ok b) -> exists bs, for_each f l = Ok bs.
Proof.
  induction l as [|a l IH]; intros Hall; simpl; [by eexists|].
  destruct (Hall a) as [b Hb]; [by left|]. rewrite Hb.
  destruct IH as [bs Hbs]; [intros a' Ha'; apply Hall; by right|].
  rewrite Hbs. by eexists.
Qed.

Lemma slice_bound_inside (n i : Z) : 0 <= i <= n -> slice_bound n i = Z.to_nat i.
Proof.
  intros H. unfold slice_bound.
  destruct (Z.ltb_spec i 0); [lia|]. by rewrite Z.min_l by lia.
Qed.

Lemma length_fill_slice start stop v (t : list Z) :
  length (fill_slice start stop v t) = length t.
Proof.
  unfold fill_slice.
  set (lo := slice_bound _ (default 0 start)).
  set (hi := slice_bound _ (default _ stop)).
  destruct (Nat.ltb_spec lo hi); [|done].
  assert (hi <= length t)%nat.
  { subst hi. unfold slice_bound.
    destruct (Z.ltb_spec (default (Z.of_nat (length t)) stop) 0); lia. }
  rewrite !length_app, length_take, length_replicate, length_drop. lia.
Qed.

Lemma fill_slice_all v (t : list Z) :
  fill_slice None None v t = replicate (length t) v.
Proof.
  unfold fill_slice. simpl.
  rewrite (slice_bound_inside _ 0) by lia.
  rewrite slice_bound_inside by lia. rewrite Nat2Z.id.
  change (Z.to_nat 0) with 0%nat. rewrite take_0, app_nil_l.
  destruct (Nat.ltb_spec 0 (length t)) as [H|H].
  - rewrite drop_all, app_nil_r, Nat.sub_0_r. reflexivity.
  - by destruct t; [|simpl in H; lia].
Qed.

Lemma fill_slice_head v x (t : list Z) :
  fill_slice None (Some 1) v (x :: t) = v :: t.
Proof.
  unfold fill_slice. simpl default.
  rewrite (slice_bound_inside _ 0) by (simpl length; lia).
  rewrite (slice_bound_inside _ 1) by (simpl length; lia).
  reflexivity.
Qed.

Lemma fill_slice_mid v (pre mid rest : list Z) :
  fill_slice (Some (Z.of_nat (length pre)))
             (Some (Z.of_nat (length pre) + Z.of_nat (length mid))) v
             (pre ++ mid ++ rest)
  = pre ++ replicate (length mid) v ++ rest.
Proof.
  unfold fill_slice. simpl default.
  rewrite !slice_bound_inside by (rewrite !length_app; lia).
  rewrite Nat2Z.id.
  replace (Z.to_nat (Z.of_nat (length pre) + Z.of_nat (length mid)))
    with (length pre + length mid)%nat by lia.
  destruct (Nat.ltb_spec (length pre) (length pre + length mid)) as [H|H].
  - rewrite take_app_length.
    replace (length pre + length mid - length pre)%nat with (length mid) by lia.
    rewrite drop_app_add', drop_app_length; [done|lia].
  - assert (length mid = 0%nat) as Hmid by lia.
    apply nil_length_inv in Hmid. by subst mid.
Qed.

(** *** The attributes of the class *)

Lemma class_default_conversation_absent (cls : class_dict) :
  cls !! "default_conversation" = None ->
  class_default_conversation cls = Raise AttributeError.
Proof. intros H. unfold class_default_conversation, class_getattr. by rewrite H. Qed.

Lemma class_separator_style_absent (cls : class_dict) (m : SeparatorStyle) :
  cls !! "SeparatorStyle" = None ->
  class_separator_style cls m = Raise AttributeError.
Proof. intros H. unfold class_separator_style, class_getattr. by rewrite H. Qed.

Lemma class_default_conversation_set (cls : class_dict) (dc : conversation) :
  class_default_conversation (class_setattr cls "default_conversation" (VConversation dc))
  = Ok dc.
Proof.
  unfold class_default_conversation, class_getattr, class_setattr.
  by rewrite lookup_insert_eq.
Qed.

(** C1, a defect of the code: [conversation_lib] names the dataclass, which
    has no attribute [default_conversation], so [preprocess_v1] stops with
    [AttributeError] in its first statement (line 862), for every tokenizer
    and every list of sources: no label is set to [-100], no warning is
    printed, and the run is aborted.  With that attribute assigned to the
    class (what line 1314 is there for) the call does not return either:
    behind the templates, the assertion of line 889 reads
    [conversation_lib.SeparatorStyle]. *)
Theorem C1_preprocess_v1_attribute_error (tokenize : string -> list Z)
    (pad_token_id model_max_length : Z) (sources : list (list sentence)) :
  preprocess_v1 tokenize pad_token_id model_max_length conversation_lib_class sources
  = Raise AttributeError
  /\ forall dc, exists e,
       preprocess_v1 tokenize pad_token_id model_max_length
         (class_setattr conversation_lib_class "default_conversation" (VConversation dc))
         sources
       = Raise e.
Proof.
  split; [done|]. intros dc. unfold preprocess_v1.
  rewrite class_default_conversation_set. cbn [mbind outcome_bind].
  destruct (apply_templates (copy_value dc) sources) as [convs|e]; [|by exists e].
  exists AttributeError. done.
Qed.

(** C2, a defect of the code: on the dialogues [two_dialogues], whose
    prompts the word-level tokenizer reconstructs exactly, [preprocess_v1]
    computes no label: neither [default_conversation] nor [SeparatorStyle] is an
    attribute of the class, and the call stops with [AttributeError] in front
    of the masking loop. *)
Theorem C2_no_labels_computed :
  class_getattr conversation_lib_class "default_conversation" = Raise AttributeError
  /\ class_getattr conversation_lib_class "SeparatorStyle" = Raise AttributeError
  /\ preprocess_v1 word_tokenizer 0 64 conversation_lib_class two_dialogues
     = Raise AttributeError.
Proof. by vm_compute. Qed.

(** * Further properties of the conversation templates *)

Lemma two_loop_app sp sp2 i ret (ms ms' : list turn) :
  two_loop sp sp2 i ret (ms ++ ms')
  = match two_loop sp sp2 i ret ms with
    | Ok p => two_loop sp sp2 (i + length ms) p ms'
    | Raise e => Raise e
    end.
Proof.
  revert i ret. induction ms as [|[role m] ms IH]; intros i ret.
  - cbn [app two_loop length]. by rewrite Nat.add_0_r.
  - cbn [app two_loop length].
    replace (i + S (length ms))%nat with (S i + length ms)%nat by lia.
    destruct (truthy m); [|apply IH].
    destruct (if Nat.even i then Some sp else sp2); [apply IH|done].
Qed.

(** X1: [append_message] needs a list.  On a conversation whose [messages]
    is a tuple, as in every template of the module, it raises
    [AttributeError].  On a list (a [copy], or after [conv.messages = []])
    it puts the turn behind the others, and [get_prompt] is incremental:
    when the conversation renders to [p], the longer one renders to the
    value of the style's loop body run on [p] with the new turn alone (at
    the turn's index, for the TWO style), so that [p] is the beginning of
    the longer prompt whenever that prompt exists. *)
Theorem get_prompt_append_message (held : container) (c : conversation)
    (role : string) (m : message) (p : string) :
  get_prompt c = Ok p ->
  match held with
  | PyTuple => append_message held c role m = Raise AttributeError
  | PyList =>
      exists c',
        append_message held c role m = Ok c'
        /\ messages c' = messages c ++ [(role, m)]
        /\ get_prompt c'
           = match sep_style c with
             | Member SINGLE => Ok (single_step (sep c) p (role, m))
             | Member TWO =>
                 two_loop (sep c) (sep2 c) (length (messages c)) p [(role, m)]
             | Member MPT => Ok (mpt_step (sep c) p (role, m))
             | Foreign _ => Raise ValueError
             end
        /\ forall q, get_prompt c' = Ok q -> exists s, q = p +:+ s
  end.
Proof.
  intros Hp. destruct held; [|done].
  eexists. split; [reflexivity|]. split; [done|].
  match goal with |- ?g = ?rhs /\ _ => assert (g = rhs) as Heq end.
  { unfold get_prompt in *. cbn [sep_style messages system sep sep2].
    destruct (sep_style c) as [[| |]|]; [| | |done].
    - injection Hp as <-. by rewrite fold_left_app.
    - rewrite two_loop_app, Hp. done.
    - injection Hp as <-. by rewrite fold_left_app. }
  split; [exact Heq|].
  intros q Hq. rewrite Heq in Hq.
  destruct (sep_style c) as [[| |]|]; [| | |done].
  - injection Hq as <-. cbn [single_step]. destruct (truthy m); by eexists.
  - cbn [two_loop] in Hq. destruct (truthy m).
    + destruct (if Nat.even _ then _ else _); [|done].
      injection Hq as <-. by eexists.
    + injection Hq as <-. by eexists.
  - injection Hq as <-. cbn [mpt_step]. destruct (truthy m); by eexists.
Qed.

Lemma get_prompt_append_message_witness :
  append_message PyTuple conv_vicuna_v1_1 "USER" (MsgText "hi") = Raise AttributeError
  /\ exists c',
       append_message PyList (set_messages conv_vicuna_v1_1 [("USER", MsgText "hi")])
         "ASSISTANT" (MsgText "hello") = Ok c'
       /\ get_prompt c'
          = Ok "A chat between a curious user and an artificial intelligence assistant. The assistant gives helpful, detailed, and polite answers to the user's questions. USER: hi ASSISTANT: hello</s>".
Proof.
  split.
  - apply (get_prompt_append_message PyTuple conv_vicuna_v1_1 "USER" (MsgText "hi")
             "A chat between a curious user and an artificial intelligence assistant. The assistant gives helpful, detailed, and polite answers to the user's questions. ").
    reflexivity.
  - destruct (get_prompt_append_message PyList
                (set_messages conv_vicuna_v1_1 [("USER", MsgText "hi")])
                "ASSISTANT" (MsgText "hello")
                "A chat between a curious user and an artificial intelligence assistant. The assistant gives helpful, detailed, and polite answers to the user's questions. USER: hi "
                eq_refl) as (c' & Hrun & _ & Hp & _).
    exists c'. split; [exact Hrun|]. exact Hp.
Defined.

Lemma py_index_0_cons {A : Type} (a : A) (l : list A) : py_index (a :: l) 0 = Ok a.
Proof.
  unfold py_index. cbn [length]. change (0 <? 0) with false. cbv iota.
  change (0 <=? 0) with true.
  destruct (Z.ltb_spec 0 (Z.of_nat (S (length l)))); [done|lia].
Qed.

Lemma set_messages_id (conv : conversation) : set_messages conv (messages conv) = conv.
Proof. by destruct conv. Qed.

(** The template loop accepts a source exactly when its speakers alternate,
    and then adds one turn per sentence. *)
Lemma add_turns_alternating r0 r1 (conv conv' : conversation) (j : nat)
    (source : list sentence) :
  r0 <> r1 ->
  add_turns r0 r1 conv j source = Ok conv'
  <-> alternating j source
      /\ conv' = set_messages conv (messages conv ++ turns_of r0 r1 j source).
Proof.
  intros Hne. revert conv j.
  induction source as [|s rest IH]; intros conv j; cbn [add_turns alternating turns_of].
  - rewrite app_nil_r, set_messages_id. split.
    + by intros [= ->].
    + by intros [_ ->].
  - unfold lookup_role, expected_speaker.
    destruct (String.eqb_spec (from s) "human") as [Hh|Hh].
    + destruct (Nat.even j).
      * rewrite String.eqb_refl. cbn [append_message]. rewrite IH.
        cbn [messages set_messages
          system roles offset sep_style sep sep2 version skip_next].
        rewrite <- app_assoc. cbn [app]. tauto.
      * destruct (String.eqb_spec r0 r1) as [|_]; [done|].
        rewrite Hh. split; [done|]. intros [[Hs _] _]. cbv iota in Hs. discriminate.
    + destruct (String.eqb_spec (from s) "gpt") as [Hg|Hg].
      * destruct (Nat.even j).
        -- destruct (String.eqb_spec r1 r0) as [|_]; [by subst|].
           rewrite Hg. split; [done|]. intros [[Hs _] _]. cbv iota in Hs. discriminate.
        -- rewrite String.eqb_refl. cbn [append_message]. rewrite IH.
           cbn [messages set_messages
             system roles offset sep_style sep sep2 version skip_next].
           rewrite <- app_assoc. cbn [app]. tauto.
      * split; [done|]. intros [[Hs _] _]. by destruct (Nat.even j).
Qed.

(** X2: with two different role names, a source renders to a prompt exactly
    when it is not empty, its first speaker is "human" or "gpt", and its
    speakers alternate human, gpt, human, ... once a leading "gpt" sentence
    is dropped; the prompt is then the template's prompt over one turn per
    remaining sentence.  The empty source stops with [IndexError]. *)
Theorem render_source_alternating r0 r1 (conv : conversation)
    (source : list sentence) (p : string) :
  r0 <> r1 ->
  (render_source r0 r1 conv source = Ok p
   <-> exists s0 rest,
         source = s0 :: rest
         /\ ((from s0 = "human" /\ alternating 0 source
              /\ get_prompt (set_messages conv (turns_of r0 r1 0 source)) = Ok p)
             \/ (from s0 = "gpt" /\ alternating 0 rest
                 /\ get_prompt (set_messages conv (turns_of r0 r1 0 rest)) = Ok p)))
  /\ render_source r0 r1 conv [] = Raise IndexError.
Proof.
  intros Hne. split; [|done].
  destruct source as [|s0 rest].
  { split; [done|]. by intros (? & ? & ? & _). }
  unfold render_source. rewrite py_index_0_cons. cbn [mbind outcome_bind].
  unfold lookup_role.
  assert (forall src,
            (add_turns r0 r1 (set_messages conv []) 0 src
             ≫= (fun conv' : conversation => get_prompt conv')) = Ok p
            <-> alternating 0 src
                /\ get_prompt (set_messages conv (turns_of r0 r1 0 src)) = Ok p) as Hrun.
  { intros src. unfold mbind, outcome_bind. split.
    - destruct (add_turns r0 r1 (set_messages conv []) 0 src) as [conv'|] eqn:E; [|done].
      apply add_turns_alternating in E as [Halt ->]; [|done].
      intros Hp. split; [done|]. exact Hp.
    - intros [Halt Hp].
      assert (add_turns r0 r1 (set_messages conv []) 0 src
              = Ok (set_messages conv (turns_of r0 r1 0 src))) as ->; [|done].
      apply add_turns_alternating; [done|]. split; [done|]. done. }
  destruct (String.eqb_spec (from s0) "human") as [Hh|Hh].
  - cbn [mbind outcome_bind]. rewrite String.eqb_refl. cbn [negb]. rewrite Hrun. split.
    + intros [? ?]. exists s0, rest. split; [done|]. by left.
    + intros (? & ? & [= <- <-] & [(_ & ? & ?)|(Hg & _)]); [done|].
      rewrite Hh in Hg. done.
  - destruct (String.eqb_spec (from s0) "gpt") as [Hg|Hg].
    + cbn [mbind outcome_bind].
      destruct (String.eqb_spec r1 r0) as [|_]; [by subst|].
      cbn [negb tail]. rewrite Hrun. split.
      * intros [? ?]. exists s0, rest. split; [done|]. by right.
      * intros (? & ? & [= <- <-] & [(Hh' & _)|(_ & ? & ?)]); done.
    + split; [done|].
      intros (? & ? & [= <- <-] & [(? & _)|(? & _)]); done.
Qed.

Lemma render_source_alternating_witness :
  render_source "USER" "GPT" conv_bair_v1
    [Sentence "gpt" "welcome"; Sentence "human" "hi"; Sentence "gpt" "hello"]
  = Ok "BEGINNING OF CONVERSATION: USER: hi GPT: hello</s>".
Proof.
  apply (render_source_alternating "USER" "GPT" conv_bair_v1
           [Sentence "gpt" "welcome"; Sentence "human" "hi"; Sentence "gpt" "hello"]
           "BEGINNING OF CONVERSATION: USER: hi GPT: hello</s>").
  - discriminate.
  - exists (Sentence "gpt" "welcome"), [Sentence "human" "hi"; Sentence "gpt" "hello"].
    split; [reflexivity|]. right. repeat split; reflexivity.
Defined.
(** * Further properties of the label masking *)

(** A slice assignment changes a tensor only by writing the value. *)
Lemma fill_slice_lookup start stop v (t : list Z) (j : nat) (y : Z) :
  fill_slice start stop v t !! j = Some y -> y = v \/ t !! j = Some y.
Proof.
  unfold fill_slice.
  set (lo := slice_bound _ (default 0 start)).
  set (hi := slice_bound _ (default _ stop)).
  destruct (Nat.ltb_spec lo hi) as [Hlt|]; [|by right].
  assert (hi <= length t)%nat as Hhi.
  { subst hi. unfold slice_bound. destruct (Z.ltb_spec (default (Z.of_nat (length t)) stop) 0); lia. }
  intros H.
  destruct (decide (j < lo)%nat) as [Hj|Hj].
  { rewrite lookup_app_l in H by (rewrite length_take; lia).
    rewrite lookup_take_lt in H by done. by right. }
  rewrite lookup_app_r in H by (rewrite length_take; lia).
  rewrite length_take, Nat.min_l in H by lia.
  destruct (decide (j - lo < hi - lo)%nat) as [Hj'|Hj'].
  { rewrite lookup_app_l in H by (rewrite length_replicate; lia).
    apply lookup_replicate in H as [-> _]. by left. }
  rewrite lookup_app_r in H by (rewrite length_replicate; lia).
  rewrite length_replicate, lookup_drop in H.
  right. rewrite <- H. f_equal. lia.
Qed.

Lemma labels_of_fill_slice start stop (row t : list Z) :
  labels_of row t -> labels_of row (fill_slice start stop IGNORE_INDEX t).
Proof.
  intros [Hlen Hpos]. split; [by rewrite length_fill_slice|].
  intros j y Hy. apply fill_slice_lookup in Hy as [->|Hy]; [by left|by apply Hpos].
Qed.

Lemma ignored_head_fill_slice start stop (t : list Z) :
  (forall y, t !! 0%nat = Some y -> y = IGNORE_INDEX) ->
  forall y, fill_slice start stop IGNORE_INDEX t !! 0%nat = Some y -> y = IGNORE_INDEX.
Proof.
  intros Hhead y Hy. apply fill_slice_lookup in Hy as [->|Hy]; [done|by apply Hhead].
Qed.

Lemma is_member_spec (m : SeparatorStyle) (s : style_value) :
  is_member m s = true <-> s = Member m.
Proof. destruct s as [[| |]|], m; cbn; split; congruence. Qed.

Section MaskingShape.

Variable tokenize : string -> list Z.
Variable pad_token_id : Z.
Variable model_max_length : Z.

(** The loop over the rounds never raises. *)
Lemma mask_rounds_ok c s (rounds : list string) (cur : Z) (t : list Z) :
  exists cur' t',
    mask_rounds tokenize (String c s) rounds cur t = Ok (cur', t')
    /\ length t' = length t.
Proof.
  revert cur t. induction rounds as [|rou rest IH]; intros cur t; simpl.
  - by eexists _, _.
  - destruct (String.eqb rou ""); [by eexists _, _|].
    destruct (negb _); [by eexists _, _|].
    destruct (IH (cur + token_len tokenize rou)
                (fill_slice (Some cur)
                   (Some (cur + (token_len tokenize
                                   (nth 0 (PyStr.split_from (String c s) 0 rou) ""
                                    +:+ String c s) - 2)))
                   IGNORE_INDEX t)) as (cur' & t' & Hrun & Hlen).
    exists cur', t'. split; [exact Hrun|].
    by rewrite Hlen, length_fill_slice.
Qed.

(** One example: the rounds, the cursor, and the two ways the body ends. *)
Lemma mask_example_cases (sp : string) (sp2 : option string)
    (conv : string) (row : list Z) :
  (exists c s, sp = String c s) -> sp2 <> Some "" ->
  exists rounds cur target,
    PyStr.split conv sp2 = Ok rounds
    /\ mask_rounds tokenize sp rounds 1
         (fill_slice None (Some 1) IGNORE_INDEX row) = Ok (cur, target)
    /\ mask_example tokenize pad_token_id model_max_length sp sp2 conv row
       = Ok (if (cur <? model_max_length) && negb (cur =? total_len pad_token_id row)
             then (replicate (length row) IGNORE_INDEX,
                   [mismatch_warning cur (total_len pad_token_id row)])
             else (fill_slice (Some cur) None IGNORE_INDEX target, [])).
Proof.
  intros (c & s & ->) Hsp2.
  assert (exists rounds, PyStr.split conv sp2 = Ok rounds) as [rounds Hsplit].
  { destruct sp2 as [[|x sp2]|]; [done| |]; by eexists. }
  destruct (mask_rounds_ok c s rounds 1 (fill_slice None (Some 1) IGNORE_INDEX row))
    as (cur & target & Hrun & Hlen).
  exists rounds, cur, target. split; [done|]. split; [done|].
  unfold mask_example. rewrite Hsplit, Hrun.
  destruct ((cur <? model_max_length) && negb (cur =? total_len pad_token_id row));
    [|done].
  by rewrite fill_slice_all, !length_fill_slice, Hlen, length_fill_slice.
Qed.

Lemma mask_rounds_labels sp (rounds : list string) (cur cur' : Z)
    (row t t' : list Z) :
  mask_rounds tokenize sp rounds cur t = Ok (cur', t') ->
  labels_of row t ->
  (forall y, t !! 0%nat = Some y -> y = IGNORE_INDEX) ->
  labels_of row t' /\ (forall y, t' !! 0%nat = Some y -> y = IGNORE_INDEX).
Proof.
  revert cur t. induction rounds as [|rou rest IH]; intros cur t; cbn [mask_rounds].
  - by intros [= <- <-].
  - destruct (String.eqb rou ""); [by intros [= <- <-]|].
    destruct (PyStr.split rou (Some sp)) as [parts|]; [|done].
    destruct (negb _); [by intros [= <- <-]|].
    intros Hrun Hlab Hhead. eapply IH; [exact Hrun| |].
    + by apply labels_of_fill_slice.
    + by apply ignored_head_fill_slice.
Qed.

Lemma mask_example_labels sp sp2 (conv : string) (row lab : list Z)
    (out : list string) :
  mask_example tokenize pad_token_id model_max_length sp sp2 conv row = Ok (lab, out) ->
  labels_of row lab /\ (forall y, lab !! 0%nat = Some y -> y = IGNORE_INDEX).
Proof.
  unfold mask_example.
  destruct (PyStr.split conv sp2) as [rounds|]; [|done].
  destruct (mask_rounds _ _ _ _ _) as [[cur t]|] eqn:Hrun; [|done].
  apply (mask_rounds_labels _ _ _ _ row) in Hrun as [Hlab Hhead].
  - destruct (_ && _); intros [= <- <-].
    + split; [by do 2 apply labels_of_fill_slice|].
      by do 2 apply ignored_head_fill_slice.
    + split; [by apply labels_of_fill_slice|by apply ignored_head_fill_slice].
  - apply labels_of_fill_slice. split; [done|]. intros; by right.
  - destruct row as [|x row]; [done|]. rewrite fill_slice_head. by intros y [= <-].
Qed.

(** X29: the masking of one example in [preprocess_v1] (lines 891 to 921),
    for the non-empty separator [sep = conv.sep + conv.roles[1] + ": "]
    and a [sep2] that is not the empty string: the body always ends, with a
    row of labels as long as the row of token ids, in which every label is
    [-100] or the token id at its position and the first label is [-100].
    When the cursor left by the rounds is below [model_max_length] and
    differs from the count of non-padding tokens, every label of the
    example is [-100] and the warning is printed; otherwise (also when the
    two differ but the cursor has reached [model_max_length]) the labels of
    the masking pass are kept and nothing is printed.  With [sep2 = ""] the
    [split] stops with [ValueError]. *)
Theorem mask_example_mismatch_guard (sp : string) (sp2 : option string)
    (conv : string) (row : list Z) :
  (exists c s, sp = String c s) ->
  (sp2 <> Some "" ->
   exists rounds cur target lab out,
     PyStr.split conv sp2 = Ok rounds
     /\ mask_rounds tokenize sp rounds 1
          (fill_slice None (Some 1) IGNORE_INDEX row) = Ok (cur, target)
     /\ mask_example tokenize pad_token_id model_max_length sp sp2 conv row
        = Ok (lab, out)
     /\ (cur < model_max_length -> cur <> total_len pad_token_id row ->
         lab = replicate (length row) IGNORE_INDEX
         /\ out = [mismatch_warning cur (total_len pad_token_id row)])
     /\ (~ (cur < model_max_length /\ cur <> total_len pad_token_id row) ->
         lab = fill_slice (Some cur) None IGNORE_INDEX target /\ out = [])
     /\ length lab = length row
     /\ (forall j y, lab !! j = Some y -> y = IGNORE_INDEX \/ row !! j = Some y)
     /\ (forall y, lab !! 0%nat = Some y -> y = IGNORE_INDEX))
  /\ (sp2 = Some "" ->
      mask_example tokenize pad_token_id model_max_length sp sp2 conv row
      = Raise ValueError).
Proof.
  intros Hsp. split; [|by intros ->].
  intros Hsp2.
  destruct (mask_example_cases sp sp2 conv row Hsp Hsp2)
    as (rounds & cur & target & Hsplit & Hloop & Hcase).
  set (mismatch := (cur <? model_max_length)
                   && negb (cur =? total_len pad_token_id row)) in *.
  exists rounds, cur, target,
    (if mismatch then replicate (length row) IGNORE_INDEX
     else fill_slice (Some cur) None IGNORE_INDEX target),
    (if mismatch then [mismatch_warning cur (total_len pad_token_id row)] else []).
  split; [done|]. split; [done|].
  assert (Hrun : mask_example tokenize pad_token_id model_max_length sp sp2 conv row
                 = Ok (if mismatch then replicate (length row) IGNORE_INDEX
                       else fill_slice (Some cur) None IGNORE_INDEX target,
                       if mismatch
                       then [mismatch_warning cur (total_len pad_token_id row)]
                       else [])).
  { rewrite Hcase. by destruct mismatch. }
  split; [exact Hrun|].
  split; [|split].
  - intros Hlt Hne. subst mismatch.
    destruct (Z.ltb_spec cur model_max_length); [|lia].
    destruct (Z.eqb_spec cur (total_len pad_token_id row)); [lia|]. done.
  - intros Hno. subst mismatch.
    destruct (Z.ltb_spec cur model_max_length);
      destruct (Z.eqb_spec cur (total_len pad_token_id row)); cbn [andb negb];
      try done.
    exfalso. apply Hno. lia.
  - apply mask_example_labels in Hrun as [[? ?] ?]. done.
Qed.

Section ClassState.

Variable cls : class_dict.

(** What [preprocess_v1] has done when it returns. *)
Lemma preprocess_v1_inv (sources : list (list sentence))
    (ids labels : list (list Z)) (log : list string) :
  preprocess_v1 tokenize pad_token_id model_max_length cls sources
  = Ok (ids, labels, log) ->
  exists dc convs r1 res,
    class_default_conversation cls = Ok dc
    /\ class_separator_style cls TWO = Ok TWO
    /\ apply_templates (copy_value dc) sources = Ok convs
    /\ sep_style dc = Member TWO
    /\ py_index (roles dc) 1 = Ok r1
    /\ ids = encode_batch tokenize pad_token_id model_max_length convs
    /\ for_each (fun ct : string * list Z =>
                   mask_example tokenize pad_token_id model_max_length
                     (instruction_sep dc r1) (sep2 dc) ct.1 ct.2)
         (zip convs ids) = Ok res
    /\ labels = map fst res /\ log = concat (map snd res).
Proof.
  unfold preprocess_v1.
  destruct (class_default_conversation cls) as [dc|] eqn:Hdc; [|done].
  cbn [mbind outcome_bind].
  destruct (apply_templates (copy_value dc) sources) as [convs|] eqn:Htpl; [|done].
  cbn [mbind outcome_bind].
  destruct (class_separator_style cls TWO) as [two|] eqn:Htwo; [|done].
  assert (two = TWO) as ->.
  { unfold class_separator_style in Htwo.
    destruct (class_getattr cls "SeparatorStyle") as [[]|]; cbn in Htwo; congruence. }
  cbn [mbind outcome_bind sep_style roles sep2 copy_value].
  destruct (is_member TWO (sep_style dc)) eqn:Hstyle; [|done].
  apply is_member_spec in Hstyle.
  cbn [py_assert mbind outcome_bind].
  destruct (py_index (roles dc) 1) as [r1|] eqn:Hr1; [|done].
  change (instruction_sep (copy_value dc) r1) with (instruction_sep dc r1).
  cbn [mbind outcome_bind].
  match goal with
  | |- context [for_each ?f ?l] => destruct (for_each f l) as [res|] eqn:Hres
  end; [|done].
  intros [= <- <- <-]. by exists dc, convs, r1, res.
Qed.

Lemma apply_templates_roles (conv : conversation) (sources : list (list sentence))
    (convs : list string) :
  apply_templates conv sources = Ok convs ->
  exists r1, py_index (roles conv) 1 = Ok r1.
Proof.
  unfold apply_templates.
  destruct (py_index (roles conv) 0); [|done]. cbn.
  destruct (py_index (roles conv) 1); [|done]. by eexists.
Qed.

(** X3: whenever [preprocess_v1] returns, the class has the attributes
    [default_conversation] and [SeparatorStyle] (so it is not the class as
    the module leaves it), [labels] has one row per source and per row of
    [input_ids], each label row is as long as its row of token ids, every
    label is either [-100] or the token id at the same position, and the
    first label of every row is [-100]. *)
Theorem preprocess_v1_labels_shape (sources : list (list sentence))
    (ids labels : list (list Z)) (log : list string) :
  preprocess_v1 tokenize pad_token_id model_max_length cls sources
  = Ok (ids, labels, log) ->
  (exists dc, cls !! "default_conversation" = Some (VConversation dc))
  /\ cls !! "SeparatorStyle" = Some VEnum
  /\ length ids = length sources
  /\ Forall2 (fun row lab =>
                length lab = length row
                /\ (forall j y, lab !! j = Some y ->
                      y = IGNORE_INDEX \/ row !! j = Some y)
                /\ (forall y, lab !! 0%nat = Some y -> y = IGNORE_INDEX))
       ids labels.
Proof.
  intros H. apply preprocess_v1_inv in H
    as (dc & convs & r1 & res & Hdc & Htwo & Htpl & _ & _ & Hids & Hres & -> & _).
  assert (length ids = length convs) as Hlen.
  { rewrite Hids. unfold encode_batch. by rewrite !length_map. }
  destruct (for_each_lookup _ _ _ Hres) as [Hreslen Hall].
  split; [|split; [|split]].
  - unfold class_default_conversation, class_getattr in Hdc.
    destruct (cls !! "default_conversation") as [[]|]; cbn in Hdc; try done.
    injection Hdc as ->. by eexists.
  - unfold class_separator_style, class_getattr in Htwo.
    by destruct (cls !! "SeparatorStyle") as [[]|].
  - unfold apply_templates in Htpl.
    destruct (py_index _ 0); [|done]. cbn [mbind outcome_bind] in Htpl.
    destruct (py_index _ 1); [|done]. cbn [mbind outcome_bind] in Htpl.
    apply for_each_lookup in Htpl as [Hl _]. lia.
  - apply Forall2_same_length_lookup_2.
    { rewrite length_map, Hreslen, length_zip. lia. }
    intros i row lab Hrow Hlab.
    rewrite list_lookup_fmap in Hlab.
    destruct (res !! i) as [[lab' out]|] eqn:Hi; [|done].
    injection Hlab as <-.
    destruct (lookup_lt_is_Some_2 convs i) as [conv Hconv].
    { rewrite <- Hlen. by eapply lookup_lt_Some. }
    destruct (Hall i (conv, row)) as (b & Hb & Hbody).
    { by apply lookup_zip_Some. }
    rewrite Hi in Hb. injection Hb as <-. cbn [fst snd] in Hbody.
    apply mask_example_labels in Hbody as [[? ?] ?]. done.
Qed.

(** X4: where [preprocess_v1] stops, by the attributes of the class.
    Without [default_conversation] it raises [AttributeError] at once.
    With it, and once the prompts are rendered: without [SeparatorStyle]
    it raises [AttributeError] at the assertion; with both attributes a
    template whose style is not TWO fails the assertion (for every source
    list, the empty one included), a TWO template whose [sep2] is the empty
    string stops with [ValueError] at the first [split] when there is a
    conversation to split, and with no source at all a TWO template gives
    empty [input_ids] and [labels]. *)
Theorem preprocess_v1_refusals (sources : list (list sentence)) :
  (cls !! "default_conversation" = None ->
   preprocess_v1 tokenize pad_token_id model_max_length cls sources
   = Raise AttributeError)
  /\ forall dc convs,
       cls !! "default_conversation" = Some (VConversation dc) ->
       apply_templates (copy_value dc) sources = Ok convs ->
       (cls !! "SeparatorStyle" = None ->
        preprocess_v1 tokenize pad_token_id model_max_length cls sources
        = Raise AttributeError)
       /\ (cls !! "SeparatorStyle" = Some VEnum ->
           (sep_style dc <> Member TWO ->
            preprocess_v1 tokenize pad_token_id model_max_length cls sources
            = Raise AssertionError)
           /\ (sep_style dc = Member TWO -> sep2 dc = Some "" -> convs <> [] ->
               preprocess_v1 tokenize pad_token_id model_max_length cls sources
               = Raise ValueError)
           /\ (sep_style dc = Member TWO -> convs = [] ->
               preprocess_v1 tokenize pad_token_id model_max_length cls sources
               = Ok ([], [], []))).
Proof.
  split.
  { intros H. unfold preprocess_v1.
    by rewrite class_default_conversation_absent. }
  intros dc convs Hdc Htpl.
  destruct (apply_templates_roles _ _ _ Htpl) as [r1 Hr1].
  cbn [roles copy_value] in Hr1.
  unfold preprocess_v1, class_default_conversation, class_getattr. rewrite Hdc.
  cbn [mbind outcome_bind]. rewrite Htpl. cbn [mbind outcome_bind].
  split.
  { intros H. by rewrite class_separator_style_absent. }
  intros Henum. unfold class_separator_style, class_getattr. rewrite Henum.
  cbn [mbind outcome_bind sep_style roles sep2 copy_value]. repeat split.
  - intros Hstyle. by destruct (sep_style dc) as [[| |]|].
  - intros -> -> Hne. cbn [is_member py_assert mbind outcome_bind]. rewrite Hr1.
    destruct convs as [|conv convs']; [done|].
    unfold encode_batch. cbn [map zip zip_with for_each fst snd].
    unfold mask_example. done.
  - intros -> ->. cbn [is_member py_assert mbind outcome_bind]. by rewrite Hr1.
Qed.

End ClassState.

End MaskingShape.

Lemma mask_example_mismatch_guard_witness :
  let row := [1; 660; 152; 984; 380; 212; 296; 535; 539] in
  mask_example word_tokenizer 0 9 " GPT: " (Some "</s>") long_answer_prompt row
  = Ok ([-100; -100; -100; -100; -100; -100; -100; 535; 539], [])
  /\ mask_example word_tokenizer 0 64 " GPT: " (Some "</s>") hi_hello_bye_prompt
       (word_tokenizer hi_hello_bye_prompt)
     = Ok (replicate 12 IGNORE_INDEX,
           ["WARNING: tokenization mismatch: 9 vs. 12. (ignored)"]).
Proof.
  intros row. split.
  - destruct (mask_example_mismatch_guard word_tokenizer 0 9 " GPT: " (Some "</s>")
                long_answer_prompt row) as [Hrun _]; [by eexists _, _|].
    destruct Hrun
      as (rounds & cur & target & lab & out & Hsplit & Hloop & Hrun & _ & Hkeep & _);
      [discriminate|].
    vm_compute in Hsplit. injection Hsplit as <-.
    vm_compute in Hloop. injection Hloop as <- <-.
    destruct Hkeep as [-> ->]; [|exact Hrun].
    intros [H _]. vm_compute in H. discriminate.
  - destruct (mask_example_mismatch_guard word_tokenizer 0 64 " GPT: " (Some "</s>")
                hi_hello_bye_prompt (word_tokenizer hi_hello_bye_prompt))
      as [Hrun _]; [by eexists _, _|].
    destruct Hrun
      as (rounds & cur & target & lab & out & Hsplit & Hloop & Hrun & Hmis & _);
      [discriminate|].
    vm_compute in Hsplit. injection Hsplit as <-.
    vm_compute in Hloop. injection Hloop as <- <-.
    destruct Hmis as [-> ->]; [reflexivity | vm_compute; discriminate | exact Hrun].
Defined.

Lemma preprocess_v1_labels_shape_witness :
  exists ids labels log,
    preprocess_v1 word_tokenizer 0 64 (class_with conv_bair_v1) two_dialogues
    = Ok (ids, labels, log)
    /\ Forall2 (fun row lab =>
                  length lab = length row
                  /\ (forall j y, lab !! j = Some y ->
                        y = IGNORE_INDEX \/ row !! j = Some y)
                  /\ (forall y, lab !! 0%nat = Some y -> y = IGNORE_INDEX))
         ids labels.
Proof.
  eexists _, _, _. split; [vm_compute; reflexivity|].
  eapply (preprocess_v1_labels_shape word_tokenizer 0 64 (class_with conv_bair_v1)
            two_dialogues).
  vm_compute. reflexivity.
Defined.

Lemma preprocess_v1_refusals_witness :
  preprocess_v1 word_tokenizer 0 64 conversation_lib_class hi_hello
  = Raise AttributeError
  /\ preprocess_v1 word_tokenizer 0 64
       (class_setattr conversation_lib_class "default_conversation"
          (VConversation conv_bair_v1)) hi_hello
     = Raise AttributeError
  /\ preprocess_v1 word_tokenizer 0 64 (class_with (set_messages conv_v1_2 [])) hi_hello
     = Raise AssertionError.
Proof.
  split; [|split].
  - by apply (preprocess_v1_refusals word_tokenizer 0 64 conversation_lib_class hi_hello).
  - eapply (preprocess_v1_refusals word_tokenizer 0 64
              (class_setattr conversation_lib_class "default_conversation"
                 (VConversation conv_bair_v1)) hi_hello).
    + reflexivity.
    + reflexivity.
    + reflexivity.
  - eapply (preprocess_v1_refusals word_tokenizer 0 64
              (class_with (set_messages conv_v1_2 [])) hi_hello).
    + reflexivity.
    + reflexivity.
    + reflexivity.
    + discriminate.
Defined.

(** * Further properties of the graph-token expansion *)

Lemma replace_from_miss old new x (s : string) :
  PyStr.startswith old (String x s) = false ->
  PyStr.replace_from old new 0 (String x s) = String x (PyStr.replace_from old new 0 s).
Proof. intros H. cbn [PyStr.replace_from]. by rewrite H. Qed.

Lemma count_from_miss sub x (s : string) :
  PyStr.startswith sub (String x s) = false ->
  PyStr.count_from sub 0 (String x s) = PyStr.count_from sub 0 s.
Proof. intros H. cbn [PyStr.count_from]. by rewrite H. Qed.

(** The scan for the marker passes over an expansion unchanged. *)
Lemma replace_from_patches new (n : nat) (y : string) :
  PyStr.replace_from DEFAULT_GRAPH_TOKEN new 0
    (PyStr.repeat_nat DEFAULT_GRAPH_PATCH_TOKEN n +:+ y)
  = PyStr.repeat_nat DEFAULT_GRAPH_PATCH_TOKEN n
    +:+ PyStr.replace_from DEFAULT_GRAPH_TOKEN new 0 y.
Proof.
  induction n as [|n IH]; [done|].
  cbn [PyStr.repeat_nat]. rewrite !append_assoc, <- IH.
  unfold DEFAULT_GRAPH_PATCH_TOKEN at 1 3, DEFAULT_GRAPH_TOKEN. cbv [String.append].
  by do 9 (rewrite replace_from_miss by reflexivity).
Qed.

Lemma replace_from_replace_token cfg new (n : Z) (y : string) :
  PyStr.replace_from DEFAULT_GRAPH_TOKEN new 0 (replace_token cfg n +:+ y)
  = replace_token cfg n +:+ PyStr.replace_from DEFAULT_GRAPH_TOKEN new 0 y.
Proof.
  unfold replace_token, PyStr.mul.
  destruct (use_graph_start_end cfg); [|apply replace_from_patches].
  rewrite !append_assoc.
  transitivity (DEFAULT_G_START_TOKEN
                +:+ PyStr.replace_from DEFAULT_GRAPH_TOKEN new 0
                      (PyStr.repeat_nat DEFAULT_GRAPH_PATCH_TOKEN (Z.to_nat n)
                       +:+ DEFAULT_G_END_TOKEN +:+ y)).
  { unfold DEFAULT_G_START_TOKEN, DEFAULT_GRAPH_TOKEN. cbv [String.append].
    by do 9 (rewrite replace_from_miss by reflexivity). }
  assert (PyStr.replace_from DEFAULT_GRAPH_TOKEN new 0 (DEFAULT_G_END_TOKEN +:+ y)
          = DEFAULT_G_END_TOKEN +:+ PyStr.replace_from DEFAULT_GRAPH_TOKEN new 0 y) as E.
  { unfold DEFAULT_G_END_TOKEN, DEFAULT_GRAPH_TOKEN. cbv [String.append].
    by do 7 (rewrite replace_from_miss by reflexivity). }
  by rewrite replace_from_patches, E.
Qed.

Lemma count_patches (n : nat) (y : string) :
  PyStr.count_from DEFAULT_GRAPH_PATCH_TOKEN 0
    (PyStr.repeat_nat DEFAULT_GRAPH_PATCH_TOKEN n +:+ y)
  = (n + PyStr.count_from DEFAULT_GRAPH_PATCH_TOKEN 0 y)%nat.
Proof.
  induction n as [|n IH]; [done|].
  cbn [PyStr.repeat_nat]. rewrite append_assoc.
  unfold DEFAULT_GRAPH_PATCH_TOKEN at 1 2. rewrite count_from_sep.
  fold DEFAULT_GRAPH_PATCH_TOKEN. rewrite IH. lia.
Qed.

Lemma count_replace_token cfg (n : Z) (y : string) :
  PyStr.count_from DEFAULT_GRAPH_PATCH_TOKEN 0 (replace_token cfg n +:+ y)
  = (Z.to_nat n + PyStr.count_from DEFAULT_GRAPH_PATCH_TOKEN 0 y)%nat.
Proof.
  unfold replace_token, PyStr.mul.
  destruct (use_graph_start_end cfg); [|apply count_patches].
  rewrite !append_assoc.
  transitivity (PyStr.count_from DEFAULT_GRAPH_PATCH_TOKEN 0
                  (PyStr.repeat_nat DEFAULT_GRAPH_PATCH_TOKEN (Z.to_nat n)
                   +:+ DEFAULT_G_END_TOKEN +:+ y)).
  { unfold DEFAULT_G_START_TOKEN, DEFAULT_GRAPH_PATCH_TOKEN at 1. cbv [String.append].
    by do 9 (rewrite count_from_miss by reflexivity). }
  assert (PyStr.count_from DEFAULT_GRAPH_PATCH_TOKEN 0 (DEFAULT_G_END_TOKEN +:+ y)
          = PyStr.count_from DEFAULT_GRAPH_PATCH_TOKEN 0 y) as E.
  { unfold DEFAULT_G_END_TOKEN, DEFAULT_GRAPH_PATCH_TOKEN. cbv [String.append].
    by do 7 (rewrite count_from_miss by reflexivity). }
  by rewrite count_patches, E.
Qed.

(** The search passes over a text without the first character sought. *)
Lemma find_nat_clean_append c sub (t r : string) :
  PyStr.has_char c t = false ->
  PyStr.find_nat (String c sub) (t +:+ r)
  = (fun i => String.length t + i)%nat <$> PyStr.find_nat (String c sub) r.
Proof.
  induction t as [|x t IH]; intros Ht.
  - change ("" +:+ r) with r. by destruct (PyStr.find_nat _ r).
  - cbn [PyStr.has_char] in Ht. apply orb_false_elim in Ht as [Hx Ht].
    change (String x t +:+ r) with (String x (t +:+ r)).
    rewrite find_nat_miss by (cbn [PyStr.startswith]; by rewrite Hx).
    rewrite IH by done. by destruct (PyStr.find_nat _ r).
Qed.

(** The expanded form of a turn [t0 <graph> t1 ... <graph> tk]. *)
Lemma expanded_join cfg cfg' (n n' : Z) (t0 : string) (ts : list string) :
  PyStr.has_char "<" t0 = false ->
  Forall (fun t => PyStr.has_char "<" t = false) ts ->
  let v := join (replace_token cfg n) t0 ts in
  PyStr.find_nat DEFAULT_GRAPH_TOKEN v = None
  /\ PyStr.replace_from DEFAULT_GRAPH_TOKEN (replace_token cfg' n') 0 v = v
  /\ PyStr.count_from DEFAULT_GRAPH_PATCH_TOKEN 0 v = (Z.to_nat n * length ts)%nat.
Proof.
  intros H0 Hts. revert t0 H0.
  induction Hts as [|t1 ts H1 _ IH]; intros t0 H0; cbn [join length].
  - split; [by apply find_nat_clean|]. split.
    + rewrite <- (append_nil_r t0) at 1.
      unfold DEFAULT_GRAPH_TOKEN. rewrite replace_from_clean by done.
      cbn [PyStr.replace_from]. apply append_nil_r.
    + rewrite <- (append_nil_r t0).
      unfold DEFAULT_GRAPH_PATCH_TOKEN. rewrite count_from_clean by done.
      cbn [PyStr.count_from]. lia.
  - destruct (IH t1 H1) as (Hfind & Hrep & Hcount). split; [|split].
    + unfold DEFAULT_GRAPH_TOKEN at 1. rewrite find_nat_clean_append by done.
      fold DEFAULT_GRAPH_TOKEN. by rewrite find_nat_replace_token, Hfind.
    + unfold DEFAULT_GRAPH_TOKEN at 1. rewrite replace_from_clean by done.
      fold DEFAULT_GRAPH_TOKEN. by rewrite replace_from_replace_token, Hrep.
    + unfold DEFAULT_GRAPH_PATCH_TOKEN at 1. rewrite count_from_clean by done.
      fold DEFAULT_GRAPH_PATCH_TOKEN. rewrite count_replace_token, Hcount. lia.
Qed.

(** X5: graph-token expansion for any count.  With [is_graph] set and
    [sep_graph_conv_front] unset, [preprocess_graph] maps every turn through
    the replacement, which trades the 7 characters of each marker for the
    replacement text; for a turn [t0 <graph> t1 ... <graph> tk] whose parts
    hold no ['<'], every marker becomes the replacement, the turn then
    holds [n] patch tokens per marker ([0] for a negative count) and no
    marker, and a further expansion, with whatever count, leaves it as it
    is. *)
Theorem preprocess_graph_any_count (cls : class_dict)
    (sources : list (list sentence)) (cfg : graph_cfg) (n : Z) :
  is_graph cfg = true -> sep_graph_conv_front cfg = false ->
  preprocess_graph cls sources cfg n
  = Ok (map (map (expand_sentence cfg n)) sources)
  /\ (forall s,
        PyStr.len (value (expand_sentence cfg n s))
        + 7 * Z.of_nat (PyStr.count (value s) DEFAULT_GRAPH_TOKEN)
        = PyStr.len (value s)
          + PyStr.len (replace_token cfg n)
            * Z.of_nat (PyStr.count (value s) DEFAULT_GRAPH_TOKEN))
  /\ (forall s t0 ts,
        value s = join DEFAULT_GRAPH_TOKEN t0 ts ->
        PyStr.has_char "<" t0 = false ->
        Forall (fun t => PyStr.has_char "<" t = false) ts ->
        let s' := expand_sentence cfg n s in
        value s' = join (replace_token cfg n) t0 ts
        /\ PyStr.count (value s') DEFAULT_GRAPH_PATCH_TOKEN
           = (Z.to_nat n * length ts)%nat
        /\ PyStr.contains DEFAULT_GRAPH_TOKEN (value s') = false
        /\ forall cfg' n', expand_sentence cfg' n' s' = s').
Proof.
  intros Hg Hf. split; [by apply preprocess_graph_plain|]. split.
  - intros s. unfold expand_sentence, PyStr.replace, PyStr.count, PyStr.len.
    cbn [value]. unfold DEFAULT_GRAPH_TOKEN.
    pose proof (replace_from_length "<" "graph>" (replace_token cfg n) 0 (value s)) as H.
    cbn [String.length] in H. rewrite Nat.min_0_l in H. nia.
  - intros s t0 ts Hv H0 Hts s'.
    assert (value s' = join (replace_token cfg n) t0 ts) as Hv'.
    { subst s'. unfold expand_sentence, PyStr.replace. cbn [value]. rewrite Hv.
      unfold DEFAULT_GRAPH_TOKEN. by apply replace_from_join. }
    split; [exact Hv'|].
    destruct (expanded_join cfg cfg n n t0 ts H0 Hts) as (Hfind & _ & Hcount).
    split; [by rewrite Hv'|]. split.
    + unfold PyStr.contains. by rewrite Hv', Hfind.
    + intros cfg' n'.
      destruct (expanded_join cfg cfg' n n' t0 ts H0 Hts) as (_ & Hrep & _).
      unfold expand_sentence at 1. unfold PyStr.replace.
      unfold DEFAULT_GRAPH_TOKEN at 1. fold DEFAULT_GRAPH_TOKEN.
      rewrite Hv'. cbv zeta in Hrep. rewrite Hrep, <- Hv'. by destruct s'.
Qed.

Lemma preprocess_graph_any_count_witness :
  let s := Sentence "human" "Given <graph>, classify <graph>." in
  preprocess_graph conversation_lib_class [[s]] bracketing 2
  = Ok [[expand_sentence bracketing 2 s]]
  /\ value (expand_sentence bracketing 2 s)
     = "Given <g_start><g_patch><g_patch><g_end>, classify <g_start><g_patch><g_patch><g_end>."
  /\ PyStr.count (value (expand_sentence bracketing 2 s)) DEFAULT_GRAPH_PATCH_TOKEN
     = 4%nat.
Proof.
  intros s.
  destruct (preprocess_graph_any_count conversation_lib_class [[s]] bracketing 2)
    as (Hrun & _ & Hturn); [reflexivity | reflexivity |].
  destruct (Hturn s "Given " [", classify "; "."]) as (Hv & Hc & _).
  - reflexivity.
  - reflexivity.
  - repeat constructor.
  - split; [exact Hrun|]. split; [exact Hv | exact Hc].
Defined.

Lemma replace_from_clean_all c old new (t : string) :
  PyStr.has_char c t = false -> PyStr.replace_from (String c old) new 0 t = t.
Proof.
  intros Ht. rewrite <- (append_nil_r t) at 1.
  rewrite replace_from_clean by done. cbn [PyStr.replace_from]. apply append_nil_r.
Qed.

Lemma has_char_lstrip c (s : string) :
  PyStr.has_char c s = false -> PyStr.has_char c (PyStr.lstrip s) = false.
Proof.
  induction s as [|x s IH]; [done|]. intros H. cbn [PyStr.lstrip].
  destruct (PyStr.isspace x); [|done].
  cbn [PyStr.has_char] in H. apply orb_false_elim in H as [_ H]. by apply IH.
Qed.

Lemma has_char_rstrip c (s : string) :
  PyStr.has_char c s = false -> PyStr.has_char c (PyStr.rstrip s) = false.
Proof.
  induction s as [|x s IH]; [done|]. intros H.
  cbn [PyStr.has_char] in H. apply orb_false_elim in H as [Hx H].
  specialize (IH H). cbn [PyStr.rstrip].
  destruct (PyStr.rstrip s) as [|y r].
  - destruct (PyStr.isspace x); [done|]. cbn [PyStr.has_char]. by rewrite Hx.
  - change (PyStr.has_char c (String x (String y r)))
      with (Ascii.eqb c x || PyStr.has_char c (String y r)).
    by rewrite Hx, IH.
Qed.

Lemma has_char_strip c (s : string) :
  PyStr.has_char c s = false -> PyStr.has_char c (PyStr.strip s) = false.
Proof. intros H. unfold PyStr.strip. by apply has_char_rstrip, has_char_lstrip. Qed.

(** The first marker of [a <graph> r] behind a text [a] without ['<']. *)
Lemma find_nat_first_marker (a r : string) :
  PyStr.has_char "<" a = false ->
  PyStr.find_nat DEFAULT_GRAPH_TOKEN (a +:+ DEFAULT_GRAPH_TOKEN +:+ r)
  = Some (String.length a).
Proof.
  intros Ha. unfold DEFAULT_GRAPH_TOKEN at 1. rewrite find_nat_clean_append by done.
  fold DEFAULT_GRAPH_TOKEN.
  destruct (DEFAULT_GRAPH_TOKEN +:+ r) as [|x q] eqn:E; [done|].
  rewrite find_nat_cons, <- E, startswith_append.
  cbn [fmap option_fmap option_map]. f_equal. lia.
Qed.

(** X6: with [is_graph] and [sep_graph_conv_front] set, [preprocess_graph]
    needs a first turn in every source ([IndexError] otherwise), a marker in
    that turn ([AssertionError]), and then the attribute
    [default_conversation] on the class: without it, as for the class the
    module defines, the call stops with [AttributeError].  When the class
    has been given a conversation under that name, the conversation needs
    a first role name ([IndexError]); and for a first turn
    [t0 <graph> t1 ... <graph> tk] (at least one marker, no ['<'] in the
    parts, the separator and the role name) the first turn becomes one
    single expansion, then the separator, the first role name, [": "] and
    the stripped text without its markers, however many markers the turn
    held; the later turns are expanded as usual. *)
Theorem preprocess_graph_conv_front (cls : class_dict) (cfg : graph_cfg) (n : Z) :
  is_graph cfg = true -> sep_graph_conv_front cfg = true ->
  (forall others, preprocess_graph cls ([] :: others) cfg n = Raise IndexError)
  /\ (forall s0 rest others,
        PyStr.contains DEFAULT_GRAPH_TOKEN (value s0) = false ->
        preprocess_graph cls ((s0 :: rest) :: others) cfg n = Raise AssertionError)
  /\ (forall s0 rest others,
        PyStr.contains DEFAULT_GRAPH_TOKEN (value s0) = true ->
        cls !! "default_conversation" = None ->
        preprocess_graph cls ((s0 :: rest) :: others) cfg n = Raise AttributeError)
  /\ (forall dc s0 rest others,
        PyStr.contains DEFAULT_GRAPH_TOKEN (value s0) = true ->
        cls !! "default_conversation" = Some (VConversation dc) -> roles dc = [] ->
        preprocess_graph cls ((s0 :: rest) :: others) cfg n = Raise IndexError)
  /\ (forall dc s0 rest r0 rs t0 t1 ts,
        cls !! "default_conversation" = Some (VConversation dc) ->
        roles dc = r0 :: rs ->
        value s0 = join DEFAULT_GRAPH_TOKEN t0 (t1 :: ts) ->
        PyStr.has_char "<" t0 = false ->
        Forall (fun t => PyStr.has_char "<" t = false) (t1 :: ts) ->
        PyStr.has_char "<" (sep dc) = false -> PyStr.has_char "<" r0 = false ->
        preprocess_graph cls [s0 :: rest] cfg n
        = Ok [Sentence (from s0)
                (replace_token cfg n +:+ sep dc +:+ r0 +:+ ": "
                 +:+ PyStr.strip (join "" t0 (t1 :: ts)))
              :: map (expand_sentence cfg n) rest]).
Proof.
  intros Hg Hf. unfold preprocess_graph. rewrite Hg, Hf. cbn [negb].
  split; [done|]. split; [|split; [|split]].
  - intros s0 rest others Hc. cbn [for_each graph_conv_front]. by rewrite Hc.
  - intros s0 rest others Hc Hno. cbn [for_each graph_conv_front].
    rewrite Hc, class_default_conversation_absent by done. done.
  - intros dc s0 rest others Hc Hdc Hr. cbn [for_each graph_conv_front].
    unfold class_default_conversation, class_getattr. rewrite Hc, Hdc.
    cbn [py_assert mbind outcome_bind]. by rewrite Hr.
  - intros dc s0 rest r0 rs t0 t1 ts Hdc Hr Hv H0 Hts Hsep Hr0.
    cbn [for_each graph_conv_front].
    unfold class_default_conversation, class_getattr. rewrite Hdc.
    cbn [mbind outcome_bind]. rewrite Hv, Hr, py_index_0_cons.
    assert (PyStr.contains DEFAULT_GRAPH_TOKEN (join DEFAULT_GRAPH_TOKEN t0 (t1 :: ts))
            = true) as ->.
    { unfold PyStr.contains. cbn [join]. by rewrite find_nat_first_marker. }
    assert (PyStr.replace (join DEFAULT_GRAPH_TOKEN t0 (t1 :: ts)) DEFAULT_GRAPH_TOKEN ""
            = join "" t0 (t1 :: ts)) as ->.
    { unfold PyStr.replace, DEFAULT_GRAPH_TOKEN. by rewrite replace_from_join. }
    cbn [py_assert mbind outcome_bind map]. do 3 f_equal.
    unfold expand_sentence. cbn [from value]. f_equal.
    unfold PyStr.replace at 1. unfold DEFAULT_GRAPH_TOKEN at 1.
    fold DEFAULT_GRAPH_TOKEN.
    unfold DEFAULT_GRAPH_TOKEN at 1 2. rewrite replace_from_hit.
    fold DEFAULT_GRAPH_TOKEN. f_equal.
    apply replace_from_clean_all.
    rewrite !has_char_append, Hsep, Hr0. cbn [orb].
    change (PyStr.has_char "<" ": ") with false. cbn [orb].
    apply has_char_strip. by apply has_char_join_empty.
Qed.

Lemma preprocess_graph_conv_front_witness :
  let front := {| is_graph := true; sep_graph_conv_front := true;
                  use_graph_start_end := false |} in
  let source := [Sentence "human" "Given <graph>, classify <graph>. ";
                 Sentence "gpt" "ok <graph>"] in
  preprocess_graph conversation_lib_class [source] front 2 = Raise AttributeError
  /\ preprocess_graph (class_with conv_vicuna_v1_1) [source] front 2
     = Ok [[Sentence "human" "<g_patch><g_patch> USER: Given , classify .";
            Sentence "gpt" "ok <g_patch><g_patch>"]].
Proof.
  intros front source. split.
  - destruct (preprocess_graph_conv_front conversation_lib_class front 2)
      as (_ & _ & H & _); [reflexivity | reflexivity |].
    apply H; reflexivity.
  - destruct (preprocess_graph_conv_front (class_with conv_vicuna_v1_1) front 2)
      as (_ & _ & _ & _ & H); [reflexivity | reflexivity |].
    apply (H conv_vicuna_v1_1 (Sentence "human" "Given <graph>, classify <graph>. ")
             [Sentence "gpt" "ok <graph>"] "USER" ["ASSISTANT"]
             "Given " ", classify " [". "]).
    + reflexivity.
    + reflexivity.
    + reflexivity.
    + reflexivity.
    + repeat constructor.
    + reflexivity.
    + reflexivity.
Defined.

(** X7: the link-prediction expansion of a turn with fewer than two
    markers ([is_graph] set, [sep_graph_conv_front] unset).  A turn without
    a marker is left as it is.  A turn [a <graph> c] with a single marker
    (no ['<'] in [a] and [c]) first becomes [v1 = a R1 c]; the second search
    then finds nothing, and its result [-1] is used as a position all the
    same: the turn becomes [v1[:-1] + R2 + v1[6:]], the text twice with the
    second expansion in between. *)
Theorem preprocess_graph_LP_single_marker (cls : class_dict) (cfg : graph_cfg)
    (n1 n2 : Z) (s : sentence) :
  is_graph cfg = true -> sep_graph_conv_front cfg = false ->
  (PyStr.contains DEFAULT_GRAPH_TOKEN (value s) = false ->
   preprocess_graph_LP cls [[s]] cfg n1 n2 = Ok [[s]])
  /\ (forall a c,
        value s = a +:+ DEFAULT_GRAPH_TOKEN +:+ c ->
        PyStr.has_char "<" a = false -> PyStr.has_char "<" c = false ->
        let v1 := a +:+ replace_token cfg n1 +:+ c in
        preprocess_graph_LP cls [[s]] cfg n1 n2
        = Ok [[Sentence (from s)
                 (PyStr.slice_to v1 (-1) +:+ replace_token cfg n2
                  +:+ PyStr.slice_from v1 6)]]).
Proof.
  intros Hg Hf. rewrite preprocess_graph_LP_plain by done. cbn [map].
  unfold expand_sentence_LP, expand_value_LP. split.
  - intros ->. by destruct s.
  - intros a c Hv Ha Hc. set (v1 := a +:+ replace_token cfg n1 +:+ c).
    do 4 f_equal. rewrite Hv.
    unfold PyStr.contains, PyStr.find.
    rewrite find_nat_first_marker by done.
    change (Z.of_nat (String.length a)) with (PyStr.len a).
    rewrite splice_marker. fold v1.
    assert (PyStr.find_nat DEFAULT_GRAPH_TOKEN v1 = None) as ->.
    { subst v1. unfold DEFAULT_GRAPH_TOKEN at 1.
      rewrite find_nat_clean_append by done. fold DEFAULT_GRAPH_TOKEN.
      rewrite find_nat_replace_token. unfold DEFAULT_GRAPH_TOKEN.
      by rewrite find_nat_clean. }
    reflexivity.
Qed.

Lemma preprocess_graph_LP_single_marker_witness :
  preprocess_graph_LP conversation_lib_class [[Sentence "human" "Is <graph> a hub?"]]
    {| is_graph := true; sep_graph_conv_front := false; use_graph_start_end := false |}
    1 1
  = Ok [[Sentence "human" "Is <g_patch> a hub<g_patch>patch> a hub?"]].
Proof.
  destruct (preprocess_graph_LP_single_marker conversation_lib_class
              {| is_graph := true; sep_graph_conv_front := false;
                 use_graph_start_end := false |} 1 1
              (Sentence "human" "Is <graph> a hub?")) as [_ H];
    [reflexivity | reflexivity |].
  apply (H "Is " " a hub?"); reflexivity.
Defined.

(** * The plain path of [preprocess] *)

Lemma py_slice_tail {A : Type} (a : A) (l : list A) :
  py_slice (a :: l) (Some 1) None = l.
Proof.
  unfold py_slice, slice_bound.
  change (default 0 (Some 1)) with 1.
  change (default (Z.of_nat (length (a :: l))) None) with (Z.of_nat (length (a :: l))).
  cbn [length]. change (1 <? 0) with false. cbv iota.
  destruct (Z.ltb_spec (Z.of_nat (S (length l))) 0); [lia|].
  replace (Z.to_nat (Z.min 1 (Z.of_nat (S (length l))))) with 1%nat by lia.
  replace (Z.to_nat (Z.min (Z.of_nat (S (length l))) (Z.of_nat (S (length l)))))
    with (S (length l)) by lia.
  replace (S (length l) - 1)%nat with (length l) by lia.
  cbn [drop]. apply firstn_all.
Qed.

(** An empty slice: nothing is written. *)
Lemma fill_slice_empty v (t : list Z) (lo hi : Z) :
  0 <= hi -> hi <= lo -> hi <= Z.of_nat (length t) ->
  fill_slice (Some lo) (Some hi) v t = t.
Proof.
  intros H0 Hle Hn. unfold fill_slice, slice_bound.
  change (default 0 (Some lo)) with lo.
  change (default (Z.of_nat (length t)) (Some hi)) with hi.
  destruct (Z.ltb_spec lo 0); [lia|]. destruct (Z.ltb_spec hi 0); [lia|].
  destruct (Nat.ltb_spec (Z.to_nat (Z.min lo (Z.of_nat (length t))))
              (Z.to_nat (Z.min hi (Z.of_nat (length t))))); [lia|done].
Qed.

Lemma fill_slice_turn (pre seg rest : list Z) :
  fill_slice (Some (Z.of_nat (length pre) + 2))
    (Some (Z.of_nat (length pre) + Z.of_nat (length seg))) IGNORE_INDEX
    (pre ++ seg ++ rest)
  = pre ++ (take 2 seg ++ replicate (length seg - 2) IGNORE_INDEX) ++ rest.
Proof.
  destruct (decide (length seg < 2)%nat) as [Hshort|Hlong].
  - rewrite fill_slice_empty by (rewrite ?length_app; lia).
    replace (length seg - 2)%nat with 0%nat by lia.
    rewrite firstn_all2 by lia. cbn [replicate]. by rewrite app_nil_r.
  - pose proof (fill_slice_mid IGNORE_INDEX (pre ++ take 2 seg) (drop 2 seg) rest) as H.
    rewrite length_app, length_take, length_drop, Nat.min_l in H by lia.
    rewrite <- !app_assoc in H.
    rewrite (app_assoc (take 2 seg)), take_drop in H.
    rewrite <- app_assoc.
    replace (Z.of_nat (length pre + 2)) with (Z.of_nat (length pre) + 2) in H by lia.
    replace (Z.of_nat (length pre) + 2 + Z.of_nat (length seg - 2))
      with (Z.of_nat (length pre) + Z.of_nat (length seg)) in H by lia.
    exact H.
Qed.

Lemma length_masked_turn (seg : list Z) (speaker : string) :
  length (masked_turn seg speaker) = length seg.
Proof.
  unfold masked_turn. destruct (String.eqb speaker "human"); [|done].
  rewrite length_app, length_take, length_replicate. lia.
Qed.

Lemma mask_turns_segments (pre : list Z) (segs : list (list Z))
    (speakers : list string) (rest : list Z) :
  length speakers = length segs ->
  mask_turns (Z.of_nat (length pre)) (pre ++ concat segs ++ rest)
    (zip (map (fun seg => Z.of_nat (length seg)) segs) speakers)
  = pre ++ concat (zip_with masked_turn segs speakers) ++ rest.
Proof.
  revert pre speakers. induction segs as [|seg segs IH]; intros pre speakers Hlen.
  - by destruct speakers.
  - destruct speakers as [|speaker speakers]; [done|].
    cbn [map zip zip_with mask_turns concat]. rewrite <- !app_assoc.
    assert ((if String.eqb speaker "human"
             then fill_slice (Some (Z.of_nat (length pre) + 2))
                    (Some (Z.of_nat (length pre) + Z.of_nat (length seg)))
                    IGNORE_INDEX (pre ++ seg ++ concat segs ++ rest)
             else pre ++ seg ++ concat segs ++ rest)
            = (pre ++ masked_turn seg speaker) ++ concat segs ++ rest) as ->.
    { unfold masked_turn. destruct (String.eqb speaker "human").
      - by rewrite fill_slice_turn, <- !app_assoc.
      - by rewrite <- app_assoc. }
    replace (Z.of_nat (length pre) + Z.of_nat (length seg))
      with (Z.of_nat (length (pre ++ masked_turn seg speaker)))
      by (rewrite length_app, length_masked_turn; lia).
    rewrite IH by (cbn [length] in Hlen; lia).
    by rewrite <- !app_assoc.
Qed.

(** X8: [_mask_targets] on a target made of the header tokens, then the
    tokens of each turn, then whatever follows, given the lengths of these
    pieces: the header is masked, every turn whose speaker is exactly
    "human" keeps its first two tokens and is masked behind them, every
    other turn and the tokens behind the last turn are kept as they are.
    With an empty list of lengths the call stops with [IndexError]. *)
Theorem mask_targets_turns (header : list Z) (segs : list (list Z))
    (speakers : list string) (rest : list Z) :
  length speakers = length segs ->
  _mask_targets (header ++ concat segs ++ rest)
    (Z.of_nat (length header) :: map (fun seg => Z.of_nat (length seg)) segs)
    speakers
  = Ok (replicate (length header) IGNORE_INDEX
        ++ concat (zip_with masked_turn segs speakers) ++ rest)
  /\ forall target, _mask_targets target [] speakers = Raise IndexError.
Proof.
  intros Hlen. split; [|done].
  unfold _mask_targets. rewrite py_index_0_cons, py_slice_tail.
  cbn [mbind outcome_bind]. f_equal.
  pose proof (fill_slice_mid IGNORE_INDEX [] header (concat segs ++ rest)) as H.
  cbn [length app] in H. change (Z.of_nat 0) with 0 in H. rewrite Z.add_0_l in H.
  change (fill_slice None (Some (Z.of_nat (length header))) IGNORE_INDEX
            (header ++ concat segs ++ rest))
    with (fill_slice (Some 0) (Some (Z.of_nat (length header))) IGNORE_INDEX
            (header ++ concat segs ++ rest)).
  rewrite H.
  pose proof (mask_turns_segments (replicate (length header) IGNORE_INDEX)
                segs speakers rest Hlen) as Hturns.
  rewrite length_replicate in Hturns. exact Hturns.
Qed.

Lemma mask_targets_turns_witness :
  _mask_targets [1; 10; 11; 1; 20; 21; 22; 23; 1; 30; 31; 32; 9]
    [3; 5; 4] ["human"; "gpt"]
  = Ok [-100; -100; -100; 1; 20; -100; -100; -100; 1; 30; 31; 32; 9].
Proof.
  apply (mask_targets_turns [1; 10; 11] [[1; 20; 21; 22; 23]; [1; 30; 31; 32]]
           ["human"; "gpt"] [9]).
  reflexivity.
Defined.

Lemma py_index_1_cons {A : Type} (a b : A) (l : list A) : py_index (a :: b :: l) 1 = Ok b.
Proof.
  unfold py_index. cbn [length]. change (1 <? 0) with false. cbv iota.
  change (0 <=? 1) with true.
  destruct (Z.ltb_spec 1 (Z.of_nat (S (S (length l))))); [done|lia].
Qed.

Lemma labels_of_refl (row : list Z) : labels_of row row.
Proof. split; [done|]. intros; by right. Qed.

Lemma labels_of_mask_turns (row t : list Z) (cur : Z) (turns : list (Z * string)) :
  labels_of row t -> labels_of row (mask_turns cur t turns).
Proof.
  revert cur t. induction turns as [|[len speaker] turns IH]; intros cur t Ht; [done|].
  cbn [mask_turns]. apply IH. destruct (String.eqb speaker "human"); [|done].
  by apply labels_of_fill_slice.
Qed.

Section PlainPath.

Variable tokenize : string -> list Z.
Variable pad_token_id : Z.
Variable model_max_length : Z.
Variable cls : class_dict.

Lemma speaker_name_written (dc : conversation) (r0 r1 : string) (rs : list string)
    (from_str : string) :
  cls !! "default_conversation" = Some (VConversation dc) ->
  roles dc = r0 :: r1 :: rs ->
  speaker_name cls from_str = Ok (written_name r0 r1 from_str).
Proof.
  intros Hdc Hr. unfold speaker_name, written_name.
  unfold class_default_conversation, class_getattr. rewrite Hdc.
  cbn [mbind outcome_bind]. rewrite Hr.
  rewrite py_index_0_cons, py_index_1_cons.
  by repeat destruct (String.eqb _ _).
Qed.

Lemma speaker_name_unknown (r0 r1 : string) (s : sentence) :
  named_speaker s = false ->
  speaker_name cls (from s) = Ok "unknown"
  /\ written_name r0 r1 (from s) = "unknown".
Proof.
  unfold named_speaker, speaker_name, written_name.
  intros [-> ->]%orb_false_elim. done.
Qed.

Lemma speaker_name_absent (s : sentence) :
  cls !! "default_conversation" = None ->
  named_speaker s = true ->
  speaker_name cls (from s) = Raise AttributeError.
Proof.
  intros Hno. unfold named_speaker, speaker_name.
  rewrite class_default_conversation_absent by done.
  destruct (String.eqb (lower (from s)) "human"); [done|].
  by destruct (String.eqb (lower (from s)) "gpt").
Qed.

(** The loop, given the name written for each sentence of the source. *)
Lemma add_signals_signed (r0 r1 : string) (get : bool)
    (conversation : string) (source : list sentence) :
  Forall (fun s => speaker_name cls (from s) = Ok (written_name r0 r1 (from s))) source ->
  add_signals cls get conversation source
  = Ok (if get then conversation +:+ values_text (signed r0 r1 source) else conversation,
        signed r0 r1 source).
Proof.
  intros Hall. revert conversation.
  induction Hall as [|s rest Hs _ IH]; intros conversation.
  - cbn [add_signals signed map values_text]. destruct get; [|done].
    by rewrite append_nil_r.
  - cbn [add_signals]. rewrite Hs.
    rewrite IH. cbn [signed map values_text value]. destruct get; [|done].
    by rewrite append_assoc.
Qed.

Lemma add_signals_absent (get : bool) (conversation : string)
    (source : list sentence) :
  cls !! "default_conversation" = None ->
  existsb named_speaker source = true ->
  add_signals cls get conversation source = Raise AttributeError.
Proof.
  intros Hno. revert conversation.
  induction source as [|s rest IH]; intros conversation Hex; [done|].
  cbn [existsb add_signals] in *.
  destruct (named_speaker s) eqn:Hs.
  - by rewrite speaker_name_absent.
  - destruct (speaker_name_unknown "" "" s Hs) as [-> _].
    by rewrite IH.
Qed.

Lemma add_speaker_and_signal_parts (r0 r1 : string)
    (header : string) (source : list sentence) :
  Forall (fun s => speaker_name cls (from s) = Ok (written_name r0 r1 (from s))) source ->
  _add_speaker_and_signal cls header source true
  = Ok (header +:+ values_text (signed r0 r1 source) +:+ BEGIN_SIGNAL, signed r0 r1 source)
  /\ _add_speaker_and_signal cls header source false
     = Ok (header +:+ BEGIN_SIGNAL, signed r0 r1 source).
Proof.
  intros Hall. unfold _add_speaker_and_signal.
  rewrite !(add_signals_signed r0 r1) by done. split; [|done].
  by rewrite append_assoc.
Qed.

(** X9: [_add_speaker_and_signal] reads the class only for a speaker that
    is "human" or "gpt" up to letter case.  A source without such a speaker
    is rewritten whatever the class holds: every sentence becomes
    ["### unknown: " + value + "\n"], and the conversation is the header,
    these texts in order and a final ["### "] (the header and ["### "]
    without [get_conversation]).  A source with such a speaker stops with
    [AttributeError] when the class has no attribute
    [default_conversation], as the class of the module.  When a
    conversation with two role names [r0] and [r1] has been assigned under
    that name, the call returns for every source, whatever its speakers and
    their order: the name written is [r0] for "human", [r1] for "gpt" and
    "unknown" for any other speaker. *)
Theorem add_speaker_and_signal_text (header : string) (source : list sentence) :
  (forallb (fun s => negb (named_speaker s)) source = true ->
   _add_speaker_and_signal cls header source true
   = Ok (header +:+ values_text (signed "unknown" "unknown" source) +:+ BEGIN_SIGNAL,
         signed "unknown" "unknown" source)
   /\ _add_speaker_and_signal cls header source false
      = Ok (header +:+ BEGIN_SIGNAL, signed "unknown" "unknown" source))
  /\ (existsb named_speaker source = true ->
      cls !! "default_conversation" = None ->
      forall get, _add_speaker_and_signal cls header source get = Raise AttributeError)
  /\ (forall dc r0 r1 rs,
        cls !! "default_conversation" = Some (VConversation dc) ->
        roles dc = r0 :: r1 :: rs ->
        _add_speaker_and_signal cls header source true
        = Ok (header +:+ values_text (signed r0 r1 source) +:+ BEGIN_SIGNAL,
              signed r0 r1 source)
        /\ _add_speaker_and_signal cls header source false
           = Ok (header +:+ BEGIN_SIGNAL, signed r0 r1 source)
        /\ map from (signed r0 r1 source) = map from source
        /\ forall f f', lower f = lower f' -> written_name r0 r1 f = written_name r0 r1 f').
Proof.
  split; [|split].
  - intros Hall. apply add_speaker_and_signal_parts.
    apply Forall_forall. intros s Hs.
    rewrite forallb_forall in Hall. apply list_elem_of_In, Hall in Hs.
    apply negb_true_iff in Hs.
    by destruct (speaker_name_unknown "unknown" "unknown" s Hs) as [-> ->].
  - intros Hex Hno get. unfold _add_speaker_and_signal.
    by rewrite add_signals_absent.
  - intros dc r0 r1 rs Hdc Hr.
    destruct (add_speaker_and_signal_parts r0 r1 header source) as [H1 H2].
    { apply Forall_forall. intros s _. by apply (speaker_name_written dc r0 r1 rs). }
    split; [exact H1|]. split; [exact H2|]. split.
    + unfold signed. rewrite map_map. by apply map_ext.
    + intros f f' E. unfold written_name. by rewrite E.
Qed.

Lemma mask_targets_labels (row : list Z) (h : Z) (lens : list Z)
    (speakers : list string) :
  exists lab, _mask_targets row (h :: lens) speakers = Ok lab /\ labels_of row lab.
Proof.
  unfold _mask_targets. rewrite py_index_0_cons, py_slice_tail.
  cbn [mbind outcome_bind]. eexists. split; [done|].
  apply labels_of_mask_turns, labels_of_fill_slice, labels_of_refl.
Qed.

Lemma last_constant {A B : Type} (b : B) (a : A) (l : list A) :
  last (map (fun _ : A => b) (a :: l)) = Some b.
Proof.
  revert a. induction l as [|a' l IH]; intros a; [done|].
  exact (IH a').
Qed.

(** The plain path once the class holds a conversation with two role
    names. *)
Lemma preprocess_plain_rows (dc : conversation) (r0 r1 : string) (rs : list string)
    (sources : list (list sentence)) :
  cls !! "default_conversation" = Some (VConversation dc) ->
  roles dc = r0 :: r1 :: rs ->
  exists labels,
    preprocess_plain tokenize pad_token_id model_max_length cls sources
    = Ok (map (fun source =>
                 take (Z.to_nat model_max_length)
                   (tokenize (plain_text dc r0 r1 source)))
            sources,
          labels, [])
    /\ Forall2 (fun source lab =>
                  labels_of
                    (take (Z.to_nat model_max_length)
                       (tokenize (plain_text dc r0 r1 source)))
                    lab)
         sources labels.
Proof.
  intros Hdc Hr. unfold preprocess_plain.
  set (header := system dc +:+ END_SIGNAL +:+ END_SIGNAL).
  set (text := fun source : list sentence =>
                 header +:+ values_text (signed r0 r1 source) +:+ BEGIN_SIGNAL).
  set (row := fun source : list sentence =>
                take (Z.to_nat model_max_length) (tokenize (text source))).
  rewrite (for_each_ok _ (fun source => (header, (text source, signed r0 r1 source)))).
  2:{ intros source. unfold class_default_conversation, class_getattr. rewrite Hdc.
      cbn [mbind outcome_bind]. fold header.
      destruct (add_speaker_and_signal_parts r0 r1 header source) as [-> _]; [|done].
      apply Forall_forall. intros s _. by apply (speaker_name_written dc r0 r1 rs). }
  cbn [mbind outcome_bind]. rewrite !map_map. cbn [fst snd].
  assert ((_tokenize_fn tokenize pad_token_id model_max_length
             (map (fun x : list sentence => text x) sources)).1 = map row sources) as ->.
  { unfold _tokenize_fn. cbn [fst]. by rewrite map_map. }
  destruct sources as [|source0 sources'].
  { exists []. split; [done|]. constructor. }
  rewrite last_constant. change (default "" (Some header)) with header.
  set (sources := source0 :: sources').
  set (body := fun ts : list Z * list sentence => _mask_targets ts.1
                 (_tokenize_fn tokenize pad_token_id model_max_length
                    (header :: map value ts.2)).2 (map from ts.2)).
  assert (forall ts, exists lab, body ts = Ok lab /\ labels_of ts.1 lab) as Hbody.
  { intros [t src]. subst body. cbn [fst snd _tokenize_fn map].
    apply mask_targets_labels. }
  destruct (for_each_total body
              (zip (map row sources)
                   (map (fun x : list sentence => signed r0 r1 x) sources)))
    as [labels Hlabels].
  { intros ts _. destruct (Hbody ts) as (lab & -> & _). by eexists. }
  exists labels. subst body. cbn beta in *. rewrite Hlabels.
  cbn [mbind outcome_bind]. split; [reflexivity|].
  destruct (for_each_lookup _ _ _ Hlabels) as [Hlen Hall].
  rewrite length_zip, !length_map, Nat.min_id in Hlen.
  apply Forall2_same_length_lookup_2; [done|].
  intros i source lab Hsrc Hlab.
  destruct (Hall i (row source, signed r0 r1 source)) as (lab' & Hlab' & Hrun).
  { apply lookup_zip_Some. by rewrite !list_lookup_fmap, Hsrc. }
  rewrite Hlab in Hlab'. injection Hlab' as <-.
  destruct (Hbody (row source, signed r0 r1 source)) as (lab' & Hrun' & Hof).
  cbn beta in Hrun'. rewrite Hrun in Hrun'. injection Hrun' as <-. exact Hof.
Qed.

(** X10: [preprocess] reads [conversation_lib.default_conversation] in
    its first statement: while the class has no such attribute, as the
    class of the module, every call stops with [AttributeError], whatever
    the sources and the tokenizer.  When a conversation has been assigned
    under that name whose version is neither "v1" nor "mpt" and which has
    two role names, [preprocess] takes the plain path and returns for every
    list of sources: no order of speakers is asserted and no speaker is
    refused.  [input_ids] holds, for each source, the tokens (cut to
    [model_max_length]) of the system prompt, two line feeds, the rewritten
    sentences and the final ["### "]; [labels] has a row for each, as long
    as the row of token ids, and every label is the token id at its
    position or [-100]; nothing is printed. *)
Theorem preprocess_plain_path (sources : list (list sentence)) :
  (cls !! "default_conversation" = None ->
   preprocess tokenize pad_token_id model_max_length cls sources = Raise AttributeError)
  /\ forall dc r0 r1 rs,
       cls !! "default_conversation" = Some (VConversation dc) ->
       version dc <> "v1" -> version dc <> "mpt" ->
       roles dc = r0 :: r1 :: rs ->
       exists labels,
         preprocess tokenize pad_token_id model_max_length cls sources
         = Ok (map (fun source =>
                      take (Z.to_nat model_max_length)
                        (tokenize (plain_text dc r0 r1 source)))
                 sources,
               labels, [])
         /\ Forall2 (fun source lab =>
                       labels_of
                         (take (Z.to_nat model_max_length)
                            (tokenize (plain_text dc r0 r1 source)))
                         lab)
              sources labels.
Proof.
  split.
  { intros Hno. unfold preprocess. by rewrite class_default_conversation_absent. }
  intros dc r0 r1 rs Hdc Hv1 Hmpt Hr.
  destruct (preprocess_plain_rows dc r0 r1 rs sources Hdc Hr) as (labels & Hrun & Hlab).
  exists labels. split; [|exact Hlab].
  unfold preprocess, class_default_conversation, class_getattr. rewrite Hdc.
  cbn [mbind outcome_bind].
  destruct (String.eqb_spec (version dc) "v1") as [|_]; [done|].
  destruct (String.eqb_spec (version dc) "mpt") as [|_]; [done|].
  exact Hrun.
Qed.

End PlainPath.

Lemma add_speaker_and_signal_text_witness :
  _add_speaker_and_signal conversation_lib_class "S"
    [Sentence "bot" "yo"; Sentence "system" "ok"] true
  = Ok ("S### unknown: yo
### unknown: ok
### ",
        [Sentence "bot" "### unknown: yo
"; Sentence "system" "### unknown: ok
"])
  /\ _add_speaker_and_signal conversation_lib_class "S"
       [Sentence "bot" "yo"; Sentence "Human" "hi"] true
     = Raise AttributeError
  /\ _add_speaker_and_signal (class_with conv_v1_2) "S"
       [Sentence "Human" "hi"; Sentence "bot" "yo"] true
     = Ok ("S" +:+ values_text (signed "Human" "Assistant"
                                  [Sentence "Human" "hi"; Sentence "bot" "yo"])
           +:+ BEGIN_SIGNAL,
           signed "Human" "Assistant" [Sentence "Human" "hi"; Sentence "bot" "yo"]).
Proof.
  split; [|split].
  - destruct (add_speaker_and_signal_text conversation_lib_class "S"
                [Sentence "bot" "yo"; Sentence "system" "ok"]) as [H _].
    destruct (H eq_refl) as [H1 _]. exact H1.
  - destruct (add_speaker_and_signal_text conversation_lib_class "S"
                [Sentence "bot" "yo"; Sentence "Human" "hi"]) as (_ & H & _).
    apply H; reflexivity.
  - destruct (add_speaker_and_signal_text (class_with conv_v1_2) "S"
                [Sentence "Human" "hi"; Sentence "bot" "yo"]) as (_ & _ & H).
    destruct (H conv_v1_2 "Human" "Assistant" [] eq_refl eq_refl) as [H1 _].
    exact H1.
Defined.

Lemma preprocess_plain_path_witness :
  preprocess word_tokenizer 0 64 conversation_lib_class
    [[Sentence "gpt" "hello"; Sentence "bot" "yo"]]
  = Raise AttributeError
  /\ exists labels,
       preprocess word_tokenizer 0 64 (class_with conv_bair_v1)
         [[Sentence "gpt" "hello"; Sentence "bot" "yo"]]
       = Ok (map (fun source =>
                    take (Z.to_nat 64)
                      (word_tokenizer (plain_text conv_bair_v1 "USER" "GPT" source)))
               [[Sentence "gpt" "hello"; Sentence "bot" "yo"]],
             labels, [])
       /\ Forall2 (fun source lab =>
                     labels_of
                       (take (Z.to_nat 64)
                          (word_tokenizer (plain_text conv_bair_v1 "USER" "GPT" source)))
                       lab)
            [[Sentence "gpt" "hello"; Sentence "bot" "yo"]] labels.
Proof.
  split.
  - by apply (preprocess_plain_path word_tokenizer 0 64 conversation_lib_class).
  - destruct (preprocess_plain_path word_tokenizer 0 64 (class_with conv_bair_v1)
                [[Sentence "gpt" "hello"; Sentence "bot" "yo"]]) as [_ H].
    apply (H conv_bair_v1 "USER" "GPT" []).
    + reflexivity.
    + discriminate.
    + discriminate.
    + reflexivity.
Defined.

(** * The MPT path *)

Lemma startswith_decompose (p s : string) :
  PyStr.startswith p s = true -> exists r, s = p +:+ r.
Proof.
  revert s. induction p as [|a p IH]; intros s H; [by exists s|].
  destruct s as [|b s]; [done|]. cbn [PyStr.startswith] in H.
  apply andb_prop in H as [Hab Hp]. apply Ascii.eqb_eq in Hab as ->.
  destruct (IH s Hp) as [r ->]. by exists r.
Qed.

Lemma split_from_skip sp (u r : string) :
  PyStr.split_from sp (String.length u) (u +:+ r) = PyStr.split_from sp 0 r.
Proof. induction u as [|x u IH]; [done|]. cbn [String.length]. exact IH. Qed.

Lemma split_from_nonempty sp (k : nat) (s : string) : PyStr.split_from sp k s <> [].
Proof.
  revert k. induction s as [|x s IH]; intros k; [done|]. cbn [PyStr.split_from].
  destruct k as [|k]; [|apply IH].
  destruct (PyStr.startswith sp (String x s)); [done|].
  by destruct (PyStr.split_from sp 0 s).
Qed.

Lemma join_cons sp x (h : string) (t : list string) :
  join sp (String x h) t = String x (join sp h t).
Proof. by destruct t. Qed.

(** Joining the pieces of a split gives the text back. *)
Lemma join_split_from c sub (s : string) :
  str_join (String c sub) (PyStr.split_from (String c sub) 0 s) = s.
Proof.
  remember (String.length s) as n eqn:Hn.
  revert s Hn. induction (lt_wf n) as [n _ IH]; intros s ->.
  destruct s as [|x s]; [done|]. cbn [PyStr.split_from].
  destruct (PyStr.startswith (String c sub) (String x s)) eqn:Hstart.
  - apply startswith_decompose in Hstart as [r Hr].
    change (String c sub +:+ r) with (String c (sub +:+ r)) in Hr.
    injection Hr as -> ->.
    cbn [String.length]. rewrite Nat.sub_succ, Nat.sub_0_r, split_from_skip.
    specialize (IH (String.length r)).
    destruct (PyStr.split_from (String c sub) 0 r) as [|h t] eqn:E.
    { by apply split_from_nonempty in E. }
    cbn [str_join join]. change ("" +:+ String c sub +:+ join (String c sub) h t)
      with (String c sub +:+ join (String c sub) h t).
    change (join (String c sub) h t) with (str_join (String c sub) (h :: t)).
    rewrite <- E, (IH ltac:(cbn [String.length]; rewrite length_append; lia) r eq_refl).
    done.
  - specialize (IH (String.length s) ltac:(cbn [String.length]; lia) s eq_refl).
    destruct (PyStr.split_from (String c sub) 0 s) as [|h t] eqn:E.
    { by apply split_from_nonempty in E. }
    cbn [str_join] in *. by rewrite join_cons, IH.
Qed.

Lemma str_join_app sp (l1 l2 : list string) :
  l1 <> [] -> l2 <> [] ->
  str_join sp (l1 ++ l2) = str_join sp l1 +:+ sp +:+ str_join sp l2.
Proof.
  intros H1 H2. destruct l1 as [|a l1]; [done|]. clear H1.
  revert a. induction l1 as [|b l1 IH]; intros a.
  - destruct l2 as [|c l2]; [done|]. done.
  - cbn [app str_join join] in *. by rewrite IH, !append_assoc.
Qed.

(** Joining the joined groups is joining all pieces. *)
Lemma str_join_groups sp (groups : list (list string)) :
  Forall (fun g => g <> []) groups ->
  str_join sp (map (str_join sp) groups) = str_join sp (concat groups).
Proof.
  induction 1 as [|g groups Hg Hgs IH]; [done|].
  destruct groups as [|g' groups].
  - cbn [map concat]. rewrite app_nil_r. by destruct g.
  - change (map (str_join sp) (g :: g' :: groups))
      with ([str_join sp g] ++ map (str_join sp) (g' :: groups)).
    rewrite str_join_app by done. rewrite IH.
    assert (g' ++ concat groups <> []) as Hne.
    { apply Forall_cons_1 in Hgs as [Hg' _]. by destruct g'. }
    change (concat (g :: g' :: groups)) with (g ++ concat (g' :: groups)).
    change (concat (g' :: groups)) with (g' ++ concat groups).
    rewrite (str_join_app sp g) by done. reflexivity.
Qed.

Lemma py_slice_first {A : Type} (l : list A) (k : nat) :
  py_slice l None (Some (Z.of_nat k)) = take k l.
Proof.
  unfold py_slice, slice_bound.
  change (default 0 None) with 0.
  change (default (Z.of_nat (length l)) (Some (Z.of_nat k))) with (Z.of_nat k).
  change (0 <? 0) with false. cbv iota.
  destruct (Z.ltb_spec (Z.of_nat k) 0); [lia|].
  replace (Z.to_nat (Z.min 0 (Z.of_nat (length l)))) with 0%nat by lia.
  rewrite Nat.sub_0_r. cbn [drop].
  destruct (decide (k <= length l)%nat).
  - f_equal. lia.
  - replace (Z.to_nat (Z.min (Z.of_nat k) (Z.of_nat (length l)))) with (length l) by lia.
    by rewrite firstn_all, firstn_all2 by lia.
Qed.

Lemma py_slice_pair {A : Type} (l : list A) (i : nat) :
  (i <= length l)%nat ->
  py_slice l (Some (Z.of_nat i)) (Some (Z.of_nat i + 2)) = take 2 (drop i l).
Proof.
  intros Hi. unfold py_slice, slice_bound.
  change (default 0 (Some (Z.of_nat i))) with (Z.of_nat i).
  change (default (Z.of_nat (length l)) (Some (Z.of_nat i + 2))) with (Z.of_nat i + 2).
  destruct (Z.ltb_spec (Z.of_nat i) 0); [lia|].
  destruct (Z.ltb_spec (Z.of_nat i + 2) 0); [lia|].
  replace (Z.to_nat (Z.min (Z.of_nat i) (Z.of_nat (length l)))) with i by lia.
  destruct (decide (i + 2 <= length l)%nat).
  - f_equal. lia.
  - replace (Z.to_nat (Z.min (Z.of_nat i + 2) (Z.of_nat (length l)))) with (length l) by lia.
    rewrite <- (length_drop l i).
    by rewrite firstn_all, firstn_all2 by (rewrite length_drop; lia).
Qed.

(** The pieces taken two by two make up the list. *)
Lemma concat_pairs {A : Type} (k : nat) (l : list A) :
  (length l <= 2 * k)%nat ->
  concat (map (fun j => take 2 (drop (2 * j) l)) (seq 0 k)) = l.
Proof.
  revert l. induction k as [|k IH]; intros l Hl.
  - destruct l; [done|]. cbn [length] in Hl. lia.
  - cbn [seq map concat]. rewrite <- seq_shift, map_map.
    transitivity (take 2 l ++ drop 2 l); [|apply take_drop].
    f_equal.
    transitivity (concat (map (fun j => take 2 (drop (2 * j) (drop 2 l))) (seq 0 k)));
      [|apply IH; rewrite length_drop; lia].
    f_equal. apply map_ext. intros j. rewrite drop_drop. do 2 f_equal. lia.
Qed.

Lemma regroup_pairs sp (rounds : list string) :
  regroup sp rounds
  = str_join sp (take 3 rounds)
    :: map (str_join sp)
         (map (fun j => take 2 (drop (2 * j) (drop 3 rounds)))
              (seq 0 (Z.to_nat ((Z.of_nat (length rounds) - 3 + 2 - 1) / 2)))).
Proof.
  unfold regroup, py_range.
  rewrite (py_slice_first rounds 3 : py_slice rounds None (Some 3) = _). f_equal.
  rewrite !map_map. apply map_ext_in. intros j Hj.
  apply in_seq in Hj.
  assert (3 + 2 * Z.of_nat j < Z.of_nat (length rounds)) as Hlt.
  { destruct Hj as [_ Hj]. cbn [Nat.add] in Hj.
    assert (Z.of_nat j < (Z.of_nat (length rounds) - 3 + 2 - 1) / 2) as Hj' by lia.
    pose proof (Z.mul_div_le (Z.of_nat (length rounds) - 3 + 2 - 1) 2 ltac:(lia)).
    lia. }
  replace (3 + 2 * Z.of_nat j) with (Z.of_nat (3 + 2 * j)) by lia.
  rewrite py_slice_pair by lia. by rewrite drop_drop.
Qed.

(** X11: the regrouping of [preprocess_mpt] loses nothing.  When the
    prompt is split at a non-empty separator, joining the rounds with the
    separator gives the prompt back, and so does joining [re_rounds], which
    holds the first three rounds as one text and then the rounds two by
    two: [1 + ceil((n - 3) / 2)] texts for [n >= 3] rounds, one text
    otherwise.  With an empty separator the split stops with
    [ValueError]. *)
Theorem regroup_join (c : ascii) (sub conversation : string) (rounds : list string) :
  PyStr.split conversation (Some (String c sub)) = Ok rounds ->
  str_join (String c sub) rounds = conversation
  /\ str_join (String c sub) (regroup (String c sub) rounds) = conversation
  /\ length (regroup (String c sub) rounds)
     = S (Z.to_nat ((Z.of_nat (length rounds) - 2) / 2))
  /\ PyStr.split conversation (Some "") = Raise ValueError.
Proof.
  intros [= <-]. set (sp := String c sub).
  set (rounds := PyStr.split_from sp 0 conversation).
  assert (str_join sp rounds = conversation) as Hjoin by apply join_split_from.
  split; [exact Hjoin|]. split; [|split; [|done]].
  - rewrite regroup_pairs.
    set (k := Z.to_nat ((Z.of_nat (length rounds) - 3 + 2 - 1) / 2)).
    set (groups := map (fun j => take 2 (drop (2 * j) (drop 3 rounds))) (seq 0 k)).
    assert (length (drop 3 rounds) <= 2 * k)%nat as Hk.
    { rewrite length_drop. subst k.
      destruct (decide (length rounds <= 3)%nat); [lia|].
      pose proof (Z.mul_succ_div_gt (Z.of_nat (length rounds) - 3 + 2 - 1) 2 ltac:(lia)).
      lia. }
    assert (Forall (fun g => g <> []) groups) as Hne.
    { subst groups. apply Forall_forall. intros g Hg.
      apply list_elem_of_In, in_map_iff in Hg as (j & <- & Hj). apply in_seq in Hj.
      assert (2 * j < length (drop 3 rounds))%nat as Hlt.
      { subst k. rewrite length_drop in *.
        destruct Hj as [_ Hj]. cbn [Nat.add] in Hj.
        assert (Z.of_nat j < (Z.of_nat (length rounds) - 3 + 2 - 1) / 2) as Hj' by lia.
        pose proof (Z.mul_div_le (Z.of_nat (length rounds) - 3 + 2 - 1) 2 ltac:(lia)).
        lia. }
      intros E. apply (f_equal length) in E.
      rewrite length_take, !length_drop in E. cbn [length] in E.
      rewrite length_drop in Hlt. lia. }
    change (str_join sp (take 3 rounds) :: map (str_join sp) groups)
      with (map (str_join sp) (take 3 rounds :: groups)).
    destruct rounds as [|r0 rs] eqn:Hrounds.
    { subst rounds. by apply split_from_nonempty in Hrounds. }
    rewrite str_join_groups by (constructor; [done|exact Hne]).
    cbn [concat]. subst groups. rewrite concat_pairs by exact Hk.
    by rewrite take_drop.
  - rewrite regroup_pairs. cbn [length]. rewrite !length_map, length_seq.
    by replace (Z.of_nat (length rounds) - 3 + 2 - 1)
      with (Z.of_nat (length rounds) - 2) by lia.
Qed.

Lemma regroup_join_witness :
  str_join "|" (regroup "|" ["s"; "u1"; "a1"; "u2"; "a2"; "u3"; ""]) = "s|u1|a1|u2|a2|u3|"
  /\ regroup "|" ["s"; "u1"; "a1"; "u2"; "a2"; "u3"; ""] = ["s|u1|a1"; "u2|a2"; "u3|"].
Proof.
  split; [|reflexivity].
  apply (regroup_join "|" "" "s|u1|a1|u2|a2|u3|" ["s"; "u1"; "a1"; "u2"; "a2"; "u3"; ""]).
  reflexivity.
Defined.

Section MptShape.

Variable tokenize : string -> list Z.
Variable pad_token_id : Z.
Variable model_max_length : Z.

Lemma mask_rounds_mpt_labels sp conv_sep (re_rounds : list string) (cur cur' : Z)
    (row t t' : list Z) :
  mask_rounds_mpt tokenize sp conv_sep re_rounds cur t = Ok (cur', t') ->
  labels_of row t -> labels_of row t'.
Proof.
  revert cur t. induction re_rounds as [|rou rest IH]; intros cur t;
    cbn [mask_rounds_mpt].
  - by intros [= <- <-].
  - destruct (String.eqb rou ""); [by intros [= <- <-]|].
    destruct (PyStr.split rou (Some sp)) as [parts|]; [|done].
    destruct (negb _); [by intros [= <- <-]|].
    intros Hrun Hlab. eapply IH; [exact Hrun|]. by apply labels_of_fill_slice.
Qed.

Lemma mask_example_mpt_labels sp conv_sep (conv : string) (row lab : list Z)
    (out : list string) :
  mask_example_mpt tokenize pad_token_id model_max_length sp conv_sep conv row
  = Ok (lab, out) ->
  labels_of row lab /\ (length out <= 1)%nat.
Proof.
  unfold mask_example_mpt.
  destruct (PyStr.split conv (Some conv_sep)) as [rounds|]; [|done].
  destruct (mask_rounds_mpt _ _ _ _ _ _) as [[cur t]|] eqn:Hrun; [|done].
  apply (mask_rounds_mpt_labels _ _ _ _ _ row) in Hrun;
    [|apply labels_of_fill_slice, labels_of_refl].
  destruct (_ && _); intros [= <- <-]; (split; [|cbn [length]; lia]).
  - by do 2 apply labels_of_fill_slice.
  - by apply labels_of_fill_slice.
Qed.

(** The loop over the regrouped rounds never raises. *)
Lemma mask_rounds_mpt_ok c s conv_sep (re_rounds : list string) (cur : Z) (t : list Z) :
  exists cur' t',
    mask_rounds_mpt tokenize (String c s) conv_sep re_rounds cur t = Ok (cur', t').
Proof.
  revert cur t. induction re_rounds as [|rou rest IH]; intros cur t; simpl.
  - by eexists _, _.
  - destruct (String.eqb rou ""); [by eexists _, _|].
    destruct (negb _); [by eexists _, _|].
    apply IH.
Qed.

(** X30: the masking of one example in [preprocess_mpt] (lines 961 to 993),
    for a separator [conv.sep] that is not the empty string and
    [sep = conv.sep + conv.roles[1]]: the body always ends, with a row of
    labels as long as the row of token ids in which every label is [-100]
    or the token id at its position, and with at most one warning.  With an
    empty [conv.sep] the first [split] stops with [ValueError]. *)
Theorem mask_example_mpt_labels_shape (conv_sep r1 conv : string) (row : list Z) :
  ((exists c s, conv_sep = String c s) ->
   exists lab out,
     mask_example_mpt tokenize pad_token_id model_max_length (conv_sep +:+ r1) conv_sep
       conv row = Ok (lab, out)
     /\ length lab = length row
     /\ (forall j y, lab !! j = Some y -> y = IGNORE_INDEX \/ row !! j = Some y)
     /\ (length out <= 1)%nat)
  /\ (conv_sep = "" ->
      mask_example_mpt tokenize pad_token_id model_max_length (conv_sep +:+ r1) conv_sep
        conv row = Raise ValueError).
Proof.
  split; [|by intros ->].
  intros (c & s & ->).
  assert (exists lab out,
            mask_example_mpt tokenize pad_token_id model_max_length
              (String c s +:+ r1) (String c s) conv row = Ok (lab, out))
    as (lab & out & Hrun).
  { unfold mask_example_mpt. cbn [PyStr.split mbind outcome_bind].
    change (String c s +:+ r1) with (String c (s +:+ r1)).
    destruct (mask_rounds_mpt_ok c (s +:+ r1) (String c s)
                (regroup (String c s) (PyStr.split_from (String c s) 0 conv)) 0
                (fill_slice None (Some 0) IGNORE_INDEX row)) as (cur & t & ->).
    destruct (_ && _); by eexists _, _. }
  exists lab, out. split; [exact Hrun|].
  apply mask_example_mpt_labels in Hrun as [[? ?] ?]. done.
Qed.

Section ClassState.

Variable cls : class_dict.

(** What [preprocess_mpt] has done when it returns. *)
Lemma preprocess_mpt_inv (sources : list (list sentence))
    (ids labels : list (list Z)) (log : list string) :
  preprocess_mpt tokenize pad_token_id model_max_length cls sources
  = Ok (ids, labels, log) ->
  exists dc convs r1 res,
    cls !! "default_conversation" = Some (VConversation dc)
    /\ cls !! "SeparatorStyle" = Some VEnum
    /\ apply_templates (copy_value dc) sources = Ok convs
    /\ sep_style dc = Member MPT
    /\ py_index (roles dc) 1 = Ok r1
    /\ ids = encode_batch tokenize pad_token_id model_max_length convs
    /\ for_each (fun ct : string * list Z =>
                   mask_example_mpt tokenize pad_token_id model_max_length
                     (sep dc +:+ r1) (sep dc) ct.1 ct.2)
         (zip convs ids) = Ok res
    /\ labels = map fst res /\ log = concat (map snd res).
Proof.
  unfold preprocess_mpt, class_default_conversation, class_separator_style,
    class_getattr.
  destruct (cls !! "default_conversation") as [[| | | | | |dc|]|] eqn:Hdc; try done.
  cbn [mbind outcome_bind].
  destruct (apply_templates (copy_value dc) sources) as [convs|] eqn:Htpl; [|done].
  cbn [mbind outcome_bind].
  destruct (cls !! "SeparatorStyle") as [[]|] eqn:Henum; try done.
  cbn [mbind outcome_bind sep_style roles sep copy_value].
  destruct (is_member MPT (sep_style dc)) eqn:Hstyle; [|done].
  apply is_member_spec in Hstyle.
  cbn [py_assert mbind outcome_bind].
  destruct (py_index (roles dc) 1) as [r1|] eqn:Hr1; [|done].
  cbn [mbind outcome_bind].
  match goal with
  | |- context [for_each ?f ?l] => destruct (for_each f l) as [res|] eqn:Hres
  end; [|done].
  intros [= <- <- <-]. by exists dc, convs, r1, res.
Qed.

(** X12: [preprocess_mpt] by the attributes of the class.  Without
    [default_conversation], as in the class of the module, it raises
    [AttributeError] at once.  Whenever it returns, the class has the
    attributes [default_conversation] and [SeparatorStyle], the style of the
    conversation is MPT, [input_ids] is the tokenizer's batch of the
    rendered prompts (one row per source), [labels] has a row for each row
    of [input_ids], as long as it, every label is the token id at its
    position or [-100], and at most one warning is printed per example.
    With both attributes, a conversation of another style whose prompts
    render is stopped by the assertion. *)
Theorem preprocess_mpt_labels_shape (sources : list (list sentence)) :
  (cls !! "default_conversation" = None ->
   preprocess_mpt tokenize pad_token_id model_max_length cls sources
   = Raise AttributeError)
  /\ (forall ids labels log,
        preprocess_mpt tokenize pad_token_id model_max_length cls sources
        = Ok (ids, labels, log) ->
        exists dc,
          cls !! "default_conversation" = Some (VConversation dc)
          /\ cls !! "SeparatorStyle" = Some VEnum
          /\ sep_style dc = Member MPT
          /\ (exists convs,
                apply_templates (copy_value dc) sources = Ok convs
                /\ ids = encode_batch tokenize pad_token_id model_max_length convs)
          /\ length ids = length sources
          /\ Forall2 labels_of ids labels
          /\ (length log <= length ids)%nat)
  /\ (forall dc convs,
        cls !! "default_conversation" = Some (VConversation dc) ->
        cls !! "SeparatorStyle" = Some VEnum ->
        apply_templates (copy_value dc) sources = Ok convs ->
        sep_style dc <> Member MPT ->
        preprocess_mpt tokenize pad_token_id model_max_length cls sources
        = Raise AssertionError).
Proof.
  split; [|split].
  - intros Hno. unfold preprocess_mpt. by rewrite class_default_conversation_absent.
  - intros ids labels log H. apply preprocess_mpt_inv in H
      as (dc & convs & r1 & res & Hdc & Henum & Htpl & Hstyle & Hr1 & Hids & Hres
          & -> & ->).
    exists dc. split; [done|]. split; [done|]. split; [done|].
    assert (length ids = length convs) as Hlen.
    { subst ids. unfold encode_batch. by rewrite !length_map. }
    destruct (for_each_lookup _ _ _ Hres) as [Hreslen Hall].
    rewrite length_zip in Hreslen.
    split; [by exists convs|]. split; [|split].
    + unfold apply_templates in Htpl.
      destruct (py_index _ 0); [|done]. cbn [mbind outcome_bind] in Htpl.
      destruct (py_index _ 1); [|done]. cbn [mbind outcome_bind] in Htpl.
      apply for_each_lookup in Htpl as [Hl _]. lia.
    + apply Forall2_same_length_lookup_2; [rewrite length_map; lia|].
      intros i row lab Hrow Hlab.
      rewrite list_lookup_fmap in Hlab.
      destruct (res !! i) as [[lab' out]|] eqn:Hi; [|done].
      injection Hlab as <-.
      destruct (lookup_lt_is_Some_2 convs i) as [conv Hconv].
      { rewrite <- Hlen. by eapply lookup_lt_Some. }
      destruct (Hall i (conv, row)) as (b & Hb & Hbody).
      { by apply lookup_zip_Some. }
      rewrite Hi in Hb. injection Hb as <-. cbn [fst snd] in Hbody.
      by apply mask_example_mpt_labels in Hbody as [? _].
    + assert (Forall (fun b : list Z * list string => length b.2 <= 1)%nat res) as Hout.
      { apply Forall_lookup. intros i [lab out] Hi.
        destruct (lookup_lt_is_Some_2 (zip convs ids) i) as [[conv row] Hct].
        { rewrite length_zip, <- Hreslen. by eapply lookup_lt_Some. }
        destruct (Hall i _ Hct) as (b & Hb & Hbody).
        rewrite Hi in Hb. injection Hb as <-. cbn [fst snd] in Hbody.
        by apply mask_example_mpt_labels in Hbody as [_ ?]. }
      assert (length (concat (map snd res)) <= length res)%nat as Hlog.
      { clear -Hout. induction Hout as [|b res Hb _ IH]; [done|].
        cbn [map concat length]. rewrite length_app. lia. }
      lia.
  - intros dc convs Hdc Henum Htpl Hstyle.
    unfold preprocess_mpt, class_default_conversation, class_separator_style,
      class_getattr.
    rewrite Hdc. cbn [mbind outcome_bind]. rewrite Htpl, Henum.
    cbn [mbind outcome_bind sep_style copy_value].
    by destruct (sep_style dc) as [[| |]|].
Qed.

End ClassState.

End MptShape.

Lemma mask_example_mpt_labels_shape_witness :
  exists lab out,
    mask_example_mpt word_tokenizer 0 64 "<|im_end|><|im_start|>assistant
" "<|im_end|>" "a<|im_end|>b" (word_tokenizer "a<|im_end|>b") = Ok (lab, out)
    /\ length lab = length (word_tokenizer "a<|im_end|>b")
    /\ (length out <= 1)%nat.
Proof.
  destruct (mask_example_mpt_labels_shape word_tokenizer 0 64 "<|im_end|>"
              "<|im_start|>assistant
" "a<|im_end|>b" (word_tokenizer "a<|im_end|>b")) as [H _].
  destruct H as (lab & out & Hrun & Hlen & _ & Hout); [by eexists _, _|].
  exists lab, out. split; [exact Hrun|]. split; [exact Hlen|]. exact Hout.
Defined.

Lemma preprocess_mpt_labels_shape_witness :
  preprocess_mpt word_tokenizer 0 64 conversation_lib_class hi_hello
  = Raise AttributeError
  /\ (exists ids labels log,
        preprocess_mpt word_tokenizer 0 64 (class_with conv_mpt) hi_hello
        = Ok (ids, labels, log)
        /\ Forall2 labels_of ids labels)
  /\ preprocess_mpt word_tokenizer 0 64 (class_with conv_bair_v1) hi_hello
     = Raise AssertionError.
Proof.
  split; [|split].
  - by apply (preprocess_mpt_labels_shape word_tokenizer 0 64 conversation_lib_class).
  - eexists _, _, _. split; [vm_compute; reflexivity|].
    destruct (preprocess_mpt_labels_shape word_tokenizer 0 64 (class_with conv_mpt)
                hi_hello) as (_ & H & _).
    edestruct H as (dc & _ & _ & _ & _ & _ & Hshape & _);
      [vm_compute; reflexivity|exact Hshape].
  - destruct (preprocess_mpt_labels_shape word_tokenizer 0 64
                (class_with conv_bair_v1) hi_hello) as (_ & _ & H).
    apply (H conv_bair_v1 [hi_hello_prompt]).
    + reflexivity.
    + reflexivity.
    + reflexivity.
    + discriminate.
Defined.

(** * The collator *)

Lemma kept_app (a b : list Z) : kept (a ++ b) = kept a ++ kept b.
Proof. apply List.filter_app. Qed.

Lemma kept_ignored (n : nat) : kept (replicate n IGNORE_INDEX) = [].
Proof. induction n as [|n IH]; simpl; [done|]. exact IH. Qed.

Lemma max_list_ge (l : list nat) (n : nat) : In n l -> (n <= max_list l)%nat.
Proof.
  intros H. apply max_list_elem_of_le. by apply list_elem_of_In.
Qed.

Lemma pad_sequence_rows (sequences : list (list Z)) (v : Z) :
  sequences <> [] ->
  exists rows,
    pad_sequence sequences v = Done rows
    /\ length rows = length sequences
    /\ forall i r, sequences !! i = Some r ->
         rows !! i
         = Some (r ++ replicate (max_list (map length sequences) - length r) v)
         /\ (length r <= max_list (map length sequences))%nat.
Proof.
  intros Hne. destruct sequences as [|s0 rest] eqn:E; [done|]. rewrite <- E. clear Hne.
  exists (map (fun r => r ++ replicate (max_list (map length sequences) - length r) v)
            sequences).
  split; [by rewrite E|]. split; [by rewrite length_map|].
  intros i r Hi. split; [by rewrite list_lookup_fmap, Hi|].
  apply max_list_ge, in_map, list_elem_of_In. by eapply list_elem_of_lookup_2.
Qed.

Lemma graph_data_of_all {G : Type} (instances : list (instance G)) (gs : list G) :
  map inst_graph_data instances = map Some gs ->
  graph_data_of instances = Done gs.
Proof.
  revert gs. induction instances as [|i rest IH]; intros [|g gs]; try done.
  cbn [map graph_data_of]. intros [= Hg Hrest]. by rewrite Hg, (IH gs).
Qed.

(** X13: a batch of items that all carry [graph_data] is collated: the
    batch has one row of token ids and one row of labels per item; every
    row of token ids is the item's, filled up on the right with the padding
    id to the longest item, and every row of labels is the item's, filled
    up with [-100] to the longest label row, so that collation adds no label
    that counts; the attention mask is true exactly where the token id
    differs from the padding id; [graph_data] lists the items' graph data in
    order. *)
Theorem collator_pads {G : Type} (pad_token_id : Z) (instances : list (instance G))
    (gs : list G) :
  instances <> [] ->
  map inst_graph_data instances = map Some gs ->
  exists b,
    DataCollatorForSupervisedDataset_call pad_token_id instances = Done b
    /\ batch_graph_data b = gs
    /\ length (batch_input_ids b) = length instances
    /\ length (batch_labels b) = length instances
    /\ batch_attention_mask b
       = map (map (fun t => negb (t =? pad_token_id))) (batch_input_ids b)
    /\ forall i inst,
         instances !! i = Some inst ->
         exists row lab,
           batch_input_ids b !! i = Some row
           /\ batch_labels b !! i = Some lab
           /\ row = inst_input_ids inst
                    ++ replicate (length row - length (inst_input_ids inst)) pad_token_id
           /\ lab = inst_labels inst
                    ++ replicate (length lab - length (inst_labels inst)) IGNORE_INDEX
           /\ length row = max_list (map length (map inst_input_ids instances))
           /\ length lab = max_list (map length (map inst_labels instances))
           /\ kept lab = kept (inst_labels inst).
Proof.
  intros Hne Hgs. unfold DataCollatorForSupervisedDataset_call.
  destruct (pad_sequence_rows (map inst_input_ids instances) pad_token_id)
    as (ids & -> & Hidlen & Hids); [by destruct instances|].
  destruct (pad_sequence_rows (map inst_labels instances) IGNORE_INDEX)
    as (labs & -> & Hlablen & Hlabs); [by destruct instances|].
  cbn [mbind attempt_bind].
  destruct instances as [|first rest] eqn:E; [done|]. rewrite <- E in *.
  assert (py_index instances 0 = Ok first) as -> by (rewrite E; apply py_index_0_cons).
  cbn [lift mbind attempt_bind]. rewrite (graph_data_of_all instances gs Hgs).
  assert (exists g, inst_graph_data first = Some g) as [g Hfirst].
  { rewrite E in Hgs. destruct gs as [|g gs']; [done|].
    injection Hgs as Hg _. by exists g. }
  rewrite Hfirst. cbn [mbind attempt_bind].
  eexists. split; [done|]. cbn [batch_graph_data batch_input_ids batch_labels
                                 batch_attention_mask].
  rewrite length_map in Hidlen, Hlablen.
  split; [done|]. split; [done|]. split; [done|]. split; [done|].
  intros i inst Hi.
  destruct (Hids i (inst_input_ids inst)) as [Hrow Hrowle];
    [by rewrite list_lookup_fmap, Hi|].
  destruct (Hlabs i (inst_labels inst)) as [Hlab Hlable];
    [by rewrite list_lookup_fmap, Hi|].
  eexists _, _. split; [exact Hrow|]. split; [exact Hlab|].
  rewrite !length_app, !length_replicate.
  split; [do 2 f_equal; lia|]. split; [do 2 f_equal; lia|].
  split; [lia|]. split; [lia|].
  by rewrite kept_app, kept_ignored, app_nil_r.
Qed.

Lemma collator_pads_witness :
  DataCollatorForSupervisedDataset_call 0
    [Instance [1; 5; 6] [-100; 5; 6] (Some "g1"); Instance [1; 7] [-100; 7] (Some "g2")]
  = Done (Batch [[1; 5; 6]; [1; 7; 0]] [[-100; 5; 6]; [-100; 7; -100]]
            [[true; true; true]; [true; true; false]] ["g1"; "g2"]).
Proof.
  destruct (collator_pads 0
              [Instance [1; 5; 6] [-100; 5; 6] (Some "g1");
               Instance [1; 7] [-100; 7] (Some "g2")] ["g1"; "g2"])
    as (b & Hb & _); [discriminate | reflexivity |].
  rewrite Hb. vm_compute in Hb. injection Hb as <-. reflexivity.
Defined.

Lemma collator_unbound {G : Type} (pad_token_id : Z) (first : instance G)
    (rest : list (instance G)) :
  inst_graph_data first = None ->
  DataCollatorForSupervisedDataset_call pad_token_id (first :: rest)
  = Fault UnboundLocalError.
Proof.
  intros Hnone. unfold DataCollatorForSupervisedDataset_call.
  destruct (pad_sequence_rows (map inst_input_ids (first :: rest)) pad_token_id)
    as (ids & -> & _); [done|].
  destruct (pad_sequence_rows (map inst_labels (first :: rest)) IGNORE_INDEX)
    as (labs & -> & _); [done|].
  cbn [mbind attempt_bind]. rewrite py_index_0_cons.
  cbn [lift mbind attempt_bind]. by rewrite Hnone.
Qed.

(** X14: what the collator refuses.  An empty list of items is refused
    by [pad_sequence].  When the first item has no [graph_data] entry the
    name [graph_data_batch] is read without having been assigned
    ([UnboundLocalError]), whatever the other items hold.  When the first
    item has the entry and a later one has not, the lookup fails with
    [KeyError]. *)
Theorem collator_refusals {G : Type} (pad_token_id : Z) :
  DataCollatorForSupervisedDataset_call pad_token_id ([] : list (instance G))
  = Fault TorchError
  /\ (forall (first : instance G) rest,
        inst_graph_data first = None ->
        DataCollatorForSupervisedDataset_call pad_token_id (first :: rest)
        = Fault UnboundLocalError)
  /\ (forall (first : instance G) rest g,
        inst_graph_data first = Some g ->
        Exists (fun i => inst_graph_data i = None) rest ->
        DataCollatorForSupervisedDataset_call pad_token_id (first :: rest)
        = Fault (Builtin KeyError)).
Proof.
  split; [done|]. split.
  - intros first rest Hnone. by apply collator_unbound.
  - intros first rest g Hsome Hex. unfold DataCollatorForSupervisedDataset_call.
    destruct (pad_sequence_rows (map inst_input_ids (first :: rest)) pad_token_id)
      as (ids & -> & _); [done|].
    destruct (pad_sequence_rows (map inst_labels (first :: rest)) IGNORE_INDEX)
      as (labs & -> & _); [done|].
    cbn [mbind attempt_bind]. rewrite py_index_0_cons.
    cbn [lift mbind attempt_bind]. rewrite Hsome.
    assert (graph_data_of rest = Fault (Builtin KeyError)) as Hrest.
    { induction Hex as [i rest Hi|i rest _ IH]; cbn [graph_data_of].
      - by rewrite Hi.
      - destruct (inst_graph_data i); [|done]. by rewrite IH. }
    cbn [graph_data_of]. by rewrite Hsome, Hrest.
Qed.

Lemma collator_refusals_witness :
  DataCollatorForSupervisedDataset_call 0
    [Instance [1; 5] [-100; 5] (None : option string);
     Instance [1; 7] [-100; 7] (Some "g")]
  = Fault UnboundLocalError
  /\ DataCollatorForSupervisedDataset_call 0
       [Instance [1; 5] [-100; 5] (Some "g"); Instance [1; 7] [-100; 7] None]
     = Fault (Builtin KeyError).
Proof.
  destruct (@collator_refusals string 0) as (_ & Hfirst & Hlater). split.
  - apply Hfirst. reflexivity.
  - apply (Hlater _ _ "g"); [reflexivity|]. apply Exists_cons_hd. reflexivity.
Defined.

(** * The logger of [lp_ft.py] *)

(** X15: [Logger.add_result] stores a result exactly when it has four
    entries and the run is one of the logger's runs: the result is then
    appended to that run's list, the other runs and the number of runs are
    as before; otherwise the call stops with [AssertionError].  A logger
    made for [runs] runs has [max(runs, 0)] empty lists, so it takes the
    first four entries of a five-entry result (what [train] passes) for
    every run in [range(runs)], and takes nothing when [runs <= 0]. *)
Theorem add_result_appends {A : Type} (results : list (list (list A))) (run : Z)
    (result : list A) :
  (length result = 4%nat -> 0 <= run < Z.of_nat (length results) ->
   exists results',
     add_result results run result = Ok results'
     /\ length results' = length results
     /\ results' !! Z.to_nat run = (fun r => r ++ [result]) <$> results !! Z.to_nat run
     /\ forall j, j <> Z.to_nat run -> results' !! j = results !! j)
  /\ (length result <> 4%nat \/ run < 0 \/ Z.of_nat (length results) <= run ->
      add_result results run result = Raise AssertionError)
  /\ (forall runs a b c d e,
        0 <= run < runs ->
        exists results',
          add_result (Logger_init runs) run (py_slice [a; b; c; d; e] None (Some (-1)))
          = Ok results'
          /\ length results' = Z.to_nat runs
          /\ results' !! Z.to_nat run = Some [[a; b; c; d : A]]
          /\ forall j, j <> Z.to_nat run -> (j < Z.to_nat runs)%nat ->
               results' !! j = Some [])
  /\ (forall runs, runs <= 0 ->
        add_result (Logger_init runs) run result = Raise AssertionError).
Proof.
  assert (forall (rs : list (list (list A))) (r : list A),
            length r = 4%nat -> 0 <= run < Z.of_nat (length rs) ->
            add_result rs run r = Ok (alter (fun x => x ++ [r]) (Z.to_nat run) rs)) as Hok.
  { intros rs r Hr Hrun. unfold add_result. rewrite Hr. cbn [Nat.eqb py_assert mbind outcome_bind].
    destruct (Z.leb_spec 0 run); [|lia].
    destruct (Z.ltb_spec run (Z.of_nat (length rs))); [|lia]. done. }
  split; [|split; [|split]].
  - intros Hr Hrun. eexists. split; [by apply Hok|].
    split; [by rewrite length_alter|]. split.
    + by rewrite list_lookup_alter, decide_True.
    + intros j Hj. by rewrite list_lookup_alter, decide_False.
  - intros H. unfold add_result.
    destruct (Nat.eqb_spec (length result) 4); [|done].
    cbn [py_assert mbind outcome_bind].
    destruct (Z.leb_spec 0 run); [|done].
    destruct (Z.ltb_spec run (Z.of_nat (length results))); [lia|done].
  - intros runs a b c d e Hrun. eexists. split.
    + apply Hok; [done|]. unfold Logger_init. rewrite length_replicate. lia.
    + unfold Logger_init. rewrite length_alter, length_replicate.
      split; [done|]. split.
      * rewrite list_lookup_alter, decide_True, lookup_replicate_2 by (done || lia). done.
      * intros j Hj Hlt. rewrite list_lookup_alter, decide_False by done.
        by apply lookup_replicate_2.
  - intros runs Hruns. unfold add_result, Logger_init.
    destruct (length result =? 4)%nat; [|done].
    cbn [py_assert mbind outcome_bind]. rewrite length_replicate.
    destruct (Z.leb_spec 0 run); [|done].
    destruct (Z.ltb_spec run (Z.of_nat (Z.to_nat runs))); [lia|done].
Qed.

Lemma add_result_appends_witness :
  exists results',
    add_result [[[1; 2; 3; 4]]; []] 1 [5; 6; 7; 8] = Ok results'
    /\ length results' = 2%nat
    /\ results' !! 1%nat = Some [[5; 6; 7; 8]]
    /\ forall j, j <> 1%nat -> results' !! j = [[[1; 2; 3; 4]]; []] !! j.
Proof.
  destruct (add_result_appends [[[1; 2; 3; 4]]; []] 1 [5; 6; 7; 8]) as [H _].
  apply H; [reflexivity | cbn; lia].
Defined.

(** * The random split of [lp_ft.py] *)

(** Three consecutive slices make up the sequence. *)
Lemma py_slice_three {A : Type} (l : list A) (a b : Z) :
  0 <= a -> 0 <= b ->
  py_slice l None (Some a) ++ py_slice l (Some a) (Some (a + b))
    ++ py_slice l (Some (a + b)) None = l
  /\ length (py_slice l None (Some a)) = Nat.min (Z.to_nat a) (length l)
  /\ length (py_slice l (Some a) (Some (a + b)))
     = Nat.min (Z.to_nat b) (length l - Z.to_nat a).
Proof.
  intros Ha Hb. unfold py_slice, slice_bound.
  change (default 0 None) with 0. change (default 0 (Some a)) with a.
  change (default 0 (Some (a + b))) with (a + b).
  change (default (Z.of_nat (length l)) (Some a)) with a.
  change (default (Z.of_nat (length l)) (Some (a + b))) with (a + b).
  change (default (Z.of_nat (length l)) None) with (Z.of_nat (length l)).
  change (0 <? 0) with false. cbv iota.
  destruct (Z.ltb_spec a 0); [lia|]. destruct (Z.ltb_spec (a + b) 0); [lia|].
  destruct (Z.ltb_spec (Z.of_nat (length l)) 0); [lia|].
  set (m := length l).
  replace (Z.to_nat (Z.min 0 (Z.of_nat m))) with 0%nat by lia.
  replace (Z.to_nat (Z.min (Z.of_nat m) (Z.of_nat m))) with m by lia.
  set (x := Z.to_nat (Z.min a (Z.of_nat m))).
  set (y := Z.to_nat (Z.min (a + b) (Z.of_nat m))).
  assert (x <= y <= m)%nat as Hxy by lia.
  rewrite Nat.sub_0_r. change (drop 0 l) with l. split; [|split].
  - transitivity (take x l ++ drop x l); [|apply take_drop]. f_equal.
    transitivity (take (y - x) (drop x l) ++ drop (y - x) (drop x l));
      [|apply take_drop]. f_equal.
    rewrite drop_drop. replace (x + (y - x))%nat with y by lia.
    apply firstn_all2. rewrite length_drop. subst m. lia.
  - rewrite length_take. subst x m. lia.
  - rewrite length_take, length_drop. subst x y m. lia.
Qed.

Lemma py_index_in_range {A : Type} (l : list A) (i : Z) (d : A) :
  0 <= i < Z.of_nat (length l) -> py_index l i = Ok (nth (Z.to_nat i) l d).
Proof.
  intros Hi. unfold py_index.
  destruct (Z.ltb_spec i 0); [lia|].
  destruct (Z.leb_spec 0 i); [|lia].
  destruct (Z.ltb_spec i (Z.of_nat (length l))); [|lia]. cbn [andb].
  destruct (l !! Z.to_nat i) as [a|] eqn:E.
  - f_equal. symmetry. by apply nth_lookup_Some with (d := d) in E.
  - apply lookup_ge_None in E. lia.
Qed.

Lemma index_select_map (t idx : list Z) :
  Forall (fun i => 0 <= i < Z.of_nat (length t)) idx ->
  index_select t idx = Ok (map (fun i => nth (Z.to_nat i) t 0) idx).
Proof.
  unfold index_select. induction 1 as [|i idx Hi _ IH]; [done|].
  cbn [for_each map]. by rewrite (py_index_in_range t i 0), IH.
Qed.

Lemma map_nth_seq (t : list Z) :
  map (fun i => nth (Z.to_nat i) t 0) (map Z.of_nat (seq 0 (length t))) = t.
Proof.
  rewrite map_map. apply list_eq. intros i.
  rewrite list_lookup_fmap.
  destruct (decide (i < length t)%nat) as [Hi|Hi].
  - rewrite lookup_seq_lt by done. cbn [fmap option_fmap option_map Nat.add].
    rewrite Nat2Z.id. destruct (lookup_lt_is_Some_2 t i Hi) as [x Hx].
    rewrite Hx. f_equal. by apply nth_lookup_Some.
  - rewrite lookup_seq_ge by lia. symmetry. apply lookup_ge_None. lia.
Qed.

Section RandomSplitFacts.

Variable proportion : Type.
Variable scale : Z -> proportion -> Z.
Variable permutation : Z -> list Z.

(** X16: [rand_train_test_idx] splits without loss and without overlap.
    When the two sizes [int(n * train_prop)] and [int(n * valid_prop)] are
    not negative and [np.random.permutation(n)] is a permutation of
    [0 .. n-1], the call returns; with [ignore_negative] the three index
    lists together are a rearrangement of the labeled nodes (the nodes
    whose label is not [-1]), so no labeled node is lost and none is in two
    lists unless it is listed twice among the labeled nodes; without it
    they are the permutation cut in three.  The train list has
    [min(train_num, n)] entries and the valid list [min(valid_num, n -
    train_num)] (none when [train_num > n]). *)
Theorem rand_split_partition (label : label_tensor) (train_prop valid_prop : proportion) :
  let labeled := where_labeled label in
  let n := Z.of_nat (length labeled) in
  0 <= scale n train_prop -> 0 <= scale n valid_prop ->
  permutation n ≡ₚ map Z.of_nat (seq 0 (length labeled)) ->
  (exists tr va te,
     rand_train_test_idx proportion scale permutation label train_prop valid_prop true
     = Ok (tr, va, te)
     /\ tr ++ va ++ te ≡ₚ labeled
     /\ (NoDup labeled -> NoDup (tr ++ va ++ te))
     /\ length tr = Nat.min (Z.to_nat (scale n train_prop)) (length labeled)
     /\ length va = Nat.min (Z.to_nat (scale n valid_prop))
                      (length labeled - Z.to_nat (scale n train_prop)))
  /\ (0 <= scale (shape0 label) train_prop -> 0 <= scale (shape0 label) valid_prop ->
      exists tr va te,
        rand_train_test_idx proportion scale permutation label train_prop valid_prop
          false = Ok (tr, va, te)
        /\ tr ++ va ++ te = permutation (shape0 label)).
Proof.
  intros labeled n Htr Hva Hperm. split.
  - unfold rand_train_test_idx. cbn [negb]. fold labeled. fold n.
    set (a := scale n train_prop) in *. set (b := scale n valid_prop) in *.
    destruct (py_slice_three (permutation n) a b Htr Hva) as (Hcut & Hl1 & Hl2).
    set (s1 := py_slice (permutation n) None (Some a)) in *.
    set (s2 := py_slice (permutation n) (Some a) (Some (a + b))) in *.
    set (s3 := py_slice (permutation n) (Some (a + b)) None) in *.
    assert (Forall (fun i => 0 <= i < Z.of_nat (length labeled)) (permutation n)) as Hrange.
    { apply Forall_forall. intros i Hi. rewrite Hperm in Hi.
      apply list_elem_of_In, in_map_iff in Hi as (k & <- & Hk). apply in_seq in Hk. lia. }
    rewrite <- Hcut in Hrange.
    apply Forall_app in Hrange as [H1 Hrange]. apply Forall_app in Hrange as [H2 H3].
    rewrite !index_select_map by done. cbn [mbind outcome_bind].
    eexists _, _, _. split; [done|].
    assert (Hlen : length (permutation n) = length labeled).
    { rewrite Hperm. by rewrite length_map, length_seq. }
    assert (map (fun i => nth (Z.to_nat i) labeled 0) s1
            ++ map (fun i => nth (Z.to_nat i) labeled 0) s2
            ++ map (fun i => nth (Z.to_nat i) labeled 0) s3 ≡ₚ labeled) as Hp.
    { rewrite <- !map_app, Hcut, Hperm. by rewrite map_nth_seq. }
    split; [exact Hp|]. split; [by rewrite Hp|].
    rewrite !length_map, Hl1, Hl2, Hlen. done.
  - intros Htr' Hva'. unfold rand_train_test_idx. cbn [negb].
    eexists _, _, _. split; [done|].
    by destruct (py_slice_three (permutation (shape0 label)) _ _ Htr' Hva') as [-> _].
Qed.

End RandomSplitFacts.

Lemma rand_split_partition_witness :
  exists tr va te,
    rand_train_test_idx Z (fun n p => n * p / 100) (fun _ => [2; 0; 3; 1])
      (Label2 [[5]; [-1]; [0]; [1]; [2]]) 50 25 true = Ok (tr, va, te)
    /\ tr ++ va ++ te ≡ₚ [0; 2; 3; 4]
    /\ (NoDup [0; 2; 3; 4] -> NoDup (tr ++ va ++ te))
    /\ length tr = 2%nat /\ length va = 1%nat.
Proof.
  destruct (rand_split_partition Z (fun n p => n * p / 100) (fun _ => [2; 0; 3; 1])
              (Label2 [[5]; [-1]; [0]; [1]; [2]]) 50 25) as [H _].
  - vm_compute. discriminate.
  - vm_compute. discriminate.
  - vm_compute. change [0; 1; 2; 3] with ([0; 1] ++ 2 :: [3]).
    apply Permutation_cons_app, perm_skip, perm_swap.
  - exact H.
Defined.

(** * The data file of [lp_ft.py] *)

(** X17: [OAG_cs_dataset] never returns a dataset.  The file is opened
    for writing before it is read: when [<data_dir>/OAG_CS/homograph.pkl]
    is not there the result is [None] and nothing is touched; when it is a
    file, opening it empties it and [pickle.load] then fails on the
    write-only handle, so the stored data is lost; when it is a directory
    the [open] fails.  So [train], which reads the [label] attribute of the
    result first, stops with an exception before any of its later
    statements. *)
Theorem OAG_cs_dataset_never_loads (D : Type) (unpickle : list Z -> attempt D)
    (fs : files) (data_dir : string) :
  let data_path := path_join (path_join data_dir "OAG_CS") "homograph.pkl" in
  (forall d fs', OAG_cs_dataset D unpickle fs data_dir <> (Done (Some d), fs'))
  /\ (fs !! data_path = None ->
      OAG_cs_dataset D unpickle fs data_dir = (Done None, fs))
  /\ (forall content,
        fs !! data_path = Some (File content) ->
        OAG_cs_dataset D unpickle fs data_dir
        = (Fault UnsupportedOperation, <[data_path := File []]> fs))
  /\ (fs !! data_path = Some Dir ->
      OAG_cs_dataset D unpickle fs data_dir = (Fault IsADirectoryError, fs))
  /\ (forall (R : Type) (rest : D -> files -> attempt R * files),
        exists f fs', train_start D unpickle rest fs data_dir = (Fault f, fs')).
Proof.
  intros data_path.
  assert (fs !! data_path = None ->
          OAG_cs_dataset D unpickle fs data_dir = (Done None, fs)) as Hnone.
  { intros H. unfold OAG_cs_dataset. fold data_path. rewrite H.
    by rewrite bool_decide_eq_false_2 by (by intros [? ?]). }
  assert (forall content, fs !! data_path = Some (File content) ->
          OAG_cs_dataset D unpickle fs data_dir
          = (Fault UnsupportedOperation, <[data_path := File []]> fs)) as Hfile.
  { intros content H. unfold OAG_cs_dataset. fold data_path. rewrite H.
    rewrite bool_decide_eq_true_2 by (by eexists).
    unfold open_file. by rewrite H. }
  assert (fs !! data_path = Some Dir ->
          OAG_cs_dataset D unpickle fs data_dir = (Fault IsADirectoryError, fs)) as Hdir.
  { intros H. unfold OAG_cs_dataset. fold data_path. rewrite H.
    rewrite bool_decide_eq_true_2 by (by eexists).
    unfold open_file. by rewrite H. }
  split; [|split; [exact Hnone|split; [exact Hfile|split; [exact Hdir|]]]].
  - intros d fs'. destruct (fs !! data_path) as [[content|]|] eqn:E.
    + by rewrite (Hfile content).
    + by rewrite Hdir.
    + by rewrite Hnone.
  - intros R rest. unfold train_start.
    destruct (fs !! data_path) as [[content|]|] eqn:E.
    + rewrite (Hfile content) by done. by eexists _, _.
    + rewrite Hdir by done. by eexists _, _.
    + rewrite Hnone by done. by eexists _, _.
Qed.

Lemma OAG_cs_dataset_never_loads_witness :
  OAG_cs_dataset string (fun _ => Done "graph")
    {["data/OAG_CS/homograph.pkl" := File [128; 4; 149]]} "data"
  = (Fault UnsupportedOperation, {["data/OAG_CS/homograph.pkl" := File []]}).
Proof.
  destruct (OAG_cs_dataset_never_loads string (fun _ => Done "graph")
              {["data/OAG_CS/homograph.pkl" := File [128; 4; 149]]} "data")
    as (_ & _ & Hfile & _).
  rewrite (Hfile [128; 4; 149]) by reflexivity.
  f_equal; apply insert_singleton.
Defined.

(** * The adapter state helpers *)

Lemma find_nat_length sub (s : string) (i : nat) :
  PyStr.find_nat sub s = Some i -> (String.length sub <= String.length s)%nat.
Proof.
  revert i. induction s as [|x s IH]; intros i; cbn [PyStr.find_nat].
  - destruct (PyStr.startswith sub "") eqn:E; [|done].
    intros _. by apply startswith_length in E.
  - destruct (PyStr.startswith sub (String x s)) eqn:E.
    + intros _. by apply startswith_length in E.
    + destruct (PyStr.find_nat sub s) as [j|]; [|done].
      intros _. specialize (IH j eq_refl). cbn [String.length]. lia.
Qed.

Lemma contains_length sub (s : string) :
  PyStr.contains sub s = true -> (String.length sub <= String.length s)%nat.
Proof.
  unfold PyStr.contains. destruct (PyStr.find_nat sub s) as [i|] eqn:E; [|done].
  intros _. by eapply find_nat_length.
Qed.

Lemma dict_set_nonempty {V : Type} (k : string) (v : V) (d : list (string * V)) :
  dict_set k v d <> [].
Proof. destruct d as [|[k' v'] d]; [done|]. cbn [dict_set]. by destruct (String.eqb k k'). Qed.

Lemma dict_set_keys {V : Type} (P : string -> Prop) (k : string) (v : V)
    (d : list (string * V)) :
  P k -> Forall (fun kv => P kv.1) d -> Forall (fun kv => P kv.1) (dict_set k v d).
Proof.
  intros Hk. induction 1 as [|[k' v'] d Hk' Hd IH]; cbn [dict_set].
  - by repeat constructor.
  - destruct (String.eqb k k'); constructor; done.
Qed.

Lemma dict_set_fresh {V : Type} (k : string) (v : V) (d : list (string * V)) :
  ~ In k (map fst d) -> dict_set k v d = d ++ [(k, v)].
Proof.
  induction d as [|[k' v'] d IH]; [done|]. cbn [map fst In dict_set app].
  intros H. destruct (String.eqb_spec k k') as [->|_]; [tauto|].
  rewrite IH; [done|tauto].
Qed.

Lemma fold_dict_set_nodup {V : Type} (l d : list (string * V)) :
  NoDup (map fst (d ++ l)) ->
  fold_left (fun d kv => dict_set kv.1 kv.2 d) l d = d ++ l.
Proof.
  revert d. induction l as [|[k v] l IH]; intros d Hnd; cbn [fold_left].
  - by rewrite app_nil_r.
  - cbn [fst snd]. rewrite dict_set_fresh.
    + rewrite IH; rewrite <- app_assoc; [done|exact Hnd].
    + rewrite map_app in Hnd. cbn [map fst] in Hnd.
      apply NoDup_app in Hnd as (_ & Hdisj & _).
      intros Hin. apply (Hdisj k); [by apply list_elem_of_In|]. left.
Qed.

(** A dictionary built from pairs with different keys holds the pairs. *)
Lemma dict_of_nodup {V : Type} (l : list (string * V)) :
  NoDup (map fst l) -> dict_of l = l.
Proof. intros H. unfold dict_of. by rewrite fold_dict_set_nodup. Qed.

Lemma NoDup_keys_filter {V : Type} (p : string * V -> bool) (l : list (string * V)) :
  NoDup (map fst l) -> NoDup (map fst (List.filter p l)).
Proof.
  induction l as [|kv l IH]; [done|]. cbn [map List.filter].
  intros Hnd. apply NoDup_cons in Hnd as [Hk Hnd].
  destruct (p kv); [|by apply IH]. cbn [map]. apply NoDup_cons. split; [|by apply IH].
  intros Hin. apply Hk. apply list_elem_of_fmap in Hin as (kv' & -> & Hin).
  apply list_elem_of_fmap. exists kv'. split; [done|].
  apply list_elem_of_In in Hin. apply filter_In in Hin as [Hin _].
  by apply list_elem_of_In.
Qed.

Section PeftFacts.

Variable T : Type.
Variable requires_grad : T -> bool.
Variable maybe_zero_3 : T -> T.

Lemma gather_all_tensors (d : list (string * T)) :
  gather_all T maybe_zero_3 (map (fun kt : string * T => (kt.1, inl kt.2)) d)
  = Done (map (fun kt : string * T => (kt.1, maybe_zero_3 kt.2)) d).
Proof.
  induction d as [|[k t] d IH]; [done|]. cbn [map gather_all fst snd]. by rewrite IH.
Qed.

Lemma dict_set_tensor (k : string) (t : T) (d : list (string * T)) :
  dict_set k (inl t : T + string) (map (fun kt : string * T => (kt.1, inl kt.2)) d)
  = map (fun kt : string * T => (kt.1, inl kt.2)) (dict_set k t d).
Proof.
  induction d as [|[k' t'] d IH]; [done|]. cbn [map dict_set fst snd].
  destruct (String.eqb k k'); [done|]. cbn [map fst snd]. by rewrite IH.
Qed.

Lemma lora_only_scan_tensors (l d mlb : list (string * T)) (names : list string)
    (bn : option string) :
  exists mlb' names' bn',
    lora_only_scan T l (map (fun kt : string * T => (kt.1, inl kt.2)) d) mlb names bn
    = (map (fun kt : string * T => (kt.1, inl kt.2))
         (fold_left (fun d kv => dict_set kv.1 kv.2 d)
            (List.filter (fun kt : string * T => PyStr.contains "lora_" kt.1) l) d),
       mlb', names', bn')
    /\ (Forall (fun kv : string * T => PyStr.contains "bias" kv.1 = true) mlb ->
        Forall (fun kv : string * T => PyStr.contains "bias" kv.1 = true) mlb')
    /\ (mlb <> [] -> mlb' <> [])
    /\ (existsb (fun kt : string * T =>
                   negb (PyStr.contains "lora_" kt.1) && PyStr.contains "bias" kt.1) l
        = false -> mlb' = mlb)
    /\ (existsb (fun kt : string * T =>
                   negb (PyStr.contains "lora_" kt.1) && PyStr.contains "bias" kt.1) l
        = true -> mlb' <> []).
Proof.
  revert d mlb names bn. induction l as [|[k t] l IH]; intros d mlb names bn.
  - exists mlb, names, bn. cbn [lora_only_scan List.filter fold_left existsb].
    repeat split; done.
  - cbn [lora_only_scan List.filter existsb fst snd].
    destruct (PyStr.contains "lora_" k) eqn:Hl.
    + rewrite dict_set_tensor. cbn [negb andb orb fold_left fst snd]. apply IH.
    + cbn [negb andb]. destruct (PyStr.contains "bias" k) eqn:Hb.
      * destruct (IH d (dict_set k t mlb) names bn)
          as (mlb' & names' & bn' & -> & Hkeys & Hne & _ & _).
        exists mlb', names', bn'. cbn [orb].
        assert (mlb' <> []) as Hne' by apply Hne, dict_set_nonempty.
        repeat split; try done.
        intros Hm. apply Hkeys.
        by apply (dict_set_keys (fun k => PyStr.contains "bias" k = true)).
      * cbn [orb]. apply IH.
Qed.

(** X18: [get_peft_state_maybe_zero_3] with [bias = "lora_only"] never
    returns a bias parameter.  If some parameter whose name holds "bias"
    and not "lora_" is met, the second loop runs over the keys of
    [maybe_lora_bias] and unpacks a name of at least four characters into
    two variables: the call stops with [ValueError].  Otherwise it returns
    the parameters whose name holds "lora_", as for [bias = "none"].  A
    [bias] outside "none", "all" and "lora_only" gives
    [NotImplementedError]. *)
Theorem peft_state_lora_only (named_params : list (string * T)) :
  get_peft_state_maybe_zero_3 T maybe_zero_3 named_params "lora_only"
  = (if existsb (fun kt : string * T =>
                   negb (PyStr.contains "lora_" kt.1) && PyStr.contains "bias" kt.1)
          named_params
     then Fault (Builtin ValueError)
     else get_peft_state_maybe_zero_3 T maybe_zero_3 named_params "none")
  /\ forall bias,
       bias <> "none" -> bias <> "all" -> bias <> "lora_only" ->
       get_peft_state_maybe_zero_3 T maybe_zero_3 named_params bias
       = Fault NotImplementedError.
Proof.
  split.
  - unfold get_peft_state_maybe_zero_3.
    change (String.eqb "lora_only" "none") with false.
    change (String.eqb "lora_only" "all") with false.
    change (String.eqb "lora_only" "lora_only") with true.
    change (String.eqb "none" "none") with true. cbv iota.
    destruct (lora_only_scan_tensors named_params [] [] [] None)
      as (mlb' & names' & bn' & Hscan & Hkeys & _ & Hfalse & Htrue).
    cbn [map] in Hscan. rewrite Hscan.
    destruct (existsb _ named_params) eqn:Hex.
    + specialize (Htrue eq_refl). specialize (Hkeys ltac:(constructor)).
      destruct mlb' as [|[k0 t0] mlb']; [done|].
      apply Forall_cons_1 in Hkeys as [Hk0 _]. cbn [fst] in Hk0.
      apply contains_length in Hk0. cbn [String.length] in Hk0.
      cbn [map fst lora_only_bias].
      destruct k0 as [|a [|b [|c k0]]]; cbn [String.length] in Hk0; try lia; done.
    + rewrite (Hfalse eq_refl). cbn [map lora_only_bias mbind attempt_bind].
      rewrite gather_all_tensors.
      assert (forall l : list (string * T),
                dict_of (List.filter (fun kt : string * (T + string) =>
                                        PyStr.contains "lora_" kt.1)
                           (map (fun kt : string * T => (kt.1, inl kt.2)) l))
                = map (fun kt : string * T => (kt.1, inl kt.2))
                    (fold_left (fun d kv => dict_set kv.1 kv.2 d)
                       (List.filter (fun kt : string * T => PyStr.contains "lora_" kt.1) l)
                       [])) as ->.
      { intros l. unfold dict_of.
        change (@nil (string * (T + string)))
          with (map (fun kt : string * T => (kt.1, inl kt.2 : T + string)) []).
        generalize (@nil (string * T)). induction l as [|[k t] l IH]; intros d; [done|].
        cbn [map List.filter fst snd].
        destruct (PyStr.contains "lora_" k); [|apply IH].
        cbn [fold_left fst snd]. rewrite dict_set_tensor. apply IH. }
      by rewrite gather_all_tensors.
  - intros bias H1 H2 H3. unfold get_peft_state_maybe_zero_3.
    destruct (String.eqb_spec bias "none"); [done|].
    destruct (String.eqb_spec bias "all"); [done|].
    destruct (String.eqb_spec bias "lora_only"); done.
Qed.

Lemma filter_tensors (p : string -> bool) (l : list (string * T)) :
  List.filter (fun kt : string * (T + string) => p kt.1)
    (map (fun kt : string * T => (kt.1, inl kt.2)) l)
  = map (fun kt : string * T => (kt.1, inl kt.2))
      (List.filter (fun kt : string * T => p kt.1) l).
Proof.
  induction l as [|[k t] l IH]; [done|]. cbn [map List.filter fst snd].
  destruct (p k); [|done]. cbn [map fst snd]. by rewrite IH.
Qed.

Lemma NoDup_keys_tensors (l : list (string * T)) :
  map fst (map (fun kt : string * T => (kt.1, inl kt.2 : T + string)) l) = map fst l.
Proof. rewrite map_map. by apply map_ext. Qed.

Lemma filter_filter_and {A : Type} (p q : A -> bool) (l : list A) :
  List.filter p (List.filter q l) = List.filter (fun x => q x && p x) l.
Proof.
  induction l as [|x l IH]; [done|]. cbn [List.filter].
  destruct (q x); cbn [andb List.filter]; [|done]. destruct (p x); by rewrite IH.
Qed.

Lemma filter_split {A : Type} (p : A -> bool) (l : list A) :
  List.filter p l ++ List.filter (fun x => negb (p x)) l ≡ₚ l.
Proof.
  induction l as [|x l IH]; [done|]. cbn [List.filter].
  destruct (p x); cbn [negb app].
  - by apply perm_skip.
  - rewrite <- Permutation_middle. by apply perm_skip.
Qed.

(** X19: for parameters with different names, the two state helpers
    split the parameters by name.  With [bias = "none"] the adapter state
    holds the gathered parameters whose name contains "lora_", in order,
    and the other state (without [require_grad_only]) those whose name does
    not: together they are the gathered parameters, each once.  With
    [bias = "all"] the adapter state also holds the parameters whose name
    contains "bias", so that a bias outside the adapters is in both states.
    With [require_grad_only] the other state keeps the parameters that
    require a gradient. *)
Theorem peft_state_partition (named_params : list (string * T)) :
  NoDup (map fst named_params) ->
  let gathered := map (fun kt : string * T => (kt.1, maybe_zero_3 kt.2)) in
  let lora := fun kt : string * T => PyStr.contains "lora_" kt.1 in
  get_peft_state_maybe_zero_3 T maybe_zero_3 named_params "none"
  = Done (gathered (List.filter lora named_params))
  /\ get_peft_state_maybe_zero_3 T maybe_zero_3 named_params "all"
     = Done (gathered (List.filter (fun kt => lora kt || PyStr.contains "bias" kt.1)
                         named_params))
  /\ get_peft_state_non_lora_maybe_zero_3 T requires_grad maybe_zero_3 named_params false
     = gathered (List.filter (fun kt => negb (lora kt)) named_params)
  /\ get_peft_state_non_lora_maybe_zero_3 T requires_grad maybe_zero_3 named_params true
     = gathered (List.filter (fun kt => negb (lora kt) && requires_grad kt.2)
                   named_params)
  /\ gathered (List.filter lora named_params)
     ++ get_peft_state_non_lora_maybe_zero_3 T requires_grad maybe_zero_3 named_params
          false
     ≡ₚ gathered named_params.
Proof.
  intros Hnd gathered lora.
  assert (get_peft_state_non_lora_maybe_zero_3 T requires_grad maybe_zero_3
            named_params false
          = gathered (List.filter (fun kt => negb (lora kt)) named_params)) as Hnon.
  { unfold get_peft_state_non_lora_maybe_zero_3.
    by rewrite dict_of_nodup by by apply NoDup_keys_filter. }
  split; [|split; [|split; [exact Hnon|split]]].
  - unfold get_peft_state_maybe_zero_3.
    change (String.eqb "none" "none") with true. cbv iota.
    rewrite (filter_tensors (fun k => PyStr.contains "lora_" k)).
    rewrite dict_of_nodup
      by (rewrite NoDup_keys_tensors; by apply NoDup_keys_filter).
    cbn [mbind attempt_bind]. apply gather_all_tensors.
  - unfold get_peft_state_maybe_zero_3.
    change (String.eqb "all" "none") with false.
    change (String.eqb "all" "all") with true. cbv iota.
    rewrite (filter_tensors (fun k => PyStr.contains "lora_" k || PyStr.contains "bias" k)).
    rewrite dict_of_nodup
      by (rewrite NoDup_keys_tensors; by apply NoDup_keys_filter).
    cbn [mbind attempt_bind]. apply gather_all_tensors.
  - unfold get_peft_state_non_lora_maybe_zero_3.
    rewrite dict_of_nodup by by apply NoDup_keys_filter.
    by rewrite filter_filter_and.
  - rewrite Hnon. subst gathered. cbn beta. rewrite <- map_app.
    by rewrite (filter_split lora).
Qed.

End PeftFacts.

Lemma peft_state_partition_witness :
  get_peft_state_maybe_zero_3 Z (fun t => t + 100)
    [("a.lora_A", 1); ("a.bias", 2); ("a.weight", 3)] "all"
  = Done [("a.lora_A", 101); ("a.bias", 102)]
  /\ get_peft_state_non_lora_maybe_zero_3 Z (fun t => 2 <? t) (fun t => t + 100)
       [("a.lora_A", 1); ("a.bias", 2); ("a.weight", 3)] true
     = [("a.weight", 103)].
Proof.
  destruct (peft_state_partition Z (fun t => 2 <? t) (fun t => t + 100)
              [("a.lora_A", 1); ("a.bias", 2); ("a.weight", 3)])
    as (_ & Hall & _ & Hgrad & _).
  - apply (bool_decide_unpack _). vm_compute. exact I.
  - split; [exact Hall | exact Hgrad].
Defined.

Lemma peft_state_lora_only_witness :
  get_peft_state_maybe_zero_3 Z (fun t => t)
    [("a.lora_A", 1); ("a.bias", 2); ("a.weight", 3)] "lora_only"
  = Fault (Builtin ValueError)
  /\ get_peft_state_maybe_zero_3 Z (fun t => t)
       [("a.lora_A", 1); ("a.bias", 2); ("a.weight", 3)] "lora"
     = Fault NotImplementedError.
Proof.
  destruct (peft_state_lora_only Z (fun t => t)
              [("a.lora_A", 1); ("a.bias", 2); ("a.weight", 3)]) as [Honly Hother].
  split.
  - rewrite Honly. reflexivity.
  - apply Hother; discriminate.
Defined.

(** * The names of the linear modules *)

(** A piece of a split at one character does not hold the character. *)
Lemma split_from_char_free c (s : string) :
  Forall (fun p => PyStr.has_char c p = false) (PyStr.split_from (String c "") 0 s).
Proof.
  induction s as [|x s IH]; [by repeat constructor|].
  cbn [PyStr.split_from PyStr.startswith String.length Nat.sub].
  rewrite andb_true_r.
  destruct (Ascii.eqb c x) eqn:E.
  - constructor; [done|exact IH].
  - destruct (PyStr.split_from (String c "") 0 s) as [|h t].
    { constructor; [|constructor]. cbn [PyStr.has_char]. by rewrite E. }
    apply Forall_cons_1 in IH as [Hh Ht]. constructor; [|done].
    cbn [PyStr.has_char]. by rewrite E, Hh.
Qed.

Lemma py_index_last {A : Type} (l : list A) (d : A) :
  l <> [] ->
  (if (length l =? 1)%nat then py_index l 0 else py_index l (-1)) = Ok (List.last l d).
Proof.
  intros Hne. destruct l as [|a l]; [done|]. destruct l as [|b l]; [done|].
  change (length (a :: b :: l) =? 1)%nat with false. cbv iota.
  unfold py_index. change (-1 <? 0) with true. cbv iota.
  set (n := Z.of_nat (length (a :: b :: l))).
  assert (n = Z.of_nat (S (S (length l)))) as Hn by done.
  destruct (Z.leb_spec 0 (n + -1)); [|lia].
  destruct (Z.ltb_spec (n + -1) n); [|lia]. cbn [andb].
  replace (Z.to_nat (n + -1)) with (S (length l)) by lia.
  assert (forall (x : A) (l' : list A), (x :: l') !! length l' = Some (List.last (x :: l') d)) as Hlast.
  { intros x l'. revert x. induction l' as [|y l' IH]; intros x; [done|].
    exact (IH y). }
  change ((a :: b :: l) !! S (length l)) with ((b :: l) !! length l).
  by rewrite Hlast.
Qed.

Section LinearNamesFacts.

Variable M : Type.
Variable is_linear : M -> bool.

Lemma linear_names_spec (named_modules : list (string * M)) (acc : gset string) :
  exists s,
    linear_names M is_linear named_modules acc = Ok s
    /\ forall x, x ∈ s
         <-> x ∈ acc
             \/ exists name m,
                  In (name, m) named_modules /\ is_linear m = true
                  /\ x = List.last (PyStr.split_from "." 0 name) "".
Proof.
  revert acc. induction named_modules as [|[name m] rest IH]; intros acc.
  - exists acc. split; [done|]. intros x. split; [by left|].
    by intros [?|(? & ? & [] & _)].
  - cbn [linear_names]. destruct (is_linear m) eqn:Hm.
    + rewrite (py_index_last _ "") by apply split_from_nonempty.
      destruct (IH ({[List.last (PyStr.split_from "." 0 name) ""]} ∪ acc))
        as (s & -> & Hs).
      exists s. split; [done|]. intros x. rewrite Hs. split.
      * intros [Hx|(name' & m' & Hin & Hlin & ->)].
        -- apply elem_of_union in Hx as [Hx|Hx]; [|by left].
           apply elem_of_singleton in Hx. right. exists name, m.
           split; [by left|done].
        -- right. exists name', m'. split; [by right|done].
      * intros [Hx|(name' & m' & [[= <- <-]|Hin] & Hlin & ->)].
        -- left. apply elem_of_union. by right.
        -- left. apply elem_of_union. left. by apply elem_of_singleton.
        -- right. by exists name', m'.
    + destruct (IH acc) as (s & -> & Hs). exists s. split; [done|].
      intros x. rewrite Hs. split.
      * intros [?|(name' & m' & Hin & Hlin & ->)]; [by left|].
        right. exists name', m'. split; [by right|done].
      * intros [?|(name' & m' & [[= <- <-]|Hin] & Hlin & ->)]; [by left| |].
        -- congruence.
        -- right. by exists name', m'.
Qed.

(** X20: [find_all_linear_names] returns, for every list of modules, the
    set of the last dotted components of the names of the linear modules,
    without "lm_head": a name is in the result exactly when it is not
    "lm_head" and is the part behind the last ['.'] (the whole name when
    there is no ['.']) of the name of some linear module; no returned name
    holds a ['.']. *)
Theorem find_all_linear_names_last (named_modules : list (string * M)) :
  exists s,
    find_all_linear_names M is_linear named_modules = Ok s
    /\ ("lm_head" ∉ s)
    /\ (forall x, x ∈ s
          <-> x <> "lm_head"
              /\ exists name m,
                   In (name, m) named_modules /\ is_linear m = true
                   /\ x = List.last (PyStr.split_from "." 0 name) "")
    /\ forall x, x ∈ s -> PyStr.has_char "." x = false.
Proof.
  unfold find_all_linear_names.
  destruct (linear_names_spec named_modules ∅) as (s0 & -> & Hs0).
  cbn [mbind outcome_bind]. eexists. split; [done|].
  assert (forall x,
            x ∈ (if decide ("lm_head" ∈ s0) then s0 ∖ {["lm_head"]} else s0)
            <-> x <> "lm_head" /\ x ∈ s0) as Hres.
  { intros x. destruct (decide ("lm_head" ∈ s0)) as [Hin|Hout].
    - rewrite elem_of_difference, elem_of_singleton. tauto.
    - split; [|by intros [_ ?]]. intros Hx. split; [|done]. by intros ->. }
  split; [|split].
  - rewrite Hres. by intros [? _].
  - intros x. rewrite Hres, Hs0. split.
    + intros [Hne [Hx|Hx]]; [by apply elem_of_empty in Hx|done].
    + intros [Hne Hx]. split; [done|by right].
  - intros x Hx. apply Hres in Hx as [_ Hx].
    apply Hs0 in Hx as [Hx|(name & m & _ & _ & ->)]; [by apply elem_of_empty in Hx|].
    pose proof (split_from_char_free "." name) as Hfree.
    pose proof (split_from_nonempty "." 0 name) as Hne.
    destruct (PyStr.split_from "." 0 name) as [|h t] eqn:E; [done|].
    clear E Hne. revert h Hfree. induction t as [|h' t IH]; intros h Hfree.
    + by apply Forall_cons_1 in Hfree as [? _].
    + apply Forall_cons_1 in Hfree as [_ Hfree]. by apply IH.
Qed.

End LinearNamesFacts.

Lemma find_all_linear_names_last_witness :
  exists s,
    find_all_linear_names bool (fun m => m)
      [("model.layers.0.q_proj", true); ("model.norm", false); ("lm_head", true)] = Ok s
    /\ ("lm_head" ∉ s)
    /\ ("q_proj" ∈ s).
Proof.
  destruct (find_all_linear_names_last bool (fun m => m)
              [("model.layers.0.q_proj", true); ("model.norm", false); ("lm_head", true)])
    as (s & Hrun & Hhead & Hin & _).
  exists s. split; [exact Hrun|]. split; [exact Hhead|].
  apply Hin. split; [discriminate|].
  exists "model.layers.0.q_proj", true. split; [left; reflexivity|].
  split; reflexivity.
Defined.

(** * The items of the lazy dataset *)

Lemma for_each_length {A B : Type} (f : A -> outcome B) (l : list A) (bs : list B) :
  for_each f l = Ok bs -> length bs = length l.
Proof. intros H. by apply for_each_lookup in H as [? _]. Qed.

Lemma masked_rows (body : string * list Z -> outcome (list Z * list string))
    (convs : list string) (ids : list (list Z)) (res : list (list Z * list string)) :
  (forall ct lab out, body ct = Ok (lab, out) -> labels_of ct.2 lab) ->
  length ids = length convs ->
  for_each body (zip convs ids) = Ok res ->
  Forall2 labels_of ids (map fst res).
Proof.
  intros Hbody Hlen Hres.
  destruct (for_each_lookup _ _ _ Hres) as [Hreslen Hall].
  rewrite length_zip in Hreslen.
  apply Forall2_same_length_lookup_2; [rewrite length_map; lia|].
  intros i row lab Hrow Hlab. rewrite list_lookup_fmap in Hlab.
  destruct (res !! i) as [[lab' out]|] eqn:Hi; [|done]. injection Hlab as <-.
  destruct (lookup_lt_is_Some_2 convs i) as [conv Hconv].
  { rewrite <- Hlen. by eapply lookup_lt_Some. }
  destruct (Hall i (conv, row)) as (b & Hb & Hrun); [by apply lookup_zip_Some|].
  rewrite Hi in Hb. injection Hb as <-. by apply Hbody in Hrun.
Qed.

Lemma apply_templates_length (conv : conversation) (sources : list (list sentence))
    (convs : list string) :
  apply_templates conv sources = Ok convs -> length convs = length sources.
Proof.
  unfold apply_templates.
  destruct (py_index _ 0); [|done]. cbn [mbind outcome_bind].
  destruct (py_index _ 1); [|done]. cbn [mbind outcome_bind].
  apply for_each_length.
Qed.

Section PreprocessFacts.

Variable tokenize : string -> list Z.
Variable pad_token_id : Z.
Variable model_max_length : Z.
Variable cls : class_dict.

Lemma preprocess_absent (sources : list (list sentence)) :
  cls !! "default_conversation" = None ->
  preprocess tokenize pad_token_id model_max_length cls sources = Raise AttributeError.
Proof.
  intros Hno. unfold preprocess. by rewrite class_default_conversation_absent.
Qed.

(** On every path, [preprocess] gives one row of ids and one row of labels
    per source. *)
Lemma preprocess_rows (sources : list (list sentence)) (ids labels : list (list Z))
    (log : list string) :
  preprocess tokenize pad_token_id model_max_length cls sources = Ok (ids, labels, log) ->
  (exists dc, cls !! "default_conversation" = Some (VConversation dc))
  /\ length ids = length sources /\ Forall2 labels_of ids labels.
Proof.
  unfold preprocess, class_default_conversation, class_getattr.
  destruct (cls !! "default_conversation") as [[| | | | | |dc|]|] eqn:Hdc; try done.
  cbn [mbind outcome_bind]. intros H. split; [by eexists|]. revert H.
  destruct (String.eqb (version dc) "v1").
  { intros H. apply preprocess_v1_inv in H
      as (dc' & convs & r1 & res & _ & _ & Htpl & _ & _ & Hids & Hres & -> & _).
    assert (length ids = length convs) as Hlen.
    { rewrite Hids. unfold encode_batch. by rewrite !length_map. }
    split; [by rewrite Hlen, (apply_templates_length _ _ _ Htpl)|].
    eapply masked_rows; [|exact Hlen|exact Hres].
    intros [conv row] lab out Hrun. cbn [fst snd] in *.
    by apply mask_example_labels in Hrun as [? _]. }
  destruct (String.eqb (version dc) "mpt").
  { intros H. apply preprocess_mpt_inv in H
      as (dc' & convs & r1 & res & _ & _ & Htpl & _ & _ & Hids & Hres & -> & _).
    assert (length ids = length convs) as Hlen.
    { rewrite Hids. unfold encode_batch. by rewrite !length_map. }
    split; [by rewrite Hlen, (apply_templates_length _ _ _ Htpl)|].
    eapply masked_rows; [|exact Hlen|exact Hres].
    intros [conv row] lab out Hrun. cbn [fst snd] in *.
    by apply mask_example_mpt_labels in Hrun as [? _]. }
  unfold preprocess_plain.
  match goal with
  | |- context [for_each ?f sources] => destruct (for_each f sources) as [signed|] eqn:Hsigned
  end; [|done].
  cbn [mbind outcome_bind].
  match goal with
  | |- context [for_each ?f ?l] => destruct (for_each f l) as [targets|] eqn:Htargets
  end; [|done].
  intros [= <- <- <-]. apply for_each_length in Hsigned.
  set (texts := map (fun hcs : string * (string * list sentence) => hcs.2.1) signed)
    in *.
  set (srcs := map (fun hcs : string * (string * list sentence) => hcs.2.2) signed)
    in *.
  set (ids := map (fun text : string => take (Z.to_nat model_max_length) (tokenize text))
                texts).
  change ((_tokenize_fn tokenize pad_token_id model_max_length texts).1)
    with ids in Htargets.
  assert (length ids = length sources) as Hids
    by (subst ids texts; by rewrite !length_map).
  split; [exact Hids|].
  destruct (for_each_lookup _ _ _ Htargets) as [Hlen Hall].
  assert (length srcs = length sources) as Hsrcs by (subst srcs; by rewrite length_map).
  rewrite length_zip in Hlen.
  apply Forall2_same_length_lookup_2; [lia|].
  intros i row lab Hrow Hlab.
  destruct (lookup_lt_is_Some_2 srcs i) as [src Hsrc].
  { apply lookup_lt_Some in Hlab. lia. }
  destruct (Hall i (row, src)) as (lab' & Hlab' & Hrun).
  { apply lookup_zip_Some. split; [|done]. exact Hrow. }
  rewrite Hlab in Hlab'. injection Hlab' as <-. cbn [fst snd] in Hrun.
  cbn [_tokenize_fn map snd] in Hrun.
  match type of Hrun with
  | _mask_targets _ (?h :: ?lens) ?speakers = _ =>
      destruct (mask_targets_labels row h lens speakers) as (lab' & Hrun' & Hof)
  end.
  rewrite Hrun in Hrun'. by injection Hrun' as <-.
Qed.

(** On a single source [preprocess] gives a single row of ids and of
    labels. *)
Lemma preprocess_single (source : list sentence) (ids labels : list (list Z))
    (log : list string) :
  preprocess tokenize pad_token_id model_max_length cls [source] = Ok (ids, labels, log) ->
  exists row lab, ids = [row] /\ labels = [lab] /\ labels_of row lab.
Proof.
  intros H. apply preprocess_rows in H as (_ & Hlen & Hrows).
  destruct Hrows as [|row lab ids' labels' Hlab Hrest]; [done|].
  destruct Hrest; [|done]. by exists row, lab.
Qed.

End PreprocessFacts.

Section LazyItemFacts.

Variable tokenize : string -> list Z.
Variable pad_token_id : Z.
Variable model_max_length : Z.
Variable cls : class_dict.
Variable F : Type.
Variable graph_data_all : gmap string (list F).
Variable as_long : Z -> Z.
Variable cfg : graph_cfg.
Variable node_feas : option Z.

(** X21: the item of a record with a graph that is no link-prediction
    record ([is_graph] set, [sep_graph_conv_front] unset).  For an integer
    subscript in range, a record whose id does not end in ["_LP"], whose
    ['graph'] entry has the keys [edge_index], [node_list] and [node_idx],
    and whose nodes are rows of the table of its graph type,
    [LazySupervisedDataset.__getitem__] runs [preprocess] on the
    conversation in which every marker is replaced by as many patch tokens
    as the node list has nodes.  While the class has no attribute
    [default_conversation], as the class of the module, that call raises
    [AttributeError] and so does [__getitem__]; whatever [preprocess]
    raises, [__getitem__] raises.  When [preprocess] returns, it returns
    one row of token ids and one row of labels, and the item holds them
    and, as [graph_data], the rows of these nodes, the edge index and the
    target node. *)
Theorem lazy_item_node_graph (list_data_dict : list json_record) (i : Z)
    (r : json_record) (task_type graph_type : string) (g : graph_entry)
    (edges : list (list Z)) (nodes : list Z) (idx : Z) (reps : list F) :
  py_index list_data_dict i = Ok r ->
  py_index (PyStr.split_from "_" 0 (rec_id r)) (-1) = Ok task_type ->
  task_type <> "LP" ->
  py_index (PyStr.split_from "_" 0 (rec_id r)) 0 = Ok graph_type ->
  rec_graph r = Some g ->
  g_edge_index g = Some edges -> g_node_list g = Some nodes -> g_node_idx g = Some idx ->
  node_rows F graph_data_all graph_type nodes = Ok reps ->
  is_graph cfg = true -> sep_graph_conv_front cfg = false ->
  let getitem :=
    LazySupervisedDataset_getitem json_record _
      (lazy_item tokenize pad_token_id model_max_length cls F graph_data_all as_long
         cfg node_feas)
      list_data_dict (IInt i) in
  let prepared :=
    preprocess tokenize pad_token_id model_max_length cls
      [map (expand_sentence cfg (Z.of_nat (length nodes))) (rec_conversations r)] in
  length reps = length nodes
  /\ (cls !! "default_conversation" = None -> getitem = Raise AttributeError)
  /\ (forall e, prepared = Raise e -> getitem = Raise e)
  /\ (forall ids labels log,
        prepared = Ok (ids, labels, log) ->
        exists row lab,
          ids = [row] /\ labels = [lab] /\ labels_of row lab
          /\ getitem
             = Ok (Instance row lab
                     (Some (OneGraph (MkData reps (map (map as_long) edges) [idx]))),
                   log)).
Proof.
  intros Hr Htask Hne Htype Hg Hedges Hnodes Hidx Hrows Hgraph Hfront getitem prepared.
  assert (length reps = length nodes) as Hlen.
  { unfold node_rows in Hrows. destruct (key _) as [x|]; [|done].
    cbn [mbind outcome_bind] in Hrows. by apply for_each_length in Hrows. }
  split; [exact Hlen|].
  assert (getitem
          = (data_dict ← prepared;
             input_ids ← py_index data_dict.1.1 0;
             labels ← py_index data_dict.1.2 0;
             Ok (Instance input_ids labels
                   (Some (OneGraph (MkData reps (map (map as_long) edges) [idx]))),
                 data_dict.2))) as Heq.
  { subst getitem prepared.
    unfold LazySupervisedDataset_getitem. cbn [py_getitem]. rewrite Hr.
    cbn [mbind outcome_bind sources_len Nat.eqb py_assert].
    unfold lazy_item. rewrite Htask. cbn [mbind outcome_bind].
    destruct (String.eqb_spec task_type "LP") as [|_]; [done|]. cbn [negb].
    rewrite Hg, Hedges, Hnodes, Hidx, Htype. cbn [key mbind outcome_bind].
    rewrite Hrows. cbn [mbind outcome_bind].
    rewrite preprocess_graph_plain by done. cbn [mbind outcome_bind map fst snd].
    rewrite Hlen.
    destruct (preprocess _ _ _ _ _) as [[[ids labels] out]|]; [|done].
    cbn [mbind outcome_bind fst snd].
    destruct (py_index ids 0); [|done]. cbn [mbind outcome_bind].
    by destruct (py_index labels 0). }
  rewrite Heq. split; [|split].
  - intros Hno. subst prepared. by rewrite preprocess_absent.
  - by intros e ->.
  - intros ids labels log Hpre. rewrite Hpre.
    apply preprocess_single in Hpre as (row & lab & -> & -> & Hlab).
    exists row, lab. split; [done|]. split; [done|]. split; [done|].
    cbn [mbind outcome_bind fst snd]. by rewrite !py_index_0_cons.
Qed.

(** X22: which items carry [graph_data].  While the class has no
    attribute [default_conversation], as the class of the module,
    [__getitem__] builds no item at all: every record ends in an
    exception.  When it builds an item, a record with a ['graph'] entry
    gives [graph_data]: one graph, or two for a record whose id ends in
    ["_LP"]; a record without the entry gives the all-zero stand-in when
    [is_graph] is set, which needs the ['graph_processor'] entry of
    [graph_cfg] (no item is built without it), and no [graph_data] at all
    when [is_graph] is not set, and then the collator refuses every batch
    that starts with the item ([UnboundLocalError]). *)
Theorem lazy_item_graph_data (r : json_record) :
  (cls !! "default_conversation" = None ->
   exists e,
     lazy_item tokenize pad_token_id model_max_length cls F graph_data_all as_long
       cfg node_feas r = Raise e)
  /\ (forall inst log,
        lazy_item tokenize pad_token_id model_max_length cls F graph_data_all as_long
          cfg node_feas r = Ok (inst, log) ->
        (rec_graph r = None ->
         (is_graph cfg = true ->
          exists n, node_feas = Some n /\ inst_graph_data inst = Some (ZeroGraph n))
         /\ (is_graph cfg = false ->
             inst_graph_data inst = None
             /\ forall pad rest,
                  DataCollatorForSupervisedDataset_call pad (inst :: rest)
                  = Fault UnboundLocalError))
        /\ (forall g, rec_graph r = Some g ->
              exists task_type,
                py_index (PyStr.split_from "_" 0 (rec_id r)) (-1) = Ok task_type
                /\ if String.eqb task_type "LP"
                   then exists d1 d2, inst_graph_data inst = Some (TwoGraphs d1 d2)
                   else exists d, inst_graph_data inst = Some (OneGraph d)))
  /\ (rec_graph r = None -> is_graph cfg = true -> node_feas = None ->
      exists e,
        lazy_item tokenize pad_token_id model_max_length cls F graph_data_all as_long
          cfg node_feas r = Raise e).
Proof.
  unfold lazy_item. split; [|split].
  - intros Hno.
    destruct (py_index (PyStr.split_from "_" 0 (rec_id r)) (-1)) as [task_type|];
      [|by eexists].
    cbn [mbind outcome_bind].
    match goal with
    | |- exists e, (?prep ≫= _) = _ => destruct prep as [[sources gd]|]
    end; [|by eexists].
    cbn [mbind outcome_bind fst snd]. rewrite preprocess_absent by done.
    by eexists.
  - intros inst log.
    destruct (py_index (PyStr.split_from "_" 0 (rec_id r)) (-1)) as [task_type|];
      [|done].
    cbn [mbind outcome_bind].
    match goal with
    | |- (?prep ≫= _) = _ -> _ => destruct prep as [[sources gd]|] eqn:Hprep
    end; [|done].
    cbn [mbind outcome_bind fst snd].
    destruct (preprocess _ _ _ _ sources) as [[[ids labels] out]|]; [|done].
    cbn [mbind outcome_bind fst snd].
    destruct (py_index ids 0) as [row|]; [|done]. cbn [mbind outcome_bind].
    destruct (py_index labels 0) as [lab|]; [|done]. cbn [mbind outcome_bind].
    destruct gd as [gd|]; [|done]. cbn [mbind outcome_bind].
    intros [= <- <-]. cbn [inst_graph_data]. split.
    + intros Hnone. rewrite Hnone in Hprep.
      assert (stand_in F cfg node_feas = Ok gd) as Hgd.
      { by destruct (negb _); injection Hprep as _ <-. }
      unfold stand_in in Hgd. split.
      * intros Hg. rewrite Hg in Hgd. destruct node_feas as [n|]; [|done].
        injection Hgd as <-. by exists n.
      * intros Hg. rewrite Hg in Hgd. injection Hgd as <-.
        split; [done|]. intros pad rest. by apply collator_unbound.
    + intros g Hg. exists task_type. split; [done|]. rewrite Hg in Hprep.
      destruct (String.eqb task_type "LP"); cbn [negb] in Hprep.
      * repeat match type of Hprep with
               | (?m ≫= _) = _ => destruct m; [|done]; cbn [mbind outcome_bind] in Hprep
               end.
        injection Hprep as _ <-. by eexists _, _.
      * repeat match type of Hprep with
               | (?m ≫= _) = _ => destruct m; [|done]; cbn [mbind outcome_bind] in Hprep
               end.
        injection Hprep as _ <-. by eexists.
  - intros Hnone Hg Hfeas.
    destruct (py_index (PyStr.split_from "_" 0 (rec_id r)) (-1)) as [task_type|];
      [|by eexists].
    cbn [mbind outcome_bind]. rewrite Hnone.
    assert ((if negb (String.eqb task_type "LP")
             then Ok ([rec_conversations r], stand_in F cfg node_feas)
             else Ok ([rec_conversations r], stand_in F cfg node_feas))
            = Ok ([rec_conversations r], Raise KeyError)) as ->.
    { unfold stand_in. rewrite Hg, Hfeas. by destruct (negb _). }
    cbn [mbind outcome_bind fst snd].
    destruct (preprocess _ _ _ _ _) as [[[ids labels] out]|]; [|by eexists].
    cbn [mbind outcome_bind fst snd].
    destruct (py_index ids 0) as [row|]; [|by eexists]. cbn [mbind outcome_bind].
    destruct (py_index labels 0) as [lab|]; by eexists.
Qed.

End LazyItemFacts.

Lemma lazy_item_node_graph_witness :
  LazySupervisedDataset_getitem json_record _
    (lazy_item word_tokenizer 0 64 conversation_lib_class string cora_table (fun v => v)
       bracketing (Some 8))
    [plain_record; cora_record] (IInt 1)
  = Raise AttributeError
  /\ exists row lab,
       labels_of row lab
       /\ LazySupervisedDataset_getitem json_record _
            (lazy_item word_tokenizer 0 64 (class_with conv_vicuna_v1_1) string
               cora_table (fun v => v) bracketing (Some 8))
            [plain_record; cora_record] (IInt 1)
          = Ok (Instance row lab
                  (Some (OneGraph (MkData ["n2"; "n0"] [[0; 1]; [1; 0]] [0]))),
                []).
Proof.
  split.
  - destruct (lazy_item_node_graph word_tokenizer 0 64 conversation_lib_class string
                cora_table (fun v => v) bracketing (Some 8) [plain_record; cora_record]
                1 cora_record "NC" "cora"
                (GraphEntry (Some [[0; 1]; [1; 0]]) (Some [2; 0]) (Some 0)
                   None None None None None None)
                [[0; 1]; [1; 0]] [2; 0] 0 ["n2"; "n0"]) as (_ & H & _);
      [reflexivity | reflexivity | discriminate | reflexivity | reflexivity
      | reflexivity | reflexivity | reflexivity | vm_compute; reflexivity
      | reflexivity | reflexivity |].
    apply H. reflexivity.
  - destruct (lazy_item_node_graph word_tokenizer 0 64 (class_with conv_vicuna_v1_1)
                string cora_table (fun v => v) bracketing (Some 8)
                [plain_record; cora_record] 1 cora_record "NC" "cora"
                (GraphEntry (Some [[0; 1]; [1; 0]]) (Some [2; 0]) (Some 0)
                   None None None None None None)
                [[0; 1]; [1; 0]] [2; 0] 0 ["n2"; "n0"]) as (_ & _ & _ & H);
      [reflexivity | reflexivity | discriminate | reflexivity | reflexivity
      | reflexivity | reflexivity | reflexivity | vm_compute; reflexivity
      | reflexivity | reflexivity |].
    edestruct H as (row & lab & _ & _ & Hlab & Hitem); [vm_compute; reflexivity|].
    exists row, lab. split; [exact Hlab|]. exact Hitem.
Defined.

Lemma lazy_item_graph_data_witness :
  (exists e,
     lazy_item word_tokenizer 0 64 conversation_lib_class string cora_table
       (fun v => v) graphless None plain_record = Raise e)
  /\ exists inst log,
       lazy_item word_tokenizer 0 64 (class_with conv_vicuna_v1_1) string cora_table
         (fun v => v) graphless None plain_record = Ok (inst, log)
       /\ inst_graph_data inst = None
       /\ forall pad rest,
            DataCollatorForSupervisedDataset_call pad (inst :: rest)
            = Fault UnboundLocalError.
Proof.
  split.
  - destruct (lazy_item_graph_data word_tokenizer 0 64 conversation_lib_class string
                cora_table (fun v => v) graphless None plain_record) as [H _].
    apply H. reflexivity.
  - destruct (lazy_item word_tokenizer 0 64 (class_with conv_vicuna_v1_1) string
                cora_table (fun v => v) graphless None plain_record)
      as [[inst log]|] eqn:E; [|vm_compute in E; discriminate].
    exists inst, log. split; [reflexivity|].
    destruct (lazy_item_graph_data word_tokenizer 0 64 (class_with conv_vicuna_v1_1)
                string cora_table (fun v => v) graphless None plain_record)
      as (_ & H & _).
    destruct (H inst log E) as [Hnone _].
    destruct (Hnone eq_refl) as [_ Hplain].
    exact (Hplain eq_refl).
Defined.

(** * The configuration made by [train] *)

(** X23: the template selection of [train] in [nc_ft.py].  A version
    other than "v1" is refused with [ValueError].  For "v1" the statement
    reads [conversation_lib.conv_templates]: while the class has no such
    attribute, as the class of the module, it raises [AttributeError], so
    that [train] never gets past the selection and the class is given no
    [default_conversation].  The statement succeeds only on a class that
    holds a dictionary with the key "vicuna_v1_1" under that name; the
    class then has the template found there as [default_conversation] and
    its other attributes are as before. *)
Theorem train_conversation_preprocess (cls : class_dict) (version : string) :
  (version <> "v1" -> train_conversation cls version = Raise ValueError)
  /\ (version = "v1" -> cls !! "conv_templates" = None ->
      train_conversation cls version = Raise AttributeError)
  /\ (forall cls',
        train_conversation cls version = Ok cls' ->
        version = "v1"
        /\ exists d c,
             cls !! "conv_templates" = Some (VTemplates d)
             /\ dict_get "vicuna_v1_1" d = Some c
             /\ class_default_conversation cls' = Ok c
             /\ forall name, name <> "default_conversation" -> cls' !! name = cls !! name)
  /\ exists e, train_conversation conversation_lib_class version = Raise e.
Proof.
  unfold train_conversation. split; [|split; [|split]].
  - intros Hv. by destruct (String.eqb_spec version "v1").
  - intros -> Hno. unfold class_getattr. by rewrite Hno.
  - intros cls'. destruct (String.eqb_spec version "v1") as [->|]; [|done].
    unfold class_getattr.
    destruct (cls !! "conv_templates") as [[| | | | | | |d]|] eqn:Ht; try done.
    cbn [mbind outcome_bind subscript_vicuna].
    destruct (dict_get "vicuna_v1_1" d) as [c|] eqn:Hc; [|done].
    cbn [key mbind outcome_bind]. intros [= <-]. split; [done|].
    exists d, c. split; [done|]. split; [done|].
    split; [apply class_default_conversation_set|].
    intros name Hname. unfold class_setattr. by rewrite lookup_insert_ne.
  - destruct (String.eqb version "v1"); by eexists.
Qed.

Lemma train_conversation_preprocess_witness :
  train_conversation conversation_lib_class "mpt" = Raise ValueError
  /\ train_conversation conversation_lib_class "v1" = Raise AttributeError
  /\ exists cls',
       train_conversation
         (class_setattr conversation_lib_class "conv_templates"
            (VTemplates [("bair_v1", conv_bair_v1); ("vicuna_v1_1", conv_vicuna_v1_1)]))
         "v1" = Ok cls'
       /\ class_default_conversation cls' = Ok conv_vicuna_v1_1.
Proof.
  split; [|split].
  - destruct (train_conversation_preprocess conversation_lib_class "mpt") as [H _].
    apply H. discriminate.
  - destruct (train_conversation_preprocess conversation_lib_class "v1") as (_ & H & _).
    apply H; reflexivity.
  - eexists. split; [reflexivity|].
    destruct (train_conversation_preprocess
                (class_setattr conversation_lib_class "conv_templates"
                   (VTemplates [("bair_v1", conv_bair_v1);
                                ("vicuna_v1_1", conv_vicuna_v1_1)]))
                "v1") as (_ & _ & H & _).
    edestruct H as (_ & d & c & Hd & Hc & Hdc & _); [reflexivity|].
    vm_compute in Hd. injection Hd as <-.
    vm_compute in Hc. injection Hc as <-.
    exact Hdc.
Defined.

(** X24: the number of accumulation steps chosen by [train].  With a
    positive batch size per device and at least one device it is at least
    1; when the requested batch holds a full step it is the largest number
    of steps whose samples fit into the requested batch, and when the
    requested batch is smaller than one step it is 1, so that a step then
    holds more samples than requested.  Without a device the division
    fails. *)
Theorem gradient_accumulation_steps_bounds (batch_size per_device : Z) (devices : list Z) :
  (0 < per_device -> devices <> [] ->
   let step := per_device * Z.of_nat (length devices) in
   exists steps,
     gradient_accumulation_steps batch_size per_device devices = Some steps
     /\ 1 <= steps
     /\ (step <= batch_size -> steps * step <= batch_size < (steps + 1) * step)
     /\ (batch_size < step -> steps = 1))
  /\ gradient_accumulation_steps batch_size per_device [] = None.
Proof.
  split.
  - intros Hp Hd step. unfold gradient_accumulation_steps. fold step.
    assert (0 < step) as Hstep.
    { subst step. destruct devices; [done|]. cbn [length]. nia. }
    destruct (Z.eqb_spec step 0) as [|_]; [lia|].
    eexists. split; [done|].
    pose proof (Z.mul_div_le batch_size step Hstep).
    pose proof (Z.mul_succ_div_gt batch_size step Hstep).
    split; [lia|]. split.
    + intros Hle. assert (1 <= batch_size / step) by (apply Z.div_le_lower_bound; lia).
      rewrite Z.max_r by lia. nia.
    + intros Hlt. assert (batch_size / step < 1).
      { apply Z.div_lt_upper_bound; lia. }
      lia.
  - unfold gradient_accumulation_steps. cbn [length]. by rewrite Z.mul_0_r.
Qed.

Lemma gradient_accumulation_steps_bounds_witness :
  exists steps,
    gradient_accumulation_steps 70 4 [0; 1] = Some steps
    /\ 1 <= steps
    /\ (8 <= 70 -> steps * 8 <= 70 < (steps + 1) * 8)
    /\ (70 < 8 -> steps = 1).
Proof.
  destruct (gradient_accumulation_steps_bounds 70 4 [0; 1]) as [H _].
  apply H; [lia|discriminate].
Defined.

Section LazyPairFacts.

Variable tokenize : string -> list Z.
Variable pad_token_id : Z.
Variable model_max_length : Z.
Variable cls : class_dict.
Variable F : Type.
Variable graph_data_all : gmap string (list F).
Variable as_long : Z -> Z.
Variable cfg : graph_cfg.
Variable node_feas : option Z.

(** X25: the item of a link-prediction record ([is_graph] set,
    [sep_graph_conv_front] unset), for an integer subscript in range and a
    record whose id ends in ["_LP"].  A record whose ['graph'] entry lacks
    [edge_index_1] stops with [KeyError].  When the entry has the six keys
    of the two graphs and the nodes are rows of the table of the graph
    type, [__getitem__] runs [preprocess] on the conversation expanded by
    [preprocess_graph_LP] with the sizes of the two node lists, in this
    order: while the class has no attribute [default_conversation], as the
    class of the module, that call raises [AttributeError] and so does
    [__getitem__]; whatever [preprocess] raises, [__getitem__] raises; and
    when [preprocess] returns, it returns one row of token ids and one row
    of labels, and the item holds them and, as [graph_data], the two
    graphs. *)
Theorem lazy_item_link_prediction (list_data_dict : list json_record) (i : Z)
    (r : json_record) (graph_type : string) (g : graph_entry)
    (edges1 edges2 : list (list Z)) (nodes1 nodes2 : list Z) (idx1 idx2 : Z)
    (reps1 reps2 : list F) :
  py_index list_data_dict i = Ok r ->
  py_index (PyStr.split_from "_" 0 (rec_id r)) (-1) = Ok "LP" ->
  py_index (PyStr.split_from "_" 0 (rec_id r)) 0 = Ok graph_type ->
  rec_graph r = Some g ->
  let getitem :=
    LazySupervisedDataset_getitem json_record _
      (lazy_item tokenize pad_token_id model_max_length cls F graph_data_all as_long
         cfg node_feas)
      list_data_dict (IInt i) in
  let prepared :=
    preprocess tokenize pad_token_id model_max_length cls
      [map (expand_sentence_LP cfg (Z.of_nat (length nodes1))
              (Z.of_nat (length nodes2)))
         (rec_conversations r)] in
  (g_edge_index_1 g = Some edges1 -> g_node_list_1 g = Some nodes1 ->
   g_node_idx_1 g = Some idx1 ->
   g_edge_index_2 g = Some edges2 -> g_node_list_2 g = Some nodes2 ->
   g_node_idx_2 g = Some idx2 ->
   node_rows F graph_data_all graph_type nodes1 = Ok reps1 ->
   node_rows F graph_data_all graph_type nodes2 = Ok reps2 ->
   is_graph cfg = true -> sep_graph_conv_front cfg = false ->
   (cls !! "default_conversation" = None -> getitem = Raise AttributeError)
   /\ (forall e, prepared = Raise e -> getitem = Raise e)
   /\ (forall ids labels log,
         prepared = Ok (ids, labels, log) ->
         exists row lab,
           ids = [row] /\ labels = [lab] /\ labels_of row lab
           /\ getitem
              = Ok (Instance row lab
                      (Some (TwoGraphs
                               (MkData reps1 (map (map as_long) edges1) [idx1])
                               (MkData reps2 (map (map as_long) edges2) [idx2]))),
                    log)))
  /\ (g_edge_index_1 g = None -> getitem = Raise KeyError).
Proof.
  intros Hr Htask Htype Hg getitem prepared. subst getitem.
  unfold LazySupervisedDataset_getitem. cbn [py_getitem]. rewrite Hr.
  cbn [mbind outcome_bind sources_len Nat.eqb py_assert].
  unfold lazy_item. rewrite Htask. cbn [mbind outcome_bind].
  change (String.eqb "LP" "LP") with true. cbn [negb]. rewrite Hg. split.
  - intros He1 Hn1 Hi1 He2 Hn2 Hi2 Hrows1 Hrows2 Hgraph Hfront.
    assert (length reps1 = length nodes1) as Hlen1.
    { unfold node_rows in Hrows1. destruct (key _) as [x|]; [|done].
      cbn [mbind outcome_bind] in Hrows1. by apply for_each_length in Hrows1. }
    assert (length reps2 = length nodes2) as Hlen2.
    { unfold node_rows in Hrows2. destruct (key _) as [x|]; [|done].
      cbn [mbind outcome_bind] in Hrows2. by apply for_each_length in Hrows2. }
    rewrite He1, Hn1, Hi1, Htype. cbn [key mbind outcome_bind].
    rewrite Hrows1. cbn [mbind outcome_bind].
    rewrite He2, Hn2, Hi2. cbn [key mbind outcome_bind].
    rewrite Hrows2. cbn [mbind outcome_bind].
    rewrite preprocess_graph_LP_plain by done. cbn [mbind outcome_bind map fst snd].
    rewrite Hlen1, Hlen2. fold prepared.
    split; [|split].
    + intros Hno. subst prepared. by rewrite preprocess_absent.
    + by intros e ->.
    + intros ids labels log Hpre. rewrite Hpre.
      apply preprocess_single in Hpre as (row & lab & -> & -> & Hlab).
      exists row, lab. split; [done|]. split; [done|]. split; [done|].
      cbn [mbind outcome_bind fst snd]. by rewrite !py_index_0_cons.
  - intros He1. by rewrite He1.
Qed.

End LazyPairFacts.

Lemma lazy_item_link_prediction_witness :
  LazySupervisedDataset_getitem json_record _
    (lazy_item word_tokenizer 0 64 conversation_lib_class string cora_table (fun v => v)
       bracketing (Some 8))
    [pair_record] (IInt 0)
  = Raise AttributeError
  /\ exists row lab,
       labels_of row lab
       /\ LazySupervisedDataset_getitem json_record _
            (lazy_item word_tokenizer 0 64 (class_with conv_vicuna_v1_1) string
               cora_table (fun v => v) bracketing (Some 8))
            [pair_record] (IInt 0)
          = Ok (Instance row lab
                  (Some (TwoGraphs
                           (MkData ["n0"; "n1"] [[0]; [1]] [0])
                           (MkData ["n2"] [[1]; [0]] [2]))),
                []).
Proof.
  split.
  - destruct (lazy_item_link_prediction word_tokenizer 0 64 conversation_lib_class
                string cora_table (fun v => v) bracketing (Some 8) [pair_record] 0
                pair_record "cora"
                (GraphEntry None None None (Some [[0]; [1]]) (Some [0; 1]) (Some 0)
                   (Some [[1]; [0]]) (Some [2]) (Some 2))
                [[0]; [1]] [[1]; [0]] [0; 1] [2] 0 2 ["n0"; "n1"] ["n2"]) as [H _];
      [reflexivity | reflexivity | reflexivity | reflexivity |].
    destruct H as [H _];
      [reflexivity | reflexivity | reflexivity | reflexivity | reflexivity
      | reflexivity | reflexivity | reflexivity | reflexivity | reflexivity |].
    apply H. reflexivity.
  - destruct (lazy_item_link_prediction word_tokenizer 0 64
                (class_with conv_vicuna_v1_1)
                string cora_table (fun v => v) bracketing (Some 8) [pair_record] 0
                pair_record "cora"
                (GraphEntry None None None (Some [[0]; [1]]) (Some [0; 1]) (Some 0)
                   (Some [[1]; [0]]) (Some [2]) (Some 2))
                [[0]; [1]] [[1]; [0]] [0; 1] [2] 0 2 ["n0"; "n1"] ["n2"]) as [H _];
      [reflexivity | reflexivity | reflexivity | reflexivity |].
    destruct H as (_ & _ & H);
      [reflexivity | reflexivity | reflexivity | reflexivity | reflexivity
      | reflexivity | reflexivity | reflexivity | reflexivity | reflexivity |].
    edestruct H as (row & lab & _ & _ & Hlab & Hitem); [vm_compute; reflexivity|].
    exists row, lab. split; [exact Hlab|]. exact Hitem.
Defined.

(** * The eager dataset *)

Section EagerFacts.

Variable tokenize : string -> list Z.
Variable pad_token_id : Z.
Variable model_max_length : Z.
Variable cls : class_dict.

(** X26: the eager dataset.  While the class has no attribute
    [default_conversation], as the class of the module,
    [SupervisedDataset.__init__] stops with [AttributeError] for every
    file, so no dataset is built.  When it returns, on whichever path of
    [preprocess], the dataset has as many items as the file has records,
    and for every integer subscript in range (counted from the end when
    negative) [__getitem__] returns a row of token ids and a row of labels
    of the same length whose labels are each the token id at the position
    or [-100]; outside the range it stops with [IndexError]. *)
Theorem eager_dataset_items (list_data_dict : list json_record) :
  (cls !! "default_conversation" = None ->
   SupervisedDataset_init tokenize pad_token_id model_max_length cls list_data_dict
   = Raise AttributeError)
  /\ forall d log,
       SupervisedDataset_init tokenize pad_token_id model_max_length cls list_data_dict
       = Ok (d, log) ->
       (exists dc, cls !! "default_conversation" = Some (VConversation dc))
       /\ SupervisedDataset_len d = Z.of_nat (length list_data_dict)
       /\ (forall i,
             - Z.of_nat (length list_data_dict) <= i < Z.of_nat (length list_data_dict) ->
             exists row lab,
               SupervisedDataset_getitem d (IInt i) = Ok (One row, One lab)
               /\ labels_of row lab)
       /\ (forall i,
             i < - Z.of_nat (length list_data_dict)
             \/ Z.of_nat (length list_data_dict) <= i ->
             SupervisedDataset_getitem d (IInt i) = Raise IndexError).
Proof.
  unfold SupervisedDataset_init. split.
  { intros Hno. by rewrite preprocess_absent. }
  intros d log.
  destruct (preprocess _ _ _ _ _) as [[[ids labels] out]|] eqn:Hpre; [|done].
  cbn [mbind outcome_bind fst snd]. intros [= <- <-].
  apply preprocess_rows in Hpre as (Hdc & Hlen & Hrows). rewrite length_map in Hlen.
  pose proof (Forall2_length _ _ _ Hrows) as Hlen'.
  unfold SupervisedDataset_len, SupervisedDataset_getitem. cbn [sd_input_ids sd_labels py_getitem].
  split; [exact Hdc|]. split; [by rewrite Hlen|]. split.
  - intros i Hi.
    set (j := if i <? 0 then Z.of_nat (length ids) + i else i).
    assert (0 <= j < Z.of_nat (length ids)) as Hj.
    { subst j. destruct (Z.ltb_spec i 0); lia. }
    destruct (lookup_lt_is_Some_2 ids (Z.to_nat j)) as [row Hrow]; [lia|].
    destruct (lookup_lt_is_Some_2 labels (Z.to_nat j)) as [lab Hlab]; [lia|].
    exists row, lab. split.
    + unfold py_index. rewrite <- Hlen'. fold j.
      destruct (Z.leb_spec 0 j); [|lia].
      destruct (Z.ltb_spec j (Z.of_nat (length ids))); [|lia].
      cbn [andb]. by rewrite Hrow, Hlab.
    + by eapply Forall2_lookup_lr.
  - intros i Hi. unfold py_index.
    set (j := if i <? 0 then Z.of_nat (length ids) + i else i).
    assert (j < 0 \/ Z.of_nat (length ids) <= j) as Hj.
    { subst j. destruct (Z.ltb_spec i 0); lia. }
    destruct (Z.leb_spec 0 j); destruct (Z.ltb_spec j (Z.of_nat (length ids)));
      try done; lia.
Qed.

End EagerFacts.

Lemma eager_dataset_items_witness :
  SupervisedDataset_init word_tokenizer 0 64 conversation_lib_class
    [plain_record; plain_record] = Raise AttributeError
  /\ exists d log,
       SupervisedDataset_init word_tokenizer 0 64 (class_with conv_vicuna_v1_1)
         [plain_record; plain_record] = Ok (d, log)
       /\ SupervisedDataset_len d = 2
       /\ exists row lab,
            SupervisedDataset_getitem d (IInt (-1)) = Ok (One row, One lab)
            /\ labels_of row lab.
Proof.
  split.
  - by apply (eager_dataset_items word_tokenizer 0 64 conversation_lib_class).
  - destruct (SupervisedDataset_init word_tokenizer 0 64 (class_with conv_vicuna_v1_1)
                [plain_record; plain_record]) as [[d log]|] eqn:E;
      [|vm_compute in E; discriminate].
    exists d, log. split; [reflexivity|].
    destruct (eager_dataset_items word_tokenizer 0 64 (class_with conv_vicuna_v1_1)
                [plain_record; plain_record]) as [_ H].
    destruct (H d log E) as (_ & Hlen & Hitem & _).
    split; [exact Hlen|]. apply Hitem. cbn. lia.
Defined.

(** * The rounds of a prompt in the TWO style *)

Lemma split_from_clean c sub (t : string) :
  PyStr.has_char c t = false -> PyStr.split_from (String c sub) 0 t = [t].
Proof.
  induction t as [|x t IH]; [done|]. cbn [PyStr.has_char].
  intros [Hx Ht]%orb_false_elim. cbn [PyStr.split_from PyStr.startswith].
  rewrite Hx. cbn [andb]. by rewrite IH.
Qed.

Lemma split_from_clean_sep c sub (t rest : string) :
  PyStr.has_char c t = false ->
  PyStr.split_from (String c sub) 0 (t +:+ String c sub +:+ rest)
  = t :: PyStr.split_from (String c sub) 0 rest.
Proof.
  induction t as [|x t IH].
  - intros _. change ("" +:+ String c sub +:+ rest) with (String c (sub +:+ rest)).
    cbn [PyStr.split_from]. 
    change (String c (sub +:+ rest)) with (String c sub +:+ rest) at 1.
    rewrite startswith_append. cbn [String.length].
    by rewrite Nat.sub_succ, Nat.sub_0_r, split_from_skip.
  - cbn [PyStr.has_char]. intros [Hx Ht]%orb_false_elim.
    change (String x t +:+ String c sub +:+ rest)
      with (String x (t +:+ String c sub +:+ rest)).
    cbn [PyStr.split_from PyStr.startswith]. rewrite Hx. cbn [andb].
    by rewrite IH.
Qed.

Lemma two_loop_dialogue sp sp2 r0 r1 (pairs : list (string * string)) (i : nat)
    (ret : string) :
  Nat.even i = true ->
  Forall (fun p : string * string => p.1 <> "" /\ p.2 <> "") pairs ->
  two_loop sp (Some sp2) i ret (dialogue_turns r0 r1 pairs)
  = Ok (ret +:+ rounds_text sp sp2 r0 r1 pairs).
Proof.
  intros Hi Hne. revert i ret Hi.
  induction Hne as [|[u a] pairs [Hu Ha] _ IH]; intros i ret Hi.
  - cbn [dialogue_turns map concat two_loop rounds_text]. by rewrite append_nil_r.
  - cbn [fst snd] in Hu, Ha.
    change (dialogue_turns r0 r1 ((u, a) :: pairs))
      with ((r0, MsgText u) :: (r1, MsgText a) :: dialogue_turns r0 r1 pairs).
    cbn [two_loop truthy message_text].
    destruct (String.eqb_spec u "") as [|_]; [done|].
    destruct (String.eqb_spec a "") as [|_]; [done|].
    cbn [negb]. rewrite Hi.
    assert (Nat.even (S i) = false) as ->.
    { rewrite Nat.even_succ, <- Nat.negb_even. by rewrite Hi. }
    rewrite IH by (cbn [Nat.even]; exact Hi).
    cbn [rounds_text]. unfold round_text. cbn [fst snd].
    by rewrite !append_assoc.
Qed.

Lemma split_rounds_text c0 sub sp r0 r1 (pairs : list (string * string)) :
  Forall (fun p => PyStr.has_char c0 (round_text sp r0 r1 p) = false) pairs ->
  PyStr.split_from (String c0 sub) 0 (rounds_text sp (String c0 sub) r0 r1 pairs)
  = map (round_text sp r0 r1) pairs ++ [""].
Proof.
  induction 1 as [|p pairs Hp _ IH]; [done|].
  cbn [rounds_text map app]. by rewrite split_from_clean_sep, IH.
Qed.

(** X27: the rounds of a dialogue in the TWO style.  For a conversation
    of questions and answers (none empty) whose [sep2] begins with a
    character that is neither [':'] nor a space and occurs in none of the
    system prompt, [sep], the role names and the texts, the prompt is the
    system prompt and [sep] followed by the rounds, each a question and its
    answer closed by [sep2]; and splitting the prompt at [sep2], as the
    masking loop does, gives back one piece per round, the first one with
    the system prompt in front, and an empty piece at the end. *)
Theorem two_prompt_rounds (c : conversation) (c0 : ascii) (sub r0 r1 : string)
    (pairs : list (string * string)) :
  sep_style c = Member TWO ->
  sep2 c = Some (String c0 sub) ->
  messages c = dialogue_turns r0 r1 pairs ->
  Forall (fun p : string * string => p.1 <> "" /\ p.2 <> "") pairs ->
  c0 <> ":"%char -> c0 <> " "%char ->
  PyStr.has_char c0 (system c) = false -> PyStr.has_char c0 (sep c) = false ->
  PyStr.has_char c0 r0 = false -> PyStr.has_char c0 r1 = false ->
  Forall (fun p : string * string =>
            PyStr.has_char c0 p.1 = false /\ PyStr.has_char c0 p.2 = false) pairs ->
  get_prompt c
  = Ok (system c +:+ sep c +:+ rounds_text (sep c) (String c0 sub) r0 r1 pairs)
  /\ PyStr.split (system c +:+ sep c
                  +:+ rounds_text (sep c) (String c0 sub) r0 r1 pairs) (sep2 c)
     = Ok (match pairs with
           | [] => [system c +:+ sep c]
           | p :: ps =>
               (system c +:+ sep c +:+ round_text (sep c) r0 r1 p)
               :: map (round_text (sep c) r0 r1) ps ++ [""]
           end).
Proof.
  intros Hstyle Hsep2 Hmsgs Hne Hcolon Hspace Hsys Hsep Hr0 Hr1 Hclean.
  assert (PyStr.has_char c0 ": " = false) as Hcs.
  { cbn [PyStr.has_char]. destruct (Ascii.eqb_spec c0 ":"); [done|].
    by destruct (Ascii.eqb_spec c0 " "). }
  assert (Forall (fun p => PyStr.has_char c0 (round_text (sep c) r0 r1 p) = false) pairs)
    as Hrounds.
  { eapply Forall_impl; [exact Hclean|]. intros [u a] [Hu Ha]. cbn [fst snd] in *.
    unfold round_text. cbn [fst snd].
    by rewrite !has_char_append, Hr0, Hr1, Hcs, Hu, Ha, Hsep. }
  split.
  - unfold get_prompt. rewrite Hstyle, Hsep2, Hmsgs.
    rewrite two_loop_dialogue by done. by rewrite append_assoc.
  - rewrite Hsep2. cbn [PyStr.split].
    destruct pairs as [|p ps].
    + cbn [rounds_text]. rewrite !append_nil_r. f_equal.
      apply split_from_clean.
      by rewrite has_char_append, Hsys, Hsep.
    + apply Forall_cons_1 in Hrounds as [Hp Hps].
      cbn [rounds_text]. f_equal.
      replace (system c +:+ sep c
               +:+ round_text (sep c) r0 r1 p +:+ String c0 sub
               +:+ rounds_text (sep c) (String c0 sub) r0 r1 ps)
        with ((system c +:+ sep c +:+ round_text (sep c) r0 r1 p)
              +:+ String c0 sub +:+ rounds_text (sep c) (String c0 sub) r0 r1 ps)
        by (by rewrite !append_assoc).
      rewrite split_from_clean_sep
        by (by rewrite !has_char_append, Hsys, Hsep, Hp).
      by rewrite split_rounds_text.
Qed.

Lemma two_prompt_rounds_witness :
  get_prompt (set_messages conv_bair_v1
                (dialogue_turns "USER" "GPT" [("hi", "hello there"); ("and you", "fine")]))
  = Ok ("BEGINNING OF CONVERSATION:" +:+ " "
        +:+ rounds_text " " "</s>" "USER" "GPT"
              [("hi", "hello there"); ("and you", "fine")])
  /\ PyStr.split ("BEGINNING OF CONVERSATION:" +:+ " "
                  +:+ rounds_text " " "</s>" "USER" "GPT"
                        [("hi", "hello there"); ("and you", "fine")])
       (Some "</s>")
     = Ok ["BEGINNING OF CONVERSATION: USER: hi GPT: hello there";
           "USER: and you GPT: fine"; ""].
Proof.
  apply (two_prompt_rounds
           (set_messages conv_bair_v1
              (dialogue_turns "USER" "GPT" [("hi", "hello there"); ("and you", "fine")]))
           "<" "/s>" "USER" "GPT" [("hi", "hello there"); ("and you", "fine")]).
  - reflexivity.
  - reflexivity.
  - reflexivity.
  - repeat constructor; discriminate.
  - discriminate.
  - discriminate.
  - reflexivity.
  - reflexivity.
  - reflexivity.
  - reflexivity.
  - repeat constructor.
Defined.

(** * The adjacency dictionary of [to_planetoid] *)

Lemma graph_append_lookup (k v j : Z) (g : gmap Z (list Z)) :
  default [] (graph_append k v g !! j)
  = default [] (g !! j) ++ (if decide (k = j) then [v] else []).
Proof.
  unfold graph_append. destruct (decide (k = j)) as [->|Hne].
  - by rewrite lookup_insert_eq.
  - rewrite lookup_insert_ne by done. by rewrite app_nil_r.
Qed.

Lemma graph_append_keys (k v j : Z) (g : gmap Z (list Z)) :
  is_Some (graph_append k v g !! j) <-> k = j \/ is_Some (g !! j).
Proof.
  unfold graph_append. destruct (decide (k = j)) as [->|Hne].
  - rewrite lookup_insert_eq. split; [by left|by eexists].
  - rewrite lookup_insert_ne by done. split; [by right|by intros [?|?]].
Qed.

Lemma fold_edges_lookup (edges : list (Z * Z)) (g : gmap Z (list Z)) (j : Z) :
  default [] (fold_left (fun g e => graph_append e.1 e.2 g) edges g !! j)
  = default [] (g !! j)
    ++ map snd (List.filter (fun e : Z * Z => e.1 =? j) edges)
  /\ (is_Some (fold_left (fun g e => graph_append e.1 e.2 g) edges g !! j)
      <-> is_Some (g !! j) \/ Exists (fun e : Z * Z => e.1 = j) edges).
Proof.
  revert g. induction edges as [|[s e] edges IH]; intros g.
  - cbn [fold_left List.filter map]. rewrite app_nil_r. split; [done|].
    split; [by left|]. intros [?|H]; [done|]. by apply Exists_nil in H.
  - cbn [fold_left List.filter fst snd].
    destruct (IH (graph_append s e g)) as [Hval Hkey]. split.
    + rewrite Hval, graph_append_lookup.
      destruct (decide (s = j)) as [->|Hne].
      * rewrite Z.eqb_refl. cbn [map snd]. by rewrite <- app_assoc.
      * destruct (Z.eqb_spec s j); [done|]. by rewrite app_nil_r.
    + rewrite Hkey, graph_append_keys, Exists_cons. cbn [fst]. tauto.
Qed.

Lemma fold_nodes_lookup (nodes : list Z) (g : gmap Z (list Z)) (j : Z) :
  NoDup nodes -> (forall i, i ∈ nodes -> g !! i = None) ->
  fold_left (fun g i => graph_append i i g) nodes g !! j
  = if decide (j ∈ nodes) then Some [j] else g !! j.
Proof.
  revert g. induction nodes as [|i nodes IH]; intros g Hnd Hfresh.
  { cbn [fold_left]. rewrite decide_False; [done|]. apply not_elem_of_nil. }
  apply NoDup_cons in Hnd as [Hi Hnd]. cbn [fold_left].
  rewrite IH; [|done|].
  - destruct (decide (j ∈ nodes)) as [Hj|Hj].
    + rewrite decide_True by (apply elem_of_cons; by right). done.
    + unfold graph_append. destruct (decide (i = j)) as [->|Hne].
      * rewrite decide_True by (apply elem_of_cons; by left).
        rewrite lookup_insert_eq, (Hfresh j) by (apply elem_of_cons; by left). done.
      * rewrite decide_False.
        -- by rewrite lookup_insert_ne.
        -- intros [?|?]%elem_of_cons; [by subst|done].
  - intros k Hk. unfold graph_append. rewrite lookup_insert_ne.
    + apply Hfresh. apply elem_of_cons. by right.
    + by intros ->.
Qed.

Lemma py_range_unit (n : Z) :
  NoDup (py_range 0 n 1) /\ forall j, j ∈ py_range 0 n 1 <-> 0 <= j < n.
Proof.
  unfold py_range.
  replace ((n - 0 + 1 - 1) / 1) with n by (rewrite Z.div_1_r; lia).
  split.
  - apply NoDup_fmap_2; [|apply NoDup_seq]. intros a b Hab. lia.
  - intros j. rewrite list_elem_of_In, in_map_iff. split.
    + intros (k & <- & Hk). apply in_seq in Hk. lia.
    + intros Hj. exists (Z.to_nat j). split; [lia|]. apply in_seq. lia.
Qed.

(** X28: the adjacency dictionary of [to_planetoid], for [n] nodes and
    the edges in the order of [edge_index].  The list of a node [j] of
    [range(n)] is [j] itself followed by the ends of the edges that start
    at [j], in order; a start outside [range(n)] gets a list of its own
    with the ends only; a number that is neither a node nor the start of an
    edge is no key. *)
Theorem planetoid_graph_lookup (n : Z) (edge_index : list (Z * Z)) (j : Z) :
  let ends := map snd (List.filter (fun e : Z * Z => e.1 =? j) edge_index) in
  planetoid_graph n edge_index !! j
  = if decide (0 <= j < n) then Some (j :: ends)
    else if decide (ends = []) then None
    else Some ends.
Proof.
  intros ends. unfold planetoid_graph.
  destruct (py_range_unit n) as [Hnd Hin].
  set (g0 := fold_left (fun g i => graph_append i i g) (py_range 0 n 1) ∅).
  assert (g0 !! j = if decide (0 <= j < n) then Some [j] else None) as Hg0.
  { subst g0. rewrite fold_nodes_lookup by done.
    destruct (decide (j ∈ py_range 0 n 1)) as [H|H].
    - apply Hin in H. by rewrite decide_True.
    - rewrite decide_False; [done|]. intros Hj. by apply H, Hin. }
  destruct (fold_edges_lookup edge_index g0 j) as [Hval Hkey]. fold ends in Hval.
  rewrite Hg0 in Hval, Hkey.
  destruct (fold_left _ edge_index g0 !! j) as [l|] eqn:E; simpl in Hval.
  - destruct (decide (0 <= j < n)); simpl in Hval; rewrite Hval; [done|].
    destruct (decide (ends = [])) as [Hends|]; [|done].
    destruct Hkey as [Hkey _]. destruct (Hkey ltac:(by eexists)) as [[? [=]]|Hex].
    exfalso. apply Exists_exists in Hex as ([s e] & Hse & Hs). cbn [fst] in Hs.
    assert (In e ends) as Hin'.
    { subst ends. apply in_map_iff. exists (s, e). split; [done|].
      apply filter_In. split; [by apply list_elem_of_In|]. cbn [fst]. by apply Z.eqb_eq. }
    rewrite Hends in Hin'. done.
  - destruct (decide (0 <= j < n)); simpl in Hval.
    + destruct Hkey as [_ Hkey]. by destruct (Hkey ltac:(left; by eexists)) as [? [=]].
    + by rewrite <- Hval, decide_True.
Qed.
